(** * Port bridges, latches and bank switching of the DJ Boy driver and the
      Data East BSMT2000 sound board

    Shallow embedding of
      - src/mame/audio/decobsmt.cpp  (module [Decobsmt])
      - src/mame/drivers/djboy.cpp   (module [Djboy])
    together with the small part of the host framework these two files
    call into (module [Framework]).  The framework itself (latch device,
    memory banks, input lines, save-state registry) is not part of the
    sources at hand; every definition of it carries a doc comment saying
    where its behaviour is taken from. *)

From Stdlib Require Import ZArith Bool List Lia.
From stdpp Require Import base option list strings gmap.

Local Open Scope Z_scope.

(* ===================================================================== *)
(** ** Fixed-width integers *)
(* ===================================================================== *)

Module U8.

(** Conversion to [uint8_t]: the value modulo 2^8. *)
Definition u8 (x : Z) : Z := x mod 256.

(** The values a [uint8_t] can hold. *)
Definition is_u8 (x : Z) : Prop := 0 <= x < 256.

(** Modelled from the spec: the framework's [BIT(x, n)] macro is not in
    the sources; it extracts bit [n] of [x], [(x >> n) & 1]. *)
Definition BIT (x n : Z) : Z := Z.land (Z.shiftr x n) 1.

(** C truth value of an integer expression. *)
Definition truthy (x : Z) : bool := negb (x =? 0).

(** [~x] on a [uint8_t]. *)
Definition not8 (x : Z) : Z := u8 (Z.lnot x).

End U8.
Import U8.

(* ===================================================================== *)
(** ** Host framework services used by the drivers *)
(* ===================================================================== *)

Module Framework.

(** Modelled from the spec: the line-state constants of the host are not
    in the sources.  An interrupt line is "asserted, cleared, pulsed";
    [HOLD_LINE] is the fourth state the drivers name. *)
Inductive line_state : Set :=
| CLEAR_LINE | ASSERT_LINE | HOLD_LINE | PULSE_LINE.

(** Modelled from the spec: the line numbers of the host are not in the
    sources; these are the input lines the two drivers name. *)
Inductive input_line : Set :=
| INPUT_LINE_RESET | INPUT_LINE_NMI | INPUT_LINE_IRQ0
| M6809_IRQ_LINE | M6809_FIRQ_LINE.

Definition input_line_eqb (a b : input_line) : bool :=
  match a, b with
  | INPUT_LINE_RESET, INPUT_LINE_RESET
  | INPUT_LINE_NMI, INPUT_LINE_NMI
  | INPUT_LINE_IRQ0, INPUT_LINE_IRQ0
  | M6809_IRQ_LINE, M6809_IRQ_LINE
  | M6809_FIRQ_LINE, M6809_FIRQ_LINE => true
  | _, _ => false
  end.

(** Modelled from the spec: a processor core as seen by a driver is the
    state of its input lines; every line is clear when the machine is
    created ("initial state RUNNING"). *)
Definition cpu_device : Type := input_line -> line_state.

Definition cpu_initial : cpu_device := fun _ => CLEAR_LINE.

(** Modelled from the spec: [set_input_line(line, state)] of the host
    stores the state on the line. *)
Definition set_input_line (line : input_line) (st : line_state)
    (c : cpu_device) : cpu_device :=
  fun l => if input_line_eqb l line then st else c l.

(** Calls a handler makes on an attached peripheral, in program order.
    The peripherals that are only commanded (the BSMT2000 chip) are
    represented by this record of what they received. *)
Inductive call : Set :=
| Device_reset (tag : string)
| Bsmt_write_reg (v : Z)
| Bsmt_write_data (v : Z)
| Latch_write (tag : string) (v : Z)
| Latch_read (tag : string)
| Latch_acknowledge (tag : string).

Definition call_eqb (a b : call) : bool :=
  match a, b with
  | Device_reset s, Device_reset t => String.eqb s t
  | Bsmt_write_reg v, Bsmt_write_reg w => v =? w
  | Bsmt_write_data v, Bsmt_write_data w => v =? w
  | Latch_write s v, Latch_write t w => String.eqb s t && (v =? w)
  | Latch_read s, Latch_read t => String.eqb s t
  | Latch_acknowledge s, Latch_acknowledge t => String.eqb s t
  | _, _ => false
  end.

(** Number of calls of a trace that satisfy [p]. *)
Definition count_if (p : call -> bool) (tr : list call) : nat :=
  length (filter (fun x => Is_true (p x)) tr).

(** Number of times call [c] occurs in a trace. *)
Definition count_calls (c : call) (tr : list call) : nat :=
  count_if (call_eqb c) tr.

(** Writes to the latch [tag], whatever the value. *)
Definition is_latch_write (tag : string) (c : call) : bool :=
  match c with
  | Latch_write t _ => String.eqb t tag
  | _ => false
  end.

(** *** Latch *)

(** Modelled from the spec: the 8-bit latch device is not in the
    sources.  "Latch: value (byte), pending flag"; the configuration
    says whether acknowledge is separate from read and which interrupt
    line, if any, follows the pending flag. *)
Record generic_latch_8_device : Type := {
  m_latched_value : Z;
  m_latch_written : bool;
  m_separate_acknowledge : bool;
  m_data_pending_cb : option (string * input_line)
}.

(** Modelled from the spec: a latch as the machine configuration adds it
    (nothing written, acknowledge on read, no line attached). *)
Definition generic_latch_8_add : generic_latch_8_device :=
  {| m_latched_value := 0; m_latch_written := false;
     m_separate_acknowledge := false; m_data_pending_cb := None |}.

(** Modelled from the spec: "optionally raises a configured interrupt
    line"; the configuration names the line. *)
Definition set_data_pending_cb (cpu : string) (line : input_line)
    (l : generic_latch_8_device) : generic_latch_8_device :=
  {| m_latched_value := m_latched_value l;
     m_latch_written := m_latch_written l;
     m_separate_acknowledge := m_separate_acknowledge l;
     m_data_pending_cb := Some (cpu, line) |}.

(** Modelled from the spec: the configuration chooses the
    "separate acknowledge" mode. *)
Definition set_separate_acknowledge (ack : bool)
    (l : generic_latch_8_device) : generic_latch_8_device :=
  {| m_latched_value := m_latched_value l;
     m_latch_written := m_latch_written l;
     m_separate_acknowledge := ack;
     m_data_pending_cb := m_data_pending_cb l |}.

(** Modelled from the spec: the pending flag of the latch is set or
    cleared. *)
Definition set_latch_written (w : bool)
    (l : generic_latch_8_device) : generic_latch_8_device :=
  {| m_latched_value := m_latched_value l;
     m_latch_written := w;
     m_separate_acknowledge := m_separate_acknowledge l;
     m_data_pending_cb := m_data_pending_cb l |}.

(** Modelled from the spec: "[write(value)] stores value, sets pending,
    optionally raises a configured interrupt line". *)
Definition latch_write (v : Z) (l : generic_latch_8_device)
    : generic_latch_8_device :=
  {| m_latched_value := v;
     m_latch_written := true;
     m_separate_acknowledge := m_separate_acknowledge l;
     m_data_pending_cb := m_data_pending_cb l |}.

(** Modelled from the spec: "[read()] returns stored value; if configured
    for separate acknowledge, pending is NOT cleared by read". *)
Definition latch_read (l : generic_latch_8_device)
    : Z * generic_latch_8_device :=
  (m_latched_value l,
   if m_separate_acknowledge l then l else set_latch_written false l).

(** Modelled from the spec: "a distinct [acknowledge()] call clears it
    and optionally lowers the line". *)
Definition latch_acknowledge_w (l : generic_latch_8_device)
    : generic_latch_8_device :=
  set_latch_written false l.

(** Modelled from the spec: "[pending()] returns current pending flag
    without side effects". *)
Definition latch_pending_r (l : generic_latch_8_device) : bool :=
  m_latch_written l.

(** Modelled from the spec: the interrupt line attached to the latch, if
    one is, is raised while the latch is pending. *)
Definition latch_line (l : generic_latch_8_device)
    : option (string * input_line * line_state) :=
  match m_data_pending_cb l with
  | Some (cpu, line) =>
      Some (cpu, line, if m_latch_written l then ASSERT_LINE else CLEAR_LINE)
  | None => None
  end.

(** *** Memory regions and banks *)

(** Modelled from the spec: a "backing linear byte array": the bytes of a
    region, addressed from 0; there is no byte outside it. *)
Definition region_at (r : list Z) (a : Z) : option Z :=
  if a <? 0 then None else r !! Z.to_nat a.

(** Modelled from the spec: the bank device is not in the sources.
    "Bank state: current bank index (integer), mapped only if index is
    within configured range; selects an offset into a backing linear
    byte array".  [m_entries] gives, for every configured index, the
    offset of its first byte in the backing region. *)
Record memory_bank : Type := {
  m_entries : gmap Z Z;
  m_curentry : Z
}.

(** Modelled from the spec: [configure_entry(entrynum, base)] binds one
    index to the place [base] of the backing region. *)
Definition configure_entry (entrynum base : Z) (b : memory_bank)
    : memory_bank :=
  {| m_entries := <[entrynum := base]> (m_entries b);
     m_curentry := m_curentry b |}.

(** Modelled from the spec: [configure_entries(startentry, numentries,
    base, stride)] configures [numentries] consecutive indices from
    [startentry]; the k-th of them is the k-th window of [stride] bytes
    from [base], so that a unit configured from index 0 reads
    [backing[index * bank_size + offset]]. *)
Definition configure_entries (startentry numentries base stride : Z)
    (b : memory_bank) : memory_bank :=
  foldl (fun b k => configure_entry (startentry + k) (base + k * stride) b)
        b (seqZ 0 numentries).

(** Modelled from the spec: "[select(index)] sets the active bank". *)
Definition set_entry (entrynum : Z) (b : memory_bank) : memory_bank :=
  {| m_entries := m_entries b; m_curentry := entrynum |}.

Definition entry_configured (b : memory_bank) (entrynum : Z) : bool :=
  bool_decide (is_Some (m_entries b !! entrynum)).

(** Modelled from the spec: "subsequent reads through the mapped window
    return bytes from [backing[index * bank_size + offset]]"; the window
    is mapped only if the current index is configured. *)
Definition bank_read (backing : list Z) (b : memory_bank) (offset : Z)
    : option Z :=
  base ← m_entries b !! m_curentry b;
  region_at backing (base + offset).

(** Modelled from the spec: a bank before anything is configured; [cur]
    is its (unspecified) index. *)
Definition bank_unconfigured (cur : Z) : memory_bank :=
  {| m_entries := ∅; m_curentry := cur |}.

(** *** Address maps *)

(** Modelled from the spec: an address map is an "ordered set of (range,
    handler) bindings"; this is what a range can be bound to. *)
Inductive handler : Set :=
| H_rom
| H_ram
| H_ram_share (share : string)
| H_bankr (bank : string)
| H_device (dev : string).

Definition address_map : Type := list (Z * Z * handler).

(** Modelled from the spec: the router "finds the matching (range,
    handler) binding"; "last write wins if constructed with overlaps".
    The result is the handler and the offset into its range. *)
Fixpoint map_lookup (am : address_map) (addr : Z) : option (handler * Z) :=
  match am with
  | [] => None
  | (lo, hi, h) :: rest =>
      match map_lookup rest addr with
      | Some r => Some r
      | None =>
          if (lo <=? addr) && (addr <=? hi) then Some (h, addr - lo)
          else None
      end
  end.

End Framework.
Import Framework.

(* ===================================================================== *)
(** ** src/mame/audio/decobsmt.cpp *)
(* ===================================================================== *)

Module Decobsmt.

Definition M6809_TAG : string := "soundcpu".
Definition BSMT_TAG : string := "bsmt".

Record decobsmt_device : Type := {
  m_bsmt_latch : Z;
  m_bsmt_reset : Z;
  m_bsmt_comms : Z;
  m_ourcpu : cpu_device;        (* the 68B09E on the board *)
  m_bsmt : list call;           (* what the BSMT2000 has received *)
  bsmt_status : Z;              (* what [m_bsmt->read_status()] returns *)
  save_items : list string      (* names registered with [save_item] *)
}.

Definition set_m_bsmt_latch (v : Z) (d : decobsmt_device) :=
  {| m_bsmt_latch := v; m_bsmt_reset := m_bsmt_reset d;
     m_bsmt_comms := m_bsmt_comms d; m_ourcpu := m_ourcpu d;
     m_bsmt := m_bsmt d; bsmt_status := bsmt_status d;
     save_items := save_items d |}.

Definition set_m_bsmt_reset (v : Z) (d : decobsmt_device) :=
  {| m_bsmt_latch := m_bsmt_latch d; m_bsmt_reset := v;
     m_bsmt_comms := m_bsmt_comms d; m_ourcpu := m_ourcpu d;
     m_bsmt := m_bsmt d; bsmt_status := bsmt_status d;
     save_items := save_items d |}.

Definition set_m_bsmt_comms (v : Z) (d : decobsmt_device) :=
  {| m_bsmt_latch := m_bsmt_latch d; m_bsmt_reset := m_bsmt_reset d;
     m_bsmt_comms := v; m_ourcpu := m_ourcpu d;
     m_bsmt := m_bsmt d; bsmt_status := bsmt_status d;
     save_items := save_items d |}.

Definition set_m_ourcpu (c : cpu_device) (d : decobsmt_device) :=
  {| m_bsmt_latch := m_bsmt_latch d; m_bsmt_reset := m_bsmt_reset d;
     m_bsmt_comms := m_bsmt_comms d; m_ourcpu := c;
     m_bsmt := m_bsmt d; bsmt_status := bsmt_status d;
     save_items := save_items d |}.

(** [m_bsmt->f(...)]: the call is appended to what the chip received. *)
Definition bsmt_call (c : call) (d : decobsmt_device) :=
  {| m_bsmt_latch := m_bsmt_latch d; m_bsmt_reset := m_bsmt_reset d;
     m_bsmt_comms := m_bsmt_comms d; m_ourcpu := m_ourcpu d;
     m_bsmt := m_bsmt d ++ [c]; bsmt_status := bsmt_status d;
     save_items := save_items d |}.

Definition set_save_items (l : list string) (d : decobsmt_device) :=
  {| m_bsmt_latch := m_bsmt_latch d; m_bsmt_reset := m_bsmt_reset d;
     m_bsmt_comms := m_bsmt_comms d; m_ourcpu := m_ourcpu d;
     m_bsmt := m_bsmt d; bsmt_status := bsmt_status d;
     save_items := l |}.

(** decobsmt_device::bsmt_ready_callback *)
Definition bsmt_ready_callback (d : decobsmt_device) : decobsmt_device :=
  set_m_ourcpu (set_input_line M6809_IRQ_LINE ASSERT_LINE (m_ourcpu d)) d.

(** decobsmt_device::device_start: the body is empty, nothing is
    registered for the save state. *)
Definition device_start (d : decobsmt_device) : decobsmt_device :=
  set_save_items [] d.

(** decobsmt_device::device_reset *)
Definition device_reset (d : decobsmt_device) : decobsmt_device :=
  set_m_bsmt_comms 0 (set_m_bsmt_reset 0 (set_m_bsmt_latch 0 d)).

(** decobsmt_device::bsmt_reset_w *)
Definition bsmt_reset_w (data : Z) (d : decobsmt_device) : decobsmt_device :=
  let diff := u8 (Z.lxor data (m_bsmt_reset d)) in
  let d := set_m_bsmt_reset data d in
  if truthy (Z.land diff 0x80) && negb (truthy (Z.land data 0x80))
  then bsmt_call (Device_reset BSMT_TAG) d
  else d.

(** decobsmt_device::bsmt0_w *)
Definition bsmt0_w (data : Z) (d : decobsmt_device) : decobsmt_device :=
  set_m_bsmt_latch data d.

(** decobsmt_device::bsmt1_w *)
Definition bsmt1_w (offset data : Z) (d : decobsmt_device) : decobsmt_device :=
  let d := bsmt_call (Bsmt_write_reg (Z.lxor offset 0xff)) d in
  let d := bsmt_call
             (Bsmt_write_data (Z.lor (Z.shiftl (m_bsmt_latch d) 8) data)) d in
  set_m_ourcpu (set_input_line M6809_IRQ_LINE CLEAR_LINE (m_ourcpu d)) d.

(** decobsmt_device::bsmt_status_r *)
Definition bsmt_status_r (d : decobsmt_device) : Z :=
  u8 (Z.shiftl (bsmt_status d) 7).

(** decobsmt_device::bsmt_comms_r *)
Definition bsmt_comms_r (d : decobsmt_device) : Z := m_bsmt_comms d.

(** decobsmt_device::bsmt_comms_w *)
Definition bsmt_comms_w (data : Z) (d : decobsmt_device) : decobsmt_device :=
  set_m_bsmt_comms data d.

(** decobsmt_device::bsmt_reset_line *)
Definition bsmt_reset_line (state : line_state) (d : decobsmt_device)
    : decobsmt_device :=
  set_m_ourcpu (set_input_line INPUT_LINE_RESET state (m_ourcpu d)) d.

(** decobsmt_device::decobsmt_firq_interrupt *)
Definition decobsmt_firq_interrupt (d : decobsmt_device) : decobsmt_device :=
  set_m_ourcpu (set_input_line M6809_FIRQ_LINE HOLD_LINE (m_ourcpu d)) d.

(** Number of [reset()] calls the BSMT2000 has received. *)
Definition reset_calls (d : decobsmt_device) : nat :=
  count_calls (Device_reset BSMT_TAG) (m_bsmt d).

(** The board as the constructor leaves it (fields without initialiser
    are arbitrary: they are the arguments), before [device_reset]. *)
Definition constructed (latch reset comms status : Z) : decobsmt_device :=
  {| m_bsmt_latch := latch; m_bsmt_reset := reset; m_bsmt_comms := comms;
     m_ourcpu := cpu_initial; m_bsmt := []; bsmt_status := status;
     save_items := [] |}.

End Decobsmt.

(* ===================================================================== *)
(** ** src/mame/drivers/djboy.cpp *)
(* ===================================================================== *)

Module Djboy.

(** The digital inputs of the board.  The header that binds the port
    tags IN0..IN2 to [m_port_in[0..2]] and DSW1, DSW2 to
    [m_port_dsw[0..1]] is not in the sources; the fields are what
    [read()] returns for each tag. *)
Record ioports : Type := {
  IN0 : Z; IN1 : Z; IN2 : Z; DSW1 : Z; DSW2 : Z
}.

Definition m_port_in (io : ioports) (k : nat) : Z :=
  match k with
  | 0%nat => IN0 io
  | 1%nat => IN1 io
  | _ => IN2 io
  end.

Definition m_port_dsw (io : ioports) (k : nat) : Z :=
  match k with
  | 0%nat => DSW1 io
  | _ => DSW2 io
  end.

Record djboy_state : Type := {
  m_videoreg : Z;   (* driver registers *)
  m_scrollx : Z;
  m_scrolly : Z;
  m_bankxor : Z;
  m_beast_p0 : Z;
  m_beast_p1 : Z;
  m_beast_p2 : Z;
  m_beast_p3 : Z;
  m_masterbank : memory_bank;   (* banked windows *)
  m_masterbank_l : memory_bank;
  m_slavebank : memory_bank;
  m_soundbank : memory_bank;
  m_slavelatch : generic_latch_8_device;   (* mailboxes between the cores *)
  m_beastlatch : generic_latch_8_device;
  m_soundlatch : generic_latch_8_device;
  m_mastercpu : cpu_device;   (* input lines of the Z80s *)
  m_slavecpu : cpu_device;
  calls : list call;   (* calls made on the latches, in order *)
  save_items : list string   (* names registered with [save_item] *)
}.

Definition set_m_videoreg (v : Z) (s : djboy_state) : djboy_state :=
  {| m_videoreg := v; m_scrollx := m_scrollx s; m_scrolly := m_scrolly s;
     m_bankxor := m_bankxor s; m_beast_p0 := m_beast_p0 s;
     m_beast_p1 := m_beast_p1 s; m_beast_p2 := m_beast_p2 s;
     m_beast_p3 := m_beast_p3 s; m_masterbank := m_masterbank s;
     m_masterbank_l := m_masterbank_l s; m_slavebank := m_slavebank s;
     m_soundbank := m_soundbank s; m_slavelatch := m_slavelatch s;
     m_beastlatch := m_beastlatch s; m_soundlatch := m_soundlatch s;
     m_mastercpu := m_mastercpu s; m_slavecpu := m_slavecpu s;
     calls := calls s; save_items := save_items s |}.

Definition set_m_scrollx (v : Z) (s : djboy_state) : djboy_state :=
  {| m_videoreg := m_videoreg s; m_scrollx := v; m_scrolly := m_scrolly s;
     m_bankxor := m_bankxor s; m_beast_p0 := m_beast_p0 s;
     m_beast_p1 := m_beast_p1 s; m_beast_p2 := m_beast_p2 s;
     m_beast_p3 := m_beast_p3 s; m_masterbank := m_masterbank s;
     m_masterbank_l := m_masterbank_l s; m_slavebank := m_slavebank s;
     m_soundbank := m_soundbank s; m_slavelatch := m_slavelatch s;
     m_beastlatch := m_beastlatch s; m_soundlatch := m_soundlatch s;
     m_mastercpu := m_mastercpu s; m_slavecpu := m_slavecpu s;
     calls := calls s; save_items := save_items s |}.

Definition set_m_scrolly (v : Z) (s : djboy_state) : djboy_state :=
  {| m_videoreg := m_videoreg s; m_scrollx := m_scrollx s; m_scrolly := v;
     m_bankxor := m_bankxor s; m_beast_p0 := m_beast_p0 s;
     m_beast_p1 := m_beast_p1 s; m_beast_p2 := m_beast_p2 s;
     m_beast_p3 := m_beast_p3 s; m_masterbank := m_masterbank s;
     m_masterbank_l := m_masterbank_l s; m_slavebank := m_slavebank s;
     m_soundbank := m_soundbank s; m_slavelatch := m_slavelatch s;
     m_beastlatch := m_beastlatch s; m_soundlatch := m_soundlatch s;
     m_mastercpu := m_mastercpu s; m_slavecpu := m_slavecpu s;
     calls := calls s; save_items := save_items s |}.

Definition set_m_bankxor (v : Z) (s : djboy_state) : djboy_state :=
  {| m_videoreg := m_videoreg s; m_scrollx := m_scrollx s;
     m_scrolly := m_scrolly s; m_bankxor := v; m_beast_p0 := m_beast_p0 s;
     m_beast_p1 := m_beast_p1 s; m_beast_p2 := m_beast_p2 s;
     m_beast_p3 := m_beast_p3 s; m_masterbank := m_masterbank s;
     m_masterbank_l := m_masterbank_l s; m_slavebank := m_slavebank s;
     m_soundbank := m_soundbank s; m_slavelatch := m_slavelatch s;
     m_beastlatch := m_beastlatch s; m_soundlatch := m_soundlatch s;
     m_mastercpu := m_mastercpu s; m_slavecpu := m_slavecpu s;
     calls := calls s; save_items := save_items s |}.

Definition set_m_beast_p0 (v : Z) (s : djboy_state) : djboy_state :=
  {| m_videoreg := m_videoreg s; m_scrollx := m_scrollx s;
     m_scrolly := m_scrolly s; m_bankxor := m_bankxor s; m_beast_p0 := v;
     m_beast_p1 := m_beast_p1 s; m_beast_p2 := m_beast_p2 s;
     m_beast_p3 := m_beast_p3 s; m_masterbank := m_masterbank s;
     m_masterbank_l := m_masterbank_l s; m_slavebank := m_slavebank s;
     m_soundbank := m_soundbank s; m_slavelatch := m_slavelatch s;
     m_beastlatch := m_beastlatch s; m_soundlatch := m_soundlatch s;
     m_mastercpu := m_mastercpu s; m_slavecpu := m_slavecpu s;
     calls := calls s; save_items := save_items s |}.

Definition set_m_beast_p1 (v : Z) (s : djboy_state) : djboy_state :=
  {| m_videoreg := m_videoreg s; m_scrollx := m_scrollx s;
     m_scrolly := m_scrolly s; m_bankxor := m_bankxor s;
     m_beast_p0 := m_beast_p0 s; m_beast_p1 := v;
     m_beast_p2 := m_beast_p2 s; m_beast_p3 := m_beast_p3 s;
     m_masterbank := m_masterbank s; m_masterbank_l := m_masterbank_l s;
     m_slavebank := m_slavebank s; m_soundbank := m_soundbank s;
     m_slavelatch := m_slavelatch s; m_beastlatch := m_beastlatch s;
     m_soundlatch := m_soundlatch s; m_mastercpu := m_mastercpu s;
     m_slavecpu := m_slavecpu s; calls := calls s;
     save_items := save_items s |}.

Definition set_m_beast_p2 (v : Z) (s : djboy_state) : djboy_state :=
  {| m_videoreg := m_videoreg s; m_scrollx := m_scrollx s;
     m_scrolly := m_scrolly s; m_bankxor := m_bankxor s;
     m_beast_p0 := m_beast_p0 s; m_beast_p1 := m_beast_p1 s;
     m_beast_p2 := v; m_beast_p3 := m_beast_p3 s;
     m_masterbank := m_masterbank s; m_masterbank_l := m_masterbank_l s;
     m_slavebank := m_slavebank s; m_soundbank := m_soundbank s;
     m_slavelatch := m_slavelatch s; m_beastlatch := m_beastlatch s;
     m_soundlatch := m_soundlatch s; m_mastercpu := m_mastercpu s;
     m_slavecpu := m_slavecpu s; calls := calls s;
     save_items := save_items s |}.

Definition set_m_beast_p3 (v : Z) (s : djboy_state) : djboy_state :=
  {| m_videoreg := m_videoreg s; m_scrollx := m_scrollx s;
     m_scrolly := m_scrolly s; m_bankxor := m_bankxor s;
     m_beast_p0 := m_beast_p0 s; m_beast_p1 := m_beast_p1 s;
     m_beast_p2 := m_beast_p2 s; m_beast_p3 := v;
     m_masterbank := m_masterbank s; m_masterbank_l := m_masterbank_l s;
     m_slavebank := m_slavebank s; m_soundbank := m_soundbank s;
     m_slavelatch := m_slavelatch s; m_beastlatch := m_beastlatch s;
     m_soundlatch := m_soundlatch s; m_mastercpu := m_mastercpu s;
     m_slavecpu := m_slavecpu s; calls := calls s;
     save_items := save_items s |}.

Definition set_m_masterbank (v : memory_bank) (s : djboy_state) : djboy_state :=
  {| m_videoreg := m_videoreg s; m_scrollx := m_scrollx s;
     m_scrolly := m_scrolly s; m_bankxor := m_bankxor s;
     m_beast_p0 := m_beast_p0 s; m_beast_p1 := m_beast_p1 s;
     m_beast_p2 := m_beast_p2 s; m_beast_p3 := m_beast_p3 s;
     m_masterbank := v; m_masterbank_l := m_masterbank_l s;
     m_slavebank := m_slavebank s; m_soundbank := m_soundbank s;
     m_slavelatch := m_slavelatch s; m_beastlatch := m_beastlatch s;
     m_soundlatch := m_soundlatch s; m_mastercpu := m_mastercpu s;
     m_slavecpu := m_slavecpu s; calls := calls s;
     save_items := save_items s |}.

Definition set_m_masterbank_l (v : memory_bank) (s : djboy_state) : djboy_state :=
  {| m_videoreg := m_videoreg s; m_scrollx := m_scrollx s;
     m_scrolly := m_scrolly s; m_bankxor := m_bankxor s;
     m_beast_p0 := m_beast_p0 s; m_beast_p1 := m_beast_p1 s;
     m_beast_p2 := m_beast_p2 s; m_beast_p3 := m_beast_p3 s;
     m_masterbank := m_masterbank s; m_masterbank_l := v;
     m_slavebank := m_slavebank s; m_soundbank := m_soundbank s;
     m_slavelatch := m_slavelatch s; m_beastlatch := m_beastlatch s;
     m_soundlatch := m_soundlatch s; m_mastercpu := m_mastercpu s;
     m_slavecpu := m_slavecpu s; calls := calls s;
     save_items := save_items s |}.

Definition set_m_slavebank (v : memory_bank) (s : djboy_state) : djboy_state :=
  {| m_videoreg := m_videoreg s; m_scrollx := m_scrollx s;
     m_scrolly := m_scrolly s; m_bankxor := m_bankxor s;
     m_beast_p0 := m_beast_p0 s; m_beast_p1 := m_beast_p1 s;
     m_beast_p2 := m_beast_p2 s; m_beast_p3 := m_beast_p3 s;
     m_masterbank := m_masterbank s; m_masterbank_l := m_masterbank_l s;
     m_slavebank := v; m_soundbank := m_soundbank s;
     m_slavelatch := m_slavelatch s; m_beastlatch := m_beastlatch s;
     m_soundlatch := m_soundlatch s; m_mastercpu := m_mastercpu s;
     m_slavecpu := m_slavecpu s; calls := calls s;
     save_items := save_items s |}.

Definition set_m_soundbank (v : memory_bank) (s : djboy_state) : djboy_state :=
  {| m_videoreg := m_videoreg s; m_scrollx := m_scrollx s;
     m_scrolly := m_scrolly s; m_bankxor := m_bankxor s;
     m_beast_p0 := m_beast_p0 s; m_beast_p1 := m_beast_p1 s;
     m_beast_p2 := m_beast_p2 s; m_beast_p3 := m_beast_p3 s;
     m_masterbank := m_masterbank s; m_masterbank_l := m_masterbank_l s;
     m_slavebank := m_slavebank s; m_soundbank := v;
     m_slavelatch := m_slavelatch s; m_beastlatch := m_beastlatch s;
     m_soundlatch := m_soundlatch s; m_mastercpu := m_mastercpu s;
     m_slavecpu := m_slavecpu s; calls := calls s;
     save_items := save_items s |}.

Definition set_m_slavelatch (v : generic_latch_8_device) (s : djboy_state) : djboy_state :=
  {| m_videoreg := m_videoreg s; m_scrollx := m_scrollx s;
     m_scrolly := m_scrolly s; m_bankxor := m_bankxor s;
     m_beast_p0 := m_beast_p0 s; m_beast_p1 := m_beast_p1 s;
     m_beast_p2 := m_beast_p2 s; m_beast_p3 := m_beast_p3 s;
     m_masterbank := m_masterbank s; m_masterbank_l := m_masterbank_l s;
     m_slavebank := m_slavebank s; m_soundbank := m_soundbank s;
     m_slavelatch := v; m_beastlatch := m_beastlatch s;
     m_soundlatch := m_soundlatch s; m_mastercpu := m_mastercpu s;
     m_slavecpu := m_slavecpu s; calls := calls s;
     save_items := save_items s |}.

Definition set_m_beastlatch (v : generic_latch_8_device) (s : djboy_state) : djboy_state :=
  {| m_videoreg := m_videoreg s; m_scrollx := m_scrollx s;
     m_scrolly := m_scrolly s; m_bankxor := m_bankxor s;
     m_beast_p0 := m_beast_p0 s; m_beast_p1 := m_beast_p1 s;
     m_beast_p2 := m_beast_p2 s; m_beast_p3 := m_beast_p3 s;
     m_masterbank := m_masterbank s; m_masterbank_l := m_masterbank_l s;
     m_slavebank := m_slavebank s; m_soundbank := m_soundbank s;
     m_slavelatch := m_slavelatch s; m_beastlatch := v;
     m_soundlatch := m_soundlatch s; m_mastercpu := m_mastercpu s;
     m_slavecpu := m_slavecpu s; calls := calls s;
     save_items := save_items s |}.

Definition set_m_soundlatch (v : generic_latch_8_device) (s : djboy_state) : djboy_state :=
  {| m_videoreg := m_videoreg s; m_scrollx := m_scrollx s;
     m_scrolly := m_scrolly s; m_bankxor := m_bankxor s;
     m_beast_p0 := m_beast_p0 s; m_beast_p1 := m_beast_p1 s;
     m_beast_p2 := m_beast_p2 s; m_beast_p3 := m_beast_p3 s;
     m_masterbank := m_masterbank s; m_masterbank_l := m_masterbank_l s;
     m_slavebank := m_slavebank s; m_soundbank := m_soundbank s;
     m_slavelatch := m_slavelatch s; m_beastlatch := m_beastlatch s;
     m_soundlatch := v; m_mastercpu := m_mastercpu s;
     m_slavecpu := m_slavecpu s; calls := calls s;
     save_items := save_items s |}.

Definition set_m_mastercpu (v : cpu_device) (s : djboy_state) : djboy_state :=
  {| m_videoreg := m_videoreg s; m_scrollx := m_scrollx s;
     m_scrolly := m_scrolly s; m_bankxor := m_bankxor s;
     m_beast_p0 := m_beast_p0 s; m_beast_p1 := m_beast_p1 s;
     m_beast_p2 := m_beast_p2 s; m_beast_p3 := m_beast_p3 s;
     m_masterbank := m_masterbank s; m_masterbank_l := m_masterbank_l s;
     m_slavebank := m_slavebank s; m_soundbank := m_soundbank s;
     m_slavelatch := m_slavelatch s; m_beastlatch := m_beastlatch s;
     m_soundlatch := m_soundlatch s; m_mastercpu := v;
     m_slavecpu := m_slavecpu s; calls := calls s;
     save_items := save_items s |}.

Definition set_m_slavecpu (v : cpu_device) (s : djboy_state) : djboy_state :=
  {| m_videoreg := m_videoreg s; m_scrollx := m_scrollx s;
     m_scrolly := m_scrolly s; m_bankxor := m_bankxor s;
     m_beast_p0 := m_beast_p0 s; m_beast_p1 := m_beast_p1 s;
     m_beast_p2 := m_beast_p2 s; m_beast_p3 := m_beast_p3 s;
     m_masterbank := m_masterbank s; m_masterbank_l := m_masterbank_l s;
     m_slavebank := m_slavebank s; m_soundbank := m_soundbank s;
     m_slavelatch := m_slavelatch s; m_beastlatch := m_beastlatch s;
     m_soundlatch := m_soundlatch s; m_mastercpu := m_mastercpu s;
     m_slavecpu := v; calls := calls s; save_items := save_items s |}.

Definition set_calls (v : list call) (s : djboy_state) : djboy_state :=
  {| m_videoreg := m_videoreg s; m_scrollx := m_scrollx s;
     m_scrolly := m_scrolly s; m_bankxor := m_bankxor s;
     m_beast_p0 := m_beast_p0 s; m_beast_p1 := m_beast_p1 s;
     m_beast_p2 := m_beast_p2 s; m_beast_p3 := m_beast_p3 s;
     m_masterbank := m_masterbank s; m_masterbank_l := m_masterbank_l s;
     m_slavebank := m_slavebank s; m_soundbank := m_soundbank s;
     m_slavelatch := m_slavelatch s; m_beastlatch := m_beastlatch s;
     m_soundlatch := m_soundlatch s; m_mastercpu := m_mastercpu s;
     m_slavecpu := m_slavecpu s; calls := v; save_items := save_items s |}.

Definition set_save_items (v : list string) (s : djboy_state) : djboy_state :=
  {| m_videoreg := m_videoreg s; m_scrollx := m_scrollx s;
     m_scrolly := m_scrolly s; m_bankxor := m_bankxor s;
     m_beast_p0 := m_beast_p0 s; m_beast_p1 := m_beast_p1 s;
     m_beast_p2 := m_beast_p2 s; m_beast_p3 := m_beast_p3 s;
     m_masterbank := m_masterbank s; m_masterbank_l := m_masterbank_l s;
     m_slavebank := m_slavebank s; m_soundbank := m_soundbank s;
     m_slavelatch := m_slavelatch s; m_beastlatch := m_beastlatch s;
     m_soundlatch := m_soundlatch s; m_mastercpu := m_mastercpu s;
     m_slavecpu := m_slavecpu s; calls := calls s; save_items := v |}.

(** Handlers run in the state monad over [djboy_state]. *)
Definition M (A : Type) : Type := djboy_state -> A * djboy_state.

#[global] Instance M_ret : MRet M := fun A a s => (a, s).
#[global] Instance M_bind : MBind M :=
  fun A B f m s => let (a, s') := m s in f a s'.

Definition gets {A : Type} (f : djboy_state -> A) : M A :=
  fun s => (f s, s).
Definition modify (f : djboy_state -> djboy_state) : M unit :=
  fun s => (tt, f s).
Definition exec {A : Type} (m : M A) (s : djboy_state) : djboy_state :=
  snd (m s).
Definition eval {A : Type} (m : M A) (s : djboy_state) : A :=
  fst (m s).

(** The three latches of the machine configuration. *)
Inductive latch_id : Set := slavelatch | beastlatch | soundlatch.

Definition latch_tag (l : latch_id) : string :=
  match l with
  | slavelatch => "slavelatch"
  | beastlatch => "beastlatch"
  | soundlatch => "soundlatch"
  end.

Definition get_latch (l : latch_id) (s : djboy_state)
    : generic_latch_8_device :=
  match l with
  | slavelatch => m_slavelatch s
  | beastlatch => m_beastlatch s
  | soundlatch => m_soundlatch s
  end.

Definition set_latch (l : latch_id) (d : generic_latch_8_device)
    (s : djboy_state) : djboy_state :=
  match l with
  | slavelatch => set_m_slavelatch d s
  | beastlatch => set_m_beastlatch d s
  | soundlatch => set_m_soundlatch d s
  end.

Definition log (c : call) (s : djboy_state) : djboy_state :=
  set_calls (calls s ++ [c]) s.

(** [m_xxxlatch->write(space, 0, v)] *)
Definition latch_dev_write (l : latch_id) (v : Z) : M unit :=
  modify (fun s =>
    log (Latch_write (latch_tag l) v)
        (set_latch l (latch_write v (get_latch l s)) s)).

(** [m_xxxlatch->read(space, 0)] *)
Definition latch_dev_read (l : latch_id) : M Z :=
  fun s =>
    let (v, d) := latch_read (get_latch l s) in
    (v, log (Latch_read (latch_tag l)) (set_latch l d s)).

(** [m_xxxlatch->acknowledge_w(space, 0, data)] *)
Definition latch_dev_acknowledge_w (l : latch_id) (data : Z) : M unit :=
  modify (fun s =>
    log (Latch_acknowledge (latch_tag l))
        (set_latch l (latch_acknowledge_w (get_latch l s)) s)).

(** [m_xxxlatch->pending_r()] *)
Definition latch_dev_pending_r (l : latch_id) : M bool :=
  gets (fun s => latch_pending_r (get_latch l s)).

(** djboy_state::beast_status_r *)
Definition beast_status_r : M Z :=
  sp ← latch_dev_pending_r slavelatch;
  bp ← latch_dev_pending_r beastlatch;
  mret (Z.lor (if sp : bool then 0x0 else 0x4)
              (if bp : bool then 0x8 else 0x0)).

(** djboy_state::trigger_nmi_on_mastercpu *)
Definition trigger_nmi_on_mastercpu (data : Z) : M unit :=
  modify (fun s =>
    set_m_mastercpu (set_input_line INPUT_LINE_NMI PULSE_LINE (m_mastercpu s)) s).

(** djboy_state::mastercpu_bankswitch_w *)
Definition mastercpu_bankswitch_w (data : Z) : M unit :=
  bankxor ← gets m_bankxor;
  let data := u8 (Z.lxor data bankxor) in
  modify (fun s => set_m_masterbank (set_entry data (m_masterbank s)) s);;
  modify (fun s => set_m_masterbank_l (set_entry 0 (m_masterbank_l s)) s).

(** djboy_state::slavecpu_bankswitch_w *)
Definition slavecpu_bankswitch_w (data : Z) : M unit :=
  modify (set_m_videoreg data);;
  if negb (Z.land data 0xc =? 4)
  then modify (fun s =>
         set_m_slavebank (set_entry (Z.land data 0xf) (m_slavebank s)) s)
  else mret tt.

(** djboy_state::soundcpu_bankswitch_w *)
Definition soundcpu_bankswitch_w (data : Z) : M unit :=
  modify (fun s => set_m_soundbank (set_entry data (m_soundbank s)) s).

(** djboy_state::mastercpu_am *)
Definition mastercpu_am : address_map :=
  [ (0x0000, 0x7fff, H_rom);
    (0x8000, 0xafff, H_bankr "master_bank_l");
    (0xb000, 0xbfff, H_device "pandora");
    (0xc000, 0xdfff, H_bankr "master_bank");
    (0xe000, 0xefff, H_ram_share "share1");
    (0xf000, 0xf7ff, H_ram);
    (0xf800, 0xffff, H_ram) ].

(** djboy_state::beast_p0_r *)
Definition beast_p0_r : M Z := mret 0.

(** djboy_state::beast_p0_w *)
Definition beast_p0_w (data : Z) : M unit :=
  p0 ← gets m_beast_p0;
  (if negb (truthy (BIT p0 1)) && truthy (BIT data 1)
   then p1 ← gets m_beast_p1; latch_dev_write slavelatch p1
   else mret tt);;
  (if BIT data 0 =? 0
   then latch_dev_acknowledge_w beastlatch data
   else mret tt);;
  modify (set_m_beast_p0 data).

(** djboy_state::beast_p1_r *)
Definition beast_p1_r : M Z :=
  p0 ← gets m_beast_p0;
  if BIT p0 0 =? 0
  then latch_dev_read beastlatch
  else mret 0.

(** djboy_state::beast_p1_w *)
Definition beast_p1_w (data : Z) : M unit :=
  modify (set_m_beast_p1 data).

(** djboy_state::beast_p2_r *)
Definition beast_p2_r (io : ioports) : M Z :=
  p0 ← gets m_beast_p0;
  match Z.land (Z.shiftr p0 2) 3 with
  | 0 => mret (u8 (m_port_in io 1))
  | 1 => mret (u8 (m_port_in io 2))
  | 2 => mret (u8 (m_port_in io 0))
  | _ => mret 0xff
  end.

(** djboy_state::beast_p2_w *)
Definition beast_p2_w (data : Z) : M unit :=
  modify (set_m_beast_p2 data).

(** The four DIP switch bits of one [case] of [beast_p3_r]. *)
Definition dsw_bits (dsw1 dsw2 k : Z) : Z :=
  u8 (Z.lor (Z.lor (Z.lor (Z.shiftl (BIT dsw2 (k + 4)) 3)
                          (Z.shiftl (BIT dsw2 k) 2))
                   (Z.shiftl (BIT dsw1 (k + 4)) 1))
            (BIT dsw1 k)).

(** djboy_state::beast_p3_r *)
Definition beast_p3_r (io : ioports) : M Z :=
  let dsw1 := not8 (m_port_dsw io 0) in
  let dsw2 := not8 (m_port_dsw io 1) in
  p0 ← gets m_beast_p0;
  let dsw :=
    match Z.land (Z.shiftr p0 5) 3 with
    | 0 => dsw_bits dsw1 dsw2 0
    | 1 => dsw_bits dsw1 dsw2 1
    | 2 => dsw_bits dsw1 dsw2 2
    | 3 => dsw_bits dsw1 dsw2 3
    | _ => 0
    end in
  bp ← latch_dev_pending_r beastlatch;
  sp ← latch_dev_pending_r slavelatch;
  mret (u8 (Z.lor (Z.lor (Z.shiftl dsw 4) (if bp : bool then 0x0 else 0x4))
                  (if sp : bool then 0x8 else 0x0))).

(** djboy_state::beast_p3_w *)
Definition beast_p3_w (data : Z) : M unit :=
  modify (set_m_beast_p3 data);;
  modify (fun s =>
    set_m_slavecpu
      (set_input_line INPUT_LINE_RESET
         (if truthy (Z.land data 2) then CLEAR_LINE else ASSERT_LINE)
         (m_slavecpu s)) s).

(** [save_item(NAME(x))]: the name is added to the registered items. *)
Definition save_item (name : string) : M unit :=
  modify (fun s => set_save_items (save_items s ++ [name]) s).

(** djboy_state::machine_start.  [MASTER], [SLAVE] and [SOUND] are the
    bases of the three program regions: offset 0 of each. *)
Definition machine_start : M unit :=
  let MASTER := 0 in
  let SLAVE := 0 in
  let SOUND := 0 in
  modify (fun s => set_m_masterbank
    (configure_entries 0 32 (MASTER + 0x00000) 0x2000 (m_masterbank s)) s);;
  modify (fun s => set_m_slavebank
    (configure_entries 0 4 (SLAVE + 0x00000) 0x4000 (m_slavebank s)) s);;
  modify (fun s => set_m_slavebank
    (configure_entries 8 8 (SLAVE + 0x10000) 0x4000 (m_slavebank s)) s);;
  modify (fun s => set_m_soundbank
    (configure_entries 0 8 (SOUND + 0x00000) 0x4000 (m_soundbank s)) s);;
  modify (fun s => set_m_masterbank_l
    (configure_entry 0 (MASTER + 0x08000) (m_masterbank_l s)) s);;
  save_item "m_videoreg";;
  save_item "m_scrollx";;
  save_item "m_scrolly";;
  save_item "m_beast_p0";;
  save_item "m_beast_p1";;
  save_item "m_beast_p2";;
  save_item "m_beast_p3".

(** djboy_state::machine_reset *)
Definition machine_reset : M unit :=
  modify (set_m_videoreg 0);;
  modify (set_m_scrollx 0);;
  modify (set_m_scrolly 0).

(** The machine configuration [djboy_state::djboy], as far as it
    concerns this model: the three latches it adds and the cores whose
    input lines the handlers drive.  Fields that have no initialiser in
    the sources keep the value of [s]. *)
Definition djboy_config (s : djboy_state) : djboy_state :=
  let s := set_m_mastercpu cpu_initial s in
  let s := set_m_slavecpu cpu_initial s in
  let s := set_m_slavelatch generic_latch_8_add s in
  let s := set_m_beastlatch
             (set_separate_acknowledge true
                (set_data_pending_cb "beast" INPUT_LINE_IRQ0
                   generic_latch_8_add)) s in
  let s := set_m_soundlatch
             (set_data_pending_cb "soundcpu" INPUT_LINE_NMI
                generic_latch_8_add) s in
  let s := set_m_masterbank (bank_unconfigured (m_curentry (m_masterbank s))) s in
  let s := set_m_masterbank_l (bank_unconfigured (m_curentry (m_masterbank_l s))) s in
  let s := set_m_slavebank (bank_unconfigured (m_curentry (m_slavebank s))) s in
  let s := set_m_soundbank (bank_unconfigured (m_curentry (m_soundbank s))) s in
  let s := set_calls [] s in
  set_save_items [] s.

(** A machine whose fields without initialiser are all 0, for examples. *)
Definition blank : djboy_state :=
  {| m_videoreg := 0; m_scrollx := 0; m_scrolly := 0; m_bankxor := 0;
     m_beast_p0 := 0; m_beast_p1 := 0; m_beast_p2 := 0; m_beast_p3 := 0;
     m_masterbank := bank_unconfigured 0;
     m_masterbank_l := bank_unconfigured 0;
     m_slavebank := bank_unconfigured 0;
     m_soundbank := bank_unconfigured 0;
     m_slavelatch := generic_latch_8_add;
     m_beastlatch := generic_latch_8_add;
     m_soundlatch := generic_latch_8_add;
     m_mastercpu := cpu_initial; m_slavecpu := cpu_initial;
     calls := []; save_items := [] |}.

(** The three ROM sets of the [GAME] table. *)
Inductive game : Set := djboy | djboya | djboyj.

(** DRIVER_INIT_MEMBER(djboy_state,djboy) *)
Definition init_djboy : M unit := modify (set_m_bankxor 0x00).

(** DRIVER_INIT_MEMBER(djboy_state,djboyj) *)
Definition init_djboyj : M unit := modify (set_m_bankxor 0x1f).

(** The INIT column of the [GAME] table. *)
Definition driver_init (g : game) : M unit :=
  match g with
  | djboy => init_djboy
  | djboya => init_djboy
  | djboyj => init_djboyj
  end.

(** Start-up of set [g] on a configured machine: driver init, then
    [machine_start], then [machine_reset]. *)
Definition boot (g : game) (s : djboy_state) : djboy_state :=
  exec (driver_init g;; machine_start;; machine_reset) (djboy_config s).

(** The port and memory accesses of the four cores that reach a handler
    of this file or one of the latches: the I/O maps
    [mastercpu_port_am], [slavecpu_port_am], [soundcpu_port_am] and the
    port callbacks of the BEAST microcontroller. *)
Inductive access : Set :=
| Master_port_00_w (data : Z)      (* mastercpu_bankswitch_w *)
| Slave_port_00_w (data : Z)       (* slavecpu_bankswitch_w *)
| Slave_port_02_w (data : Z)       (* m_soundlatch write *)
| Slave_port_04_r                  (* m_slavelatch read *)
| Slave_port_04_w (data : Z)       (* m_beastlatch write *)
| Slave_port_0a_w (data : Z)       (* trigger_nmi_on_mastercpu *)
| Slave_port_0c_r                  (* beast_status_r *)
| Sound_port_00_w (data : Z)       (* soundcpu_bankswitch_w *)
| Sound_port_04_r                  (* m_soundlatch read *)
| Beast_p0_in | Beast_p0_out (data : Z)
| Beast_p1_in | Beast_p1_out (data : Z)
| Beast_p2_in | Beast_p2_out (data : Z)
| Beast_p3_in | Beast_p3_out (data : Z).

(** A write yields no value: 0 stands for it. *)
Definition wr (m : M unit) : M Z := m;; mret 0.

Definition run (io : ioports) (a : access) : M Z :=
  match a with
  | Master_port_00_w data => wr (mastercpu_bankswitch_w data)
  | Slave_port_00_w data => wr (slavecpu_bankswitch_w data)
  | Slave_port_02_w data => wr (latch_dev_write soundlatch data)
  | Slave_port_04_r => latch_dev_read slavelatch
  | Slave_port_04_w data => wr (latch_dev_write beastlatch data)
  | Slave_port_0a_w data => wr (trigger_nmi_on_mastercpu data)
  | Slave_port_0c_r => beast_status_r
  | Sound_port_00_w data => wr (soundcpu_bankswitch_w data)
  | Sound_port_04_r => latch_dev_read soundlatch
  | Beast_p0_in => beast_p0_r
  | Beast_p0_out data => wr (beast_p0_w data)
  | Beast_p1_in => beast_p1_r
  | Beast_p1_out data => wr (beast_p1_w data)
  | Beast_p2_in => beast_p2_r io
  | Beast_p2_out data => wr (beast_p2_w data)
  | Beast_p3_in => beast_p3_r io
  | Beast_p3_out data => wr (beast_p3_w data)
  end.

End Djboy.

(* ===================================================================== *)
(** ** Specification-side definitions *)
(* ===================================================================== *)

(** What the specification says, written down independently of the code,
    to be compared with the embedding above. *)
Module Spec.
Import Decobsmt Djboy.

(** The bank XOR the specification documents for each ROM set. *)
Definition bankxor_of (g : game) : Z :=
  match g with
  | djboy | djboya => 0x00
  | djboyj => 0x1f
  end.

(** The reset-control state machine of the specification. *)
Inductive reset_state : Set := RUNNING | RESET_ASSERTED.

(** "transition to RESET_ASSERTED on the qualifying bit's falling edge;
    transition to RUNNING on rising edge or explicit clear". *)
Definition reset_fsm (st : reset_state) (old_bit new_bit : bool)
    : reset_state :=
  match old_bit, new_bit with
  | true, false => RESET_ASSERTED
  | false, true => RUNNING
  | _, _ => st
  end.

(** "initial state RUNNING". *)
Definition reset_initial : reset_state := RUNNING.

(** The state of the machine a reset line is in. *)
Definition reset_state_of (l : line_state) : reset_state :=
  match l with
  | ASSERT_LINE => RESET_ASSERTED
  | _ => RUNNING
  end.

(** Modelled from the spec: the save-state service of the host is not in
    the sources.  "Persisted state: a documented list of fields ... must
    be included in save/restore serialization": a snapshot holds the
    value of every registered item, and loading it writes these values
    back, leaving every other field as the receiving device has it. *)
Definition item_get (name : string) (d : decobsmt_device) : option Z :=
  if String.eqb name "m_bsmt_latch" then Some (m_bsmt_latch d)
  else if String.eqb name "m_bsmt_reset" then Some (m_bsmt_reset d)
  else if String.eqb name "m_bsmt_comms" then Some (m_bsmt_comms d)
  else None.

(** Modelled from the spec: the field of the board an item name refers
    to, for writing. *)
Definition item_set (name : string) (v : Z) (d : decobsmt_device)
    : decobsmt_device :=
  if String.eqb name "m_bsmt_latch" then set_m_bsmt_latch v d
  else if String.eqb name "m_bsmt_reset" then set_m_bsmt_reset v d
  else if String.eqb name "m_bsmt_comms" then set_m_bsmt_comms v d
  else d.

(** Modelled from the spec: the snapshot of the registered items. *)
Definition state_save (d : decobsmt_device) : list (string * Z) :=
  omap (fun name => v ← item_get name d; Some (name, v))
       (Decobsmt.save_items d).

(** Modelled from the spec: loading writes the snapshot back, item by
    item. *)
Definition state_load (snapshot : list (string * Z)) (d : decobsmt_device)
    : decobsmt_device :=
  foldl (fun d nv => item_set (fst nv) (snd nv) d) d snapshot.

End Spec.
Import Spec.

(* ===================================================================== *)
(** ** Sequences of accesses, the other address maps *)
(* ===================================================================== *)

Module DecobsmtOps.
Import Decobsmt.

(** What can happen to the sound board: the handlers of [decobsmt_map],
    the host-side entry points, the two callbacks and the device reset. *)
Inductive op : Set :=
| Op_reset_w (data : Z)              (* 0x2000-0x2001 write *)
| Op_comms_r                         (* 0x2002-0x2003 read *)
| Op_status_r                        (* 0x2006-0x2007 read *)
| Op_bsmt0_w (data : Z)              (* 0x6000 write *)
| Op_bsmt1_w (offset data : Z)       (* 0xa000-0xa0ff write *)
| Op_comms_w (data : Z)              (* host side *)
| Op_reset_line (st : line_state)    (* host side *)
| Op_ready_callback
| Op_firq_interrupt
| Op_device_reset.

Definition step (o : op) (d : decobsmt_device) : decobsmt_device :=
  match o with
  | Op_reset_w data => bsmt_reset_w data d
  | Op_comms_r => d
  | Op_status_r => d
  | Op_bsmt0_w data => bsmt0_w data d
  | Op_bsmt1_w offset data => bsmt1_w offset data d
  | Op_comms_w data => bsmt_comms_w data d
  | Op_reset_line st => bsmt_reset_line st d
  | Op_ready_callback => bsmt_ready_callback d
  | Op_firq_interrupt => decobsmt_firq_interrupt d
  | Op_device_reset => device_reset d
  end.

Definition run (ops : list op) (d : decobsmt_device) : decobsmt_device :=
  foldl (fun d o => step o d) d ops.

(** Falling edges of bit 7 in the values written to the reset register,
    [prev] being the value before; a device reset puts 0 there. *)
Fixpoint falling_edges (prev : Z) (ops : list op) : nat :=
  match ops with
  | [] => 0
  | Op_reset_w data :: rest =>
      ((if Z.testbit prev 7 && negb (Z.testbit data 7) then 1 else 0)
       + falling_edges data rest)%nat
  | Op_device_reset :: rest => falling_edges 0 rest
  | _ :: rest => falling_edges prev rest
  end.

Definition is_bsmt1_w (o : op) : bool :=
  match o with Op_bsmt1_w _ _ => true | _ => false end.

Definition is_ready_callback (o : op) : bool :=
  match o with Op_ready_callback => true | _ => false end.

Definition is_reset_line (o : op) : bool :=
  match o with Op_reset_line _ => true | _ => false end.

Definition sets_comms (o : op) : bool :=
  match o with Op_comms_w _ | Op_device_reset => true | _ => false end.

End DecobsmtOps.

Module DjboyMaps.
Import Djboy.

(** djboy_state::slavecpu_am *)
Definition slavecpu_am : address_map :=
  [ (0x0000, 0x7fff, H_rom);
    (0x8000, 0xbfff, H_bankr "slave_bank");
    (0xc000, 0xcfff, H_ram_share "videoram");
    (0xd000, 0xd3ff, H_ram_share "paletteram");
    (0xd400, 0xd8ff, H_ram);
    (0xe000, 0xffff, H_ram_share "share1") ].

(** djboy_state::soundcpu_am *)
Definition soundcpu_am : address_map :=
  [ (0x0000, 0x7fff, H_rom);
    (0x8000, 0xbfff, H_bankr "sound_bank");
    (0xc000, 0xdfff, H_ram) ].

(** The bindings of a map whose range contains [addr]. *)
Definition matching (am : address_map) (addr : Z) : address_map :=
  List.filter (fun e => (fst (fst e) <=? addr) && (addr <=? snd (fst e))) am.

(** A sequence of accesses, one after the other. *)
Definition run_all (io : ioports) (accs : list access) (s : djboy_state)
    : djboy_state :=
  foldl (fun s a => exec (run io a) s) s accs.

(** Rising edges of bit 1 in the values written to port 0 of the BEAST,
    [prev] being the retained value before. *)
Fixpoint rising_edges (prev : Z) (accs : list access) : nat :=
  match accs with
  | [] => 0
  | Beast_p0_out data :: rest =>
      ((if negb (Z.testbit prev 1) && Z.testbit data 1 then 1 else 0)
       + rising_edges data rest)%nat
  | _ :: rest => rising_edges prev rest
  end.

(** Entry [e] of [bank], at window offset [off], shows byte [a] of the
    backing region. *)
Definition reaches (bank : memory_bank) (window e off a : Z) : Prop :=
  0 <= off < window /\ m_entries bank !! e = Some (a - off).

(** What the start-up code sets up and the port handlers rely on: the
    entry tables of the four banks, the bank XOR, the registered save
    items and the modes of the three latches. *)
Definition same_configuration (s s' : djboy_state) : Prop :=
  m_entries (m_masterbank s') = m_entries (m_masterbank s) /\
  m_entries (m_masterbank_l s') = m_entries (m_masterbank_l s) /\
  m_entries (m_slavebank s') = m_entries (m_slavebank s) /\
  m_entries (m_soundbank s') = m_entries (m_soundbank s) /\
  m_bankxor s' = m_bankxor s /\
  save_items s' = save_items s /\
  (forall l : latch_id,
     m_separate_acknowledge (get_latch l s')
       = m_separate_acknowledge (get_latch l s) /\
     m_data_pending_cb (get_latch l s') = m_data_pending_cb (get_latch l s)).

(** The bank bits of the video register agree with the slave bank: either
    they are of the kind the handler ignores, or they are the selected
    entry. *)
Definition videoreg_coherent (s : djboy_state) : Prop :=
  Z.land (m_videoreg s) 0xc = 4 \/
  m_curentry (m_slavebank s) = Z.land (m_videoreg s) 0xf.

End DjboyMaps.

(* ===================================================================== *)
(** ** The tables of the DJ Boy driver *)
(* ===================================================================== *)

Module DjboyTables.
Import Djboy.

(** The host's [STEPn(START, STEP)] macros are not in the sources; they
    stand for [n] values from [START] in steps of [STEP]. *)
Definition STEP2 (start step : Z) : list Z := [start; start + step].
Definition STEP4 (start step : Z) : list Z :=
  STEP2 start step ++ STEP2 (start + 2 * step) step.
Definition STEP8 (start step : Z) : list Z :=
  STEP4 start step ++ STEP4 (start + 4 * step) step.

(** The fields of a [gfx_layout], in the order the source gives them
    (the total, [RGN_FRAC(1,1)], is the whole region). *)
Record gfx_layout : Type := {
  width : Z;
  height : Z;
  planes : Z;
  planeoffset : list Z;
  xoffset : list Z;
  yoffset : list Z;
  charincrement : Z
}.

(** static const gfx_layout tile_layout *)
Definition tile_layout : gfx_layout :=
  {| width := 16; height := 16;
     planes := 4;
     planeoffset := STEP4 0 1;
     xoffset := STEP8 0 4 ++ STEP8 (4 * 8 * 8) 4;
     yoffset := STEP8 0 (4 * 8) ++ STEP8 (4 * 8 * 8 * 2) (4 * 8);
     charincrement := 16 * 16 * 4 |}.

(** The bit of a character that holds plane [p] of the pixel ([x], [y]):
    the sum of the three offsets, as the host's decoder takes them. *)
Definition pixel_bit (l : gfx_layout) (p x y : nat) : option Z :=
  po ← planeoffset l !! p;
  xo ← xoffset l !! x;
  yo ← yoffset l !! y;
  Some (po + xo + yo).

(** The plane and pixel a bit of a 16x16x4 character belongs to. *)
Definition pixel_of_bit (b : Z) : nat * nat * nat :=
  (Z.to_nat (b mod 4),
   Z.to_nat ((b / 4) mod 8 + 8 * ((b / 256) mod 2)),
   Z.to_nat ((b / 32) mod 8 + 8 * (b / 512))).

(** One [ROM_LOAD]: name, offset and length (the checksums are left out). *)
Record rom_load : Type := {
  rom_name : string; rom_offset : Z; rom_length : Z
}.

(** One [ROM_REGION] with its loads, in source order. *)
Record rom_region : Type := {
  region_tag : string; region_length : Z; region_loads : list rom_load
}.

(** ROM_START( djboy ) *)
Definition rom_djboy : list rom_region :=
  [
    {| region_tag := "mastercpu"; region_length := 0x40000;
       region_loads :=
       [ {| rom_name := "bs64.4b"; rom_offset := 0x00000; rom_length := 0x20000 |};
         {| rom_name := "bs100.4d"; rom_offset := 0x20000; rom_length := 0x20000 |} ] |};
    {| region_tag := "slavecpu"; region_length := 0x30000;
       region_loads :=
       [ {| rom_name := "bs65.5y"; rom_offset := 0x00000; rom_length := 0x10000 |};
         {| rom_name := "bs101.6w"; rom_offset := 0x10000; rom_length := 0x20000 |} ] |};
    {| region_tag := "soundcpu"; region_length := 0x20000;
       region_loads :=
       [ {| rom_name := "bs200.8c"; rom_offset := 0x00000; rom_length := 0x20000 |} ] |};
    {| region_tag := "beast"; region_length := 0x1000;
       region_loads :=
       [ {| rom_name := "beast.9s"; rom_offset := 0x00000; rom_length := 0x1000 |} ] |};
    {| region_tag := "gfx1"; region_length := 0x200000;
       region_loads :=
       [ {| rom_name := "bs000.1h"; rom_offset := 0x000000; rom_length := 0x80000 |};
         {| rom_name := "bs001.1f"; rom_offset := 0x080000; rom_length := 0x80000 |};
         {| rom_name := "bs002.1d"; rom_offset := 0x100000; rom_length := 0x80000 |};
         {| rom_name := "bs003.1k"; rom_offset := 0x180000; rom_length := 0x80000 |};
         {| rom_name := "bs07.1b"; rom_offset := 0x1f0000; rom_length := 0x10000 |} ] |};
    {| region_tag := "gfx2"; region_length := 0x100000;
       region_loads :=
       [ {| rom_name := "bs004.1s"; rom_offset := 0x000000; rom_length := 0x80000 |};
         {| rom_name := "bs005.1u"; rom_offset := 0x080000; rom_length := 0x80000 |} ] |};
    {| region_tag := "oki"; region_length := 0x40000;
       region_loads :=
       [ {| rom_name := "bs203.5j"; rom_offset := 0x000000; rom_length := 0x40000 |} ] |}
  ].

(** ROM_START( djboya ) *)
Definition rom_djboya : list rom_region :=
  [
    {| region_tag := "mastercpu"; region_length := 0x40000;
       region_loads :=
       [ {| rom_name := "bs19s.rom"; rom_offset := 0x00000; rom_length := 0x20000 |};
         {| rom_name := "bs100.4d"; rom_offset := 0x20000; rom_length := 0x20000 |} ] |};
    {| region_tag := "slavecpu"; region_length := 0x30000;
       region_loads :=
       [ {| rom_name := "bs15s.rom"; rom_offset := 0x00000; rom_length := 0x10000 |};
         {| rom_name := "bs101.6w"; rom_offset := 0x10000; rom_length := 0x20000 |} ] |};
    {| region_tag := "soundcpu"; region_length := 0x20000;
       region_loads :=
       [ {| rom_name := "bs200.8c"; rom_offset := 0x00000; rom_length := 0x20000 |} ] |};
    {| region_tag := "beast"; region_length := 0x1000;
       region_loads :=
       [ {| rom_name := "beast.9s"; rom_offset := 0x00000; rom_length := 0x1000 |} ] |};
    {| region_tag := "gfx1"; region_length := 0x200000;
       region_loads :=
       [ {| rom_name := "bs000.1h"; rom_offset := 0x000000; rom_length := 0x80000 |};
         {| rom_name := "bs001.1f"; rom_offset := 0x080000; rom_length := 0x80000 |};
         {| rom_name := "bs002.1d"; rom_offset := 0x100000; rom_length := 0x80000 |};
         {| rom_name := "bs003.1k"; rom_offset := 0x180000; rom_length := 0x80000 |};
         {| rom_name := "bs07.1b"; rom_offset := 0x1f0000; rom_length := 0x10000 |} ] |};
    {| region_tag := "gfx2"; region_length := 0x100000;
       region_loads :=
       [ {| rom_name := "bs004.1s"; rom_offset := 0x000000; rom_length := 0x80000 |};
         {| rom_name := "bs005.1u"; rom_offset := 0x080000; rom_length := 0x80000 |} ] |};
    {| region_tag := "oki"; region_length := 0x40000;
       region_loads :=
       [ {| rom_name := "bs203.5j"; rom_offset := 0x000000; rom_length := 0x40000 |} ] |}
  ].

(** ROM_START( djboyj ) *)
Definition rom_djboyj : list rom_region :=
  [
    {| region_tag := "mastercpu"; region_length := 0x40000;
       region_loads :=
       [ {| rom_name := "bs12.4b"; rom_offset := 0x00000; rom_length := 0x20000 |};
         {| rom_name := "bs100.4d"; rom_offset := 0x20000; rom_length := 0x20000 |} ] |};
    {| region_tag := "slavecpu"; region_length := 0x30000;
       region_loads :=
       [ {| rom_name := "bs13.5y"; rom_offset := 0x00000; rom_length := 0x10000 |};
         {| rom_name := "bs101.6w"; rom_offset := 0x10000; rom_length := 0x20000 |} ] |};
    {| region_tag := "soundcpu"; region_length := 0x20000;
       region_loads :=
       [ {| rom_name := "bs200.8c"; rom_offset := 0x00000; rom_length := 0x20000 |} ] |};
    {| region_tag := "beast"; region_length := 0x1000;
       region_loads :=
       [ {| rom_name := "beast.9s"; rom_offset := 0x00000; rom_length := 0x1000 |} ] |};
    {| region_tag := "gfx1"; region_length := 0x200000;
       region_loads :=
       [ {| rom_name := "bs000.1h"; rom_offset := 0x000000; rom_length := 0x80000 |};
         {| rom_name := "bs001.1f"; rom_offset := 0x080000; rom_length := 0x80000 |};
         {| rom_name := "bs002.1d"; rom_offset := 0x100000; rom_length := 0x80000 |};
         {| rom_name := "bs003.1k"; rom_offset := 0x180000; rom_length := 0x80000 |};
         {| rom_name := "bsxx.1b"; rom_offset := 0x1f0000; rom_length := 0x10000 |} ] |};
    {| region_tag := "gfx2"; region_length := 0x100000;
       region_loads :=
       [ {| rom_name := "bs004.1s"; rom_offset := 0x000000; rom_length := 0x80000 |};
         {| rom_name := "bs005.1u"; rom_offset := 0x080000; rom_length := 0x80000 |} ] |};
    {| region_tag := "oki"; region_length := 0x40000;
       region_loads :=
       [ {| rom_name := "bs-204.5j"; rom_offset := 0x000000; rom_length := 0x40000 |} ] |}
  ].

Definition roms (g : game) : list rom_region :=
  match g with
  | djboy => rom_djboy
  | djboya => rom_djboya
  | djboyj => rom_djboyj
  end.

(** The loads of a region that hold byte [a]. *)
Definition loads_at (r : rom_region) (a : Z) : list rom_load :=
  List.filter (fun l => (rom_offset l <=? a) && (a <? rom_offset l + rom_length l))
              (region_loads r).

(** One DIP switch field: [PORT_DIPNAME(mask, default, name)] with the
    values of its [PORT_DIPSETTING]s, in source order. *)
Record dip_field : Type := {
  dip_mask : Z; dip_default : Z; dip_name : string;
  dip_settings : list (Z * string)
}.

(** PORT_START("DSW1").  The service switch, [PORT_SERVICE_DIPLOC(0x04,
    IP_ACTIVE_HIGH, "SW1:3")], is the field the commented-out lines below
    it in the source spell out. *)
Definition DSW1_fields : list dip_field :=
  [ {| dip_mask := 0x01; dip_default := 0x00; dip_name := "Unknown";
       dip_settings := [(0x00, "Off"); (0x01, "On")] |};
    {| dip_mask := 0x02; dip_default := 0x00; dip_name := "Flip_Screen";
       dip_settings := [(0x00, "Off"); (0x02, "On")] |};
    {| dip_mask := 0x04; dip_default := 0x00; dip_name := "Service_Mode";
       dip_settings := [(0x00, "Off"); (0x04, "On")] |};
    {| dip_mask := 0x08; dip_default := 0x00; dip_name := "Unknown";
       dip_settings := [(0x00, "Off"); (0x08, "On")] |};
    {| dip_mask := 0x30; dip_default := 0x00; dip_name := "Coin_A";
       dip_settings := [(0x20, "2C_1C"); (0x00, "1C_1C");
                        (0x30, "2C_3C"); (0x10, "1C_2C")] |};
    {| dip_mask := 0xc0; dip_default := 0x00; dip_name := "Coin_B";
       dip_settings := [(0x80, "2C_1C"); (0x00, "1C_1C");
                        (0xc0, "2C_3C"); (0x40, "1C_2C")] |} ].

(** PORT_START("DSW2") *)
Definition DSW2_fields : list dip_field :=
  [ {| dip_mask := 0x03; dip_default := 0x00; dip_name := "Difficulty";
       dip_settings := [(0x01, "Easy"); (0x00, "Normal");
                        (0x02, "Hard"); (0x03, "Hardest")] |};
    {| dip_mask := 0x0c; dip_default := 0x00;
       dip_name := "Bonus Levels (in thousands)";
       dip_settings := [(0x00, "10,30,50,70,90");
                        (0x04, "10,20,30,40,50,60,70,80,90");
                        (0x08, "20,50"); (0x0c, "None")] |};
    {| dip_mask := 0x30; dip_default := 0x00; dip_name := "Lives";
       dip_settings := [(0x10, "3"); (0x00, "5"); (0x20, "7"); (0x30, "9")] |};
    {| dip_mask := 0x40; dip_default := 0x00; dip_name := "Demo_Sounds";
       dip_settings := [(0x40, "Off"); (0x00, "On")] |};
    {| dip_mask := 0x80; dip_default := 0x80; dip_name := "Stereo Sound";
       dip_settings := [(0x80, "Off"); (0x00, "On")] |} ].

(** The settings of a field that a switch byte [v] selects. *)
Definition selected (v : Z) (f : dip_field) : list (Z * string) :=
  List.filter (fun st => fst st =? Z.land v (dip_mask f)) (dip_settings f).

(** The fields of a port that own bit [k]. *)
Definition fields_of_bit (fields : list dip_field) (k : Z) : list dip_field :=
  List.filter (fun f => Z.testbit (dip_mask f) k) fields.

End DjboyTables.

(* ===================================================================== *)
(** ** src/mame/handheld/hh_ht11xx.cpp *)
(* ===================================================================== *)

Module Ht11xx.

(** [output_finder<256, 4> m_out_x]: 256 rows of 4 outputs.  The finder
    template is not in the sources; its two bounds are the template
    arguments the source gives. *)
Definition outputs : Type := list (list Z).

Definition rows : Z := 256.
Definition cols : Z := 4.

(** The outputs are 256 rows of 4. *)
Definition well_formed (o : outputs) : Prop :=
  length o = Z.to_nat rows /\
  forall (r : nat) (row : list Z), o !! r = Some row ->
    length row = Z.to_nat cols.

(** [m_out_x[row][col] = v].  An index outside the 256 x 4 array is not
    defined by the source: no result. *)
Definition out_set (row col v : Z) (o : outputs) : option outputs :=
  if (0 <=? row) && (row <? rows) && (0 <=? col) && (col <? cols)
  then r ← o !! Z.to_nat row;
       Some (<[Z.to_nat row := <[Z.to_nat col := v]> r]> o)
  else None.

(** [m_out_x[row][col]] *)
Definition out_get (row col : Z) (o : outputs) : option Z :=
  if (0 <=? row) && (0 <=? col)
  then r ← o !! Z.to_nat row; r !! Z.to_nat col
  else None.

(** ht11xx_brickgame_state::display_data_w *)
Definition display_data_w (offset data : Z) (o : outputs) : option outputs :=
  foldl (fun acc i =>
           o ← acc;
           out_set (offset + 0xb0) i (Z.land (Z.shiftr data i) 1) o)
        (Some o) (seqZ 0 4).

(** The nibble four outputs of a row stand for, output [i] being bit [i]. *)
Definition row_value (row : list Z) : Z :=
  foldr (fun b acc => b + 2 * acc) 0 row.

(** An array whose outputs are all 0, for examples. *)
Definition resolved : outputs :=
  replicate (Z.to_nat rows) (replicate (Z.to_nat cols) 0).

End Ht11xx.

(* ===================================================================== *)
(** ** Bit-level facts *)
(* ===================================================================== *)

Section Bits.

Lemma land_pow2_testbit (x n : Z) :
  0 <= n -> Z.land x (2 ^ n) = if Z.testbit x n then 2 ^ n else 0.
Proof.
  intros Hn. apply Z.bits_inj'. intros k Hk.
  rewrite Z.land_spec, Z.pow2_bits_eqb by lia.
  destruct (Z.eqb_spec n k) as [->|Hne].
  - destruct (Z.testbit x k) eqn:E; simpl.
    + rewrite Z.pow2_bits_true; auto.
    + now rewrite Z.bits_0.
  - rewrite andb_false_r.
    destruct (Z.testbit x n).
    + rewrite Z.pow2_bits_false; auto.
    + now rewrite Z.bits_0.
Qed.

Lemma truthy_land_pow2 (x n : Z) :
  0 <= n -> truthy (Z.land x (2 ^ n)) = Z.testbit x n.
Proof.
  intros Hn. unfold truthy. rewrite land_pow2_testbit by assumption.
  destruct (Z.testbit x n); simpl.
  - assert (0 < 2 ^ n) by (apply Z.pow_pos_nonneg; lia).
    destruct (Z.eqb_spec (2 ^ n) 0); [lia | reflexivity].
  - reflexivity.
Qed.

Lemma testbit_u8 (x n : Z) :
  0 <= n < 8 -> Z.testbit (u8 x) n = Z.testbit x n.
Proof.
  intros Hn. unfold u8. change 256 with (2 ^ 8).
  apply Z.mod_pow2_bits_low. lia.
Qed.

Lemma BIT_b2z (x n : Z) : 0 <= n -> BIT x n = Z.b2z (Z.testbit x n).
Proof.
  intros Hn. unfold BIT.
  change 1 with (Z.ones 1). rewrite Z.land_ones by lia.
  rewrite Z.shiftr_div_pow2 by lia. change (2 ^ 1) with 2.
  symmetry. apply Z.testbit_spec'. assumption.
Qed.

Lemma truthy_BIT (x n : Z) : 0 <= n -> truthy (BIT x n) = Z.testbit x n.
Proof.
  intros Hn. rewrite BIT_b2z by assumption. unfold truthy.
  destruct (Z.testbit x n); reflexivity.
Qed.

Lemma BIT_eqb_0 (x n : Z) :
  0 <= n -> (BIT x n =? 0) = negb (Z.testbit x n).
Proof.
  intros Hn. rewrite BIT_b2z by assumption.
  destruct (Z.testbit x n); reflexivity.
Qed.

Lemma u8_id (x : Z) : is_u8 x -> u8 x = x.
Proof. intros H. apply Z.mod_small. exact H. Qed.

Lemma u8_is_u8 (x : Z) : is_u8 (u8 x).
Proof. unfold is_u8, u8. apply Z.mod_pos_bound. lia. Qed.

End Bits.

(* ===================================================================== *)
(** ** Facts about the framework model *)
(* ===================================================================== *)

Lemma foldl_configure_curentry (startentry base stride : Z)
    (ks : list Z) (b : memory_bank) :
  m_curentry
    (foldl (fun b k => configure_entry (startentry + k) (base + k * stride) b)
           b ks)
  = m_curentry b.
Proof.
  revert b. induction ks as [|k ks IH]; intros b; simpl.
  - reflexivity.
  - rewrite IH. reflexivity.
Qed.

Lemma foldl_configure_lookup (startentry base stride : Z)
    (ks : list Z) (b : memory_bank) (e : Z) :
  m_entries
    (foldl (fun b k => configure_entry (startentry + k) (base + k * stride) b)
           b ks) !! e =
  if decide (e - startentry ∈ ks)
  then Some (base + (e - startentry) * stride)
  else m_entries b !! e.
Proof.
  revert b. induction ks as [|k ks IH]; intros b; simpl.
  - destruct (decide (e - startentry ∈ [])) as [Hin|_]; [|reflexivity].
    inversion Hin.
  - rewrite IH. simpl.
    destruct (decide (e - startentry ∈ ks)) as [Hin|Hnin].
    + rewrite decide_True by (right; exact Hin). reflexivity.
    + destruct (decide (e - startentry = k)) as [Heq|Hne].
      * rewrite decide_True by (rewrite Heq; left).
        replace (startentry + k) with e by lia.
        rewrite lookup_insert_eq. rewrite Heq. reflexivity.
      * rewrite decide_False.
        { rewrite lookup_insert_ne by lia. reflexivity. }
        intros Hc. apply elem_of_cons in Hc. tauto.
Qed.

Lemma configure_entries_curentry (st n base stride : Z) (b : memory_bank) :
  m_curentry (configure_entries st n base stride b) = m_curentry b.
Proof. apply foldl_configure_curentry. Qed.

Lemma configure_entries_lookup (st n base stride : Z) (b : memory_bank) (e : Z) :
  m_entries (configure_entries st n base stride b) !! e =
  if decide (st <= e < st + n)
  then Some (base + (e - st) * stride)
  else m_entries b !! e.
Proof.
  unfold configure_entries. rewrite foldl_configure_lookup.
  destruct (decide (st <= e < st + n)) as [Hr|Hr].
  - rewrite decide_True; [reflexivity|]. apply elem_of_seqZ. lia.
  - rewrite decide_False; [reflexivity|]. rewrite elem_of_seqZ. lia.
Qed.

(** A unit configured from index 0 reads [backing[base + i * size + off]]. *)
Lemma bank_read_configured (backing : list Z) (n base size : Z)
    (b : memory_bank) (i off : Z) :
  0 <= i < n ->
  bank_read backing (set_entry i (configure_entries 0 n base size b)) off
  = region_at backing (base + i * size + off).
Proof.
  intros Hi. unfold bank_read, set_entry; simpl.
  rewrite configure_entries_lookup, decide_True by lia. simpl.
  f_equal. lia.
Qed.

Lemma region_at_is_Some (r : list Z) (a : Z) :
  0 <= a < Z.of_nat (length r) -> is_Some (region_at r a).
Proof.
  intros Ha. unfold region_at.
  destruct (Z.ltb_spec a 0); [lia|].
  apply lookup_lt_is_Some. lia.
Qed.

(* ===================================================================== *)
(** ** Theorems about the BSMT2000 sound board *)
(* ===================================================================== *)

Section DecobsmtFacts.
Import Decobsmt.

Lemma count_if_app (p : call -> bool) (t1 t2 : list call) :
  count_if p (t1 ++ t2) = (count_if p t1 + count_if p t2)%nat.
Proof. unfold count_if. rewrite filter_app, length_app. reflexivity. Qed.

Lemma count_calls_app (c : call) (t1 t2 : list call) :
  count_calls c (t1 ++ t2) = (count_calls c t1 + count_calls c t2)%nat.
Proof. apply count_if_app. Qed.

(** The guard of [bsmt_reset_w] is the falling edge of bit 7. *)
Lemma bsmt_reset_guard (old data : Z) :
  truthy (Z.land (u8 (Z.lxor data old)) 0x80) && negb (truthy (Z.land data 0x80))
  = Z.testbit old 7 && negb (Z.testbit data 7).
Proof.
  change 0x80 with (2 ^ 7).
  rewrite !truthy_land_pow2 by lia.
  rewrite testbit_u8 by lia. rewrite Z.lxor_spec.
  destruct (Z.testbit data 7), (Z.testbit old 7); reflexivity.
Qed.

Lemma reset_calls_bsmt_call_reset (d : decobsmt_device) :
  reset_calls (bsmt_call (Device_reset BSMT_TAG) d) = S (reset_calls d).
Proof.
  unfold reset_calls, bsmt_call; simpl.
  rewrite count_calls_app. unfold count_calls at 2, count_if. simpl. lia.
Qed.

Lemma bsmt_reset_w_unfold (data : Z) (d : decobsmt_device) :
  bsmt_reset_w data d =
  if Z.testbit (m_bsmt_reset d) 7 && negb (Z.testbit data 7)
  then bsmt_call (Device_reset BSMT_TAG) (set_m_bsmt_reset data d)
  else set_m_bsmt_reset data d.
Proof. unfold bsmt_reset_w. rewrite bsmt_reset_guard. reflexivity. Qed.

(** C1.  For 8-bit [old = m_bsmt_reset d] and [data], [bsmt_reset_w data]
    leaves [data] as the stored previous value; it calls [reset()] on the
    BSMT2000 exactly once when bit 7 of [old] is 1 and bit 7 of [data] is
    0, and makes no call on the chip for every other transition of bit 7.
    From the reset state, writing 0x80 and then 0x00 makes exactly one
    [reset()] call. *)
Theorem bsmt_reset_w_falling_edge (d : decobsmt_device) (data : Z) :
  is_u8 (m_bsmt_reset d) -> is_u8 data ->
  m_bsmt_reset (bsmt_reset_w data d) = data /\
  (Z.testbit (m_bsmt_reset d) 7 = true -> Z.testbit data 7 = false ->
     m_bsmt (bsmt_reset_w data d) = m_bsmt d ++ [Device_reset BSMT_TAG] /\
     reset_calls (bsmt_reset_w data d) = S (reset_calls d)) /\
  (Z.testbit (m_bsmt_reset d) 7 = false \/ Z.testbit data 7 = true ->
     m_bsmt (bsmt_reset_w data d) = m_bsmt d /\
     reset_calls (bsmt_reset_w data d) = reset_calls d) /\
  (forall d0 : decobsmt_device,
     let d1 := device_reset d0 in
     let d2 := bsmt_reset_w 0x80 d1 in
     let d3 := bsmt_reset_w 0x00 d2 in
     reset_calls d2 = reset_calls d1 /\
     reset_calls d3 = S (reset_calls d1) /\
     m_bsmt_reset d3 = 0).
Proof.
  intros _ _. split; [| split; [| split]].
  - rewrite bsmt_reset_w_unfold.
    destruct (Z.testbit (m_bsmt_reset d) 7 && negb (Z.testbit data 7));
      reflexivity.
  - intros H H0. rewrite bsmt_reset_w_unfold, H, H0. simpl. split.
    + reflexivity.
    + rewrite reset_calls_bsmt_call_reset. reflexivity.
  - intros H. rewrite bsmt_reset_w_unfold.
    assert (E : Z.testbit (m_bsmt_reset d) 7 && negb (Z.testbit data 7)
                = false).
    { destruct H as [-> | ->]; [reflexivity | apply andb_false_r]. }
    rewrite E. split; reflexivity.
  - intros d0 d1 d2 d3. subst d3 d2.
    rewrite (bsmt_reset_w_unfold 0), (bsmt_reset_w_unfold 128).
    subst d1. simpl. rewrite reset_calls_bsmt_call_reset.
    repeat split; reflexivity.
Qed.

(** The edge theorem at a board whose stored value is 0x80, written 0x00. *)
Lemma bsmt_reset_w_falling_edge_witness :
  let d := constructed 0 0x80 0 0 in
  is_u8 (m_bsmt_reset d) /\ is_u8 0 /\
  reset_calls (bsmt_reset_w 0 d) = 1%nat.
Proof.
  intros d.
  assert (H1 : is_u8 (m_bsmt_reset d)) by (unfold is_u8; simpl; lia).
  assert (H2 : is_u8 0) by (unfold is_u8; lia).
  split; [exact H1 | split; [exact H2 |]].
  destruct (bsmt_reset_w_falling_edge d 0 H1 H2) as (_ & Hfall & _).
  destruct (Hfall eq_refl eq_refl) as [_ Hn]. exact Hn.
Defined.

End DecobsmtFacts.

(* ===================================================================== *)
(** ** Theorems about the DJ Boy driver: banks *)
(* ===================================================================== *)

Section DjboyBanks.
Import Djboy.

(** The state [boot] leaves behind, field by field. *)

Lemma boot_masterbank (g : game) (s0 : djboy_state) :
  m_masterbank (boot g s0) =
  configure_entries 0 32 0 0x2000
    (bank_unconfigured (m_curentry (m_masterbank s0))).
Proof. destruct g; reflexivity. Qed.

Lemma boot_slavebank (g : game) (s0 : djboy_state) :
  m_slavebank (boot g s0) =
  configure_entries 8 8 0x10000 0x4000
    (configure_entries 0 4 0 0x4000
       (bank_unconfigured (m_curentry (m_slavebank s0)))).
Proof. destruct g; reflexivity. Qed.

Lemma boot_soundbank (g : game) (s0 : djboy_state) :
  m_soundbank (boot g s0) =
  configure_entries 0 8 0 0x4000
    (bank_unconfigured (m_curentry (m_soundbank s0))).
Proof. destruct g; reflexivity. Qed.

Lemma boot_bankxor (g : game) (s0 : djboy_state) :
  m_bankxor (boot g s0) = bankxor_of g.
Proof. destruct g; reflexivity. Qed.

Lemma entry_configured_true (b : memory_bank) (e : Z) :
  entry_configured b e = true <-> is_Some (m_entries b !! e).
Proof. unfold entry_configured. apply bool_decide_eq_true. Qed.

Lemma slave_entries_configured (g : game) (s0 : djboy_state) (e : Z) :
  is_Some (m_entries (m_slavebank (boot g s0)) !! e)
  <-> (0 <= e <= 3 \/ 8 <= e <= 15).
Proof.
  rewrite boot_slavebank, !configure_entries_lookup. simpl.
  destruct (decide (8 <= e < 8 + 8)) as [H8|H8].
  - split; [lia | eauto].
  - destruct (decide (0 <= e < 0 + 4)) as [H0|H0].
    + split; [lia | eauto].
    + rewrite lookup_empty. split; [intros [x Hx]; discriminate | lia].
Qed.

Lemma sound_entries_configured (g : game) (s0 : djboy_state) (e : Z) :
  is_Some (m_entries (m_soundbank (boot g s0)) !! e) <-> 0 <= e <= 7.
Proof.
  rewrite boot_soundbank, configure_entries_lookup. simpl.
  destruct (decide (0 <= e < 0 + 8)) as [H0|H0].
  - split; [lia | eauto].
  - rewrite lookup_empty. split; [intros [x Hx]; discriminate | lia].
Qed.

Lemma u8_lxor (a b : Z) : is_u8 a -> is_u8 b -> u8 (Z.lxor a b) = Z.lxor a b.
Proof.
  intros Ha Hb. unfold u8. change 256 with (2 ^ 8).
  rewrite <- Z.land_ones by lia.
  apply Z.bits_inj'. intros k Hk.
  rewrite Z.land_spec, Z.lxor_spec.
  destruct (Z.ltb_spec k 8) as [Hlt|Hge].
  - rewrite Z.ones_spec_low by lia. apply andb_true_r.
  - rewrite Z.ones_spec_high by lia. rewrite andb_false_r.
    assert (Ta : Z.testbit a k = false).
    { rewrite <- (u8_id a Ha). unfold u8. change 256 with (2 ^ 8).
      apply Z.mod_pow2_bits_high. lia. }
    assert (Tb : Z.testbit b k = false).
    { rewrite <- (u8_id b Hb). unfold u8. change 256 with (2 ^ 8).
      apply Z.mod_pow2_bits_high. lia. }
    rewrite Ta, Tb. reflexivity.
Qed.

Lemma mastercpu_bankswitch_w_exec (data : Z) (s : djboy_state) :
  exec (mastercpu_bankswitch_w data) s =
  set_m_masterbank_l (set_entry 0 (m_masterbank_l s))
    (set_m_masterbank
       (set_entry (u8 (Z.lxor data (m_bankxor s))) (m_masterbank s)) s).
Proof. reflexivity. Qed.

Lemma master_window (off : Z) :
  0 <= off < 0x2000 ->
  map_lookup mastercpu_am (0xc000 + off) = Some (H_bankr "master_bank", off).
Proof.
  intros Hoff. unfold mastercpu_am. simpl.
  repeat match goal with
  | |- context [Z.leb ?a ?b] =>
      destruct (Z.leb_spec a b); try lia; simpl
  end.
  do 2 f_equal. lia.
Qed.

Lemma master_read (MASTER : list Z) (g : game) (s0 : djboy_state) (i off : Z) :
  0 <= i < 32 -> 0 <= off ->
  bank_read MASTER (set_entry i (m_masterbank (boot g s0))) off
  = MASTER !! Z.to_nat (i * 0x2000 + off).
Proof.
  intros Hi Hoff. rewrite boot_masterbank, bank_read_configured by lia.
  unfold region_at. destruct (Z.ltb_spec (0 + i * 8192 + off) 0); [lia|].
  reflexivity.
Qed.

(** C2.  A bank unit configured from index 0 with [n] windows of [size]
    bytes reads, after [set_entry j], [backing[j * size + o]] at window
    offset [o].  The DJ Boy master bank is such a unit with 32 windows
    of 0x2000 bytes from the base of the mastercpu region (0x40000
    bytes), mapped at 0xc000-0xdfff: after [set_entry i] the byte read
    at window offset [off] is [MASTER[i * 0x2000 + off]], and for
    [i = 5], [off = 0x10] it is [MASTER[5 * 0x2000 + 0x10]]. *)
Theorem bank_select_then_read
    (backing : list Z) (n size : Z) (b : memory_bank) (j o : Z)
    (MASTER : list Z) (g : game) (s0 : djboy_state) (i off : Z) :
  0 <= j < n -> 0 <= o < size ->
  Z.of_nat (length MASTER) = 0x40000 ->
  0 <= i < 32 -> 0 <= off < 0x2000 ->
  bank_read backing (set_entry j (configure_entries 0 n 0 size b)) o
    = region_at backing (j * size + o) /\
  map_lookup mastercpu_am (0xc000 + off)
    = Some (H_bankr "master_bank", off) /\
  bank_read MASTER (set_entry i (m_masterbank (boot g s0))) off
    = MASTER !! Z.to_nat (i * 0x2000 + off) /\
  is_Some (MASTER !! Z.to_nat (i * 0x2000 + off)) /\
  map_lookup mastercpu_am 0xc010 = Some (H_bankr "master_bank", 0x10) /\
  bank_read MASTER (set_entry 5 (m_masterbank (boot g s0))) 0x10
    = MASTER !! Z.to_nat (5 * 0x2000 + 0x10).
Proof.
  intros Hj Ho Hlen Hi Hoff. repeat apply conj.
  - rewrite bank_read_configured by lia. f_equal.
  - apply master_window. exact Hoff.
  - apply master_read; lia.
  - apply lookup_lt_is_Some. lia.
  - reflexivity.
  - apply master_read; lia.
Qed.

(** The bank theorem on a region whose byte at address [a] is [a mod 256]:
    bank 5, window offset 0x10 reads the byte of address 0xa010. *)
Lemma bank_select_then_read_witness :
  bank_read (u8 <$> seqZ 0 0x40000)
    (set_entry 5 (m_masterbank (boot djboy blank))) 0x10
  = Some 0x10.
Proof.
  assert (Hlen : Z.of_nat (length (u8 <$> seqZ 0 0x40000)) = 0x40000).
  { rewrite length_fmap, length_seqZ. reflexivity. }
  destruct (bank_select_then_read [10; 11; 12; 13] 2 2 (bank_unconfigured 0)
              1 1 (u8 <$> seqZ 0 0x40000) djboy blank 5 0x10)
    as (_ & _ & _ & _ & _ & H); try lia.
  rewrite H. rewrite list_lookup_fmap.
  rewrite lookup_seqZ_lt by (vm_compute; reflexivity).
  reflexivity.
Defined.

Lemma mastercpu_bankswitch_w_masterbank (data : Z) (s : djboy_state) :
  m_masterbank (exec (mastercpu_bankswitch_w data) s)
  = set_entry (u8 (Z.lxor data (m_bankxor s))) (m_masterbank s).
Proof. reflexivity. Qed.

Lemma is_u8_bankxor_of (g : game) : is_u8 (bankxor_of g).
Proof. destruct g; unfold is_u8; simpl; lia. Qed.



Lemma low_nibble_bound (x : Z) : 0 <= Z.land x 0xf < 16.
Proof.
  change 0xf with (Z.ones 4). rewrite Z.land_ones by lia.
  apply Z.mod_pos_bound. lia.
Qed.

(** The guard of [slavecpu_bankswitch_w] lets through exactly the low
    nibbles 0-3 and 8-15. *)
Lemma slave_guard_range (data : Z) :
  Z.land data 0xc <> 4 ->
  0 <= Z.land data 0xf <= 3 \/ 8 <= Z.land data 0xf <= 15.
Proof.
  intros Hg.
  assert (E : Z.land data 0xc = Z.land (Z.land data 0xf) 0xc).
  { rewrite <- Z.land_assoc. reflexivity. }
  rewrite E in Hg. pose proof (low_nibble_bound data) as Hb.
  remember (Z.land data 0xf) as n eqn:Hn. clear Hn E.
  assert (Hc : n = 4 \/ n = 5 \/ n = 6 \/ n = 7 \/ n <= 3 \/ 8 <= n) by lia.
  destruct Hc as [->|[->|[->|[->|Hc]]]];
    try (exfalso; apply Hg; reflexivity).
  lia.
Qed.

Lemma slavecpu_bankswitch_w_exec (data : Z) (s : djboy_state) :
  exec (slavecpu_bankswitch_w data) s =
  if negb (Z.land data 0xc =? 4)
  then set_m_slavebank (set_entry (Z.land data 0xf) (m_slavebank s))
         (set_m_videoreg data s)
  else set_m_videoreg data s.
Proof.
  unfold slavecpu_bankswitch_w, exec, mbind, M_bind, modify. simpl.
  destruct (negb (Z.land data 0xc =? 4)); reflexivity.
Qed.

Lemma soundcpu_bankswitch_w_soundbank (data : Z) (s : djboy_state) :
  m_soundbank (exec (soundcpu_bankswitch_w data) s)
  = set_entry data (m_soundbank s).
Proof. reflexivity. Qed.

(** C4.  [soundcpu_bankswitch_w] hands the written byte to [set_entry]
    without mask or guard.  The sound bank has the entries 0-7 configured;
    after the byte 0x08 is written to the sound bank port of a freshly
    started machine the bank has entry 8 selected, which is not
    configured, and its window is unmapped.  The slave handler, given the
    same byte, goes through its guard and mask and selects an entry that
    is configured. *)
Theorem soundcpu_bankswitch_w_selects_unconfigured
    (g : game) (s0 : djboy_state) :
  let b := boot g s0 in
  let s := exec (soundcpu_bankswitch_w 0x08) b in
  let t := exec (slavecpu_bankswitch_w 0x08) b in
  is_u8 0x08 /\
  (forall e : Z, entry_configured (m_soundbank b) e = true <-> 0 <= e <= 7) /\
  m_curentry (m_soundbank s) = 8 /\
  entry_configured (m_soundbank s) (m_curentry (m_soundbank s)) = false /\
  (forall (SOUND : list Z) (off : Z),
     bank_read SOUND (m_soundbank s) off = None) /\
  m_curentry (m_slavebank t) = 8 /\
  entry_configured (m_slavebank t) (m_curentry (m_slavebank t)) = true.
Proof.
  intros b s t.
  assert (Hnone : m_entries (m_soundbank b) !! 8 = None).
  { destruct (m_entries (m_soundbank b) !! 8) eqn:E; [|reflexivity].
    assert (Hs : is_Some (m_entries (m_soundbank b) !! 8)) by eauto.
    apply sound_entries_configured in Hs. lia. }
  split; [unfold is_u8; lia|].
  split.
  { intros e. rewrite entry_configured_true. apply sound_entries_configured. }
  split; [reflexivity|].
  split.
  { subst s. rewrite soundcpu_bankswitch_w_soundbank.
    unfold entry_configured, set_entry. cbn [m_entries m_curentry].
    apply bool_decide_eq_false. rewrite Hnone. intros [x Hx]. discriminate. }
  split.
  { intros SOUND off. subst s. rewrite soundcpu_bankswitch_w_soundbank.
    unfold bank_read, set_entry. cbn [m_entries m_curentry].
    rewrite Hnone. reflexivity. }
  assert (Ht : m_slavebank t = set_entry 8 (m_slavebank b)).
  { subst t. rewrite slavecpu_bankswitch_w_exec. reflexivity. }
  split; [rewrite Ht; reflexivity|].
  rewrite Ht. unfold set_entry. cbn [m_curentry].
  apply entry_configured_true. cbn [m_entries].
  apply slave_entries_configured. lia.
Qed.

End DjboyBanks.

(* ===================================================================== *)
(** ** Theorems about the DJ Boy driver: the BEAST port bridge *)
(* ===================================================================== *)

Section DjboyBeast.
Import Djboy.

(** [beast_p0_w] with its two guards read as bits. *)
Lemma beast_p0_w_exec (data : Z) (s : djboy_state) :
  exec (beast_p0_w data) s =
  let s1 := if negb (Z.testbit (m_beast_p0 s) 1) && Z.testbit data 1
            then exec (latch_dev_write slavelatch (m_beast_p1 s)) s
            else s in
  let s2 := if negb (Z.testbit data 0)
            then exec (latch_dev_acknowledge_w beastlatch data) s1
            else s1 in
  set_m_beast_p0 data s2.
Proof.
  rewrite <- (truthy_BIT (m_beast_p0 s) 1), <- (truthy_BIT data 1) by lia.
  rewrite <- (BIT_eqb_0 data 0) by lia.
  unfold beast_p0_w, exec, mbind, M_bind, gets, modify. simpl.
  destruct (negb (truthy (BIT (m_beast_p0 s) 1)) && truthy (BIT data 1));
    destruct (BIT data 0 =? 0); reflexivity.
Qed.

(** C10.  [beast_p0_w data] makes these calls and no other: a write of
    the retained [m_beast_p1] to the slave latch when bit 1 of the
    retained port-0 value is 0 and bit 1 of [data] is 1, then an
    acknowledge of the beast latch when bit 0 of [data] is 0.  The slave
    latch is therefore written once on the rising edge and not at all
    otherwise, the beast latch is acknowledged exactly when bit 0 of
    [data] is 0, and [data] is the retained port-0 value afterwards. *)
Theorem beast_p0_w_edges (s : djboy_state) (data : Z) :
  let s' := exec (beast_p0_w data) s in
  let rising := negb (Z.testbit (m_beast_p0 s) 1) && Z.testbit data 1 in
  let ack := negb (Z.testbit data 0) in
  calls s' =
    calls s
    ++ (if rising then [Latch_write "slavelatch" (m_beast_p1 s)] else [])
    ++ (if ack then [Latch_acknowledge "beastlatch"] else []) /\
  count_if (is_latch_write "slavelatch") (calls s') =
    (count_if (is_latch_write "slavelatch") (calls s)
     + (if rising then 1 else 0))%nat /\
  count_calls (Latch_acknowledge "beastlatch") (calls s') =
    (count_calls (Latch_acknowledge "beastlatch") (calls s)
     + (if ack then 1 else 0))%nat /\
  m_slavelatch s' =
    (if rising then latch_write (m_beast_p1 s) (m_slavelatch s)
     else m_slavelatch s) /\
  m_beastlatch s' =
    (if ack then latch_acknowledge_w (m_beastlatch s)
     else m_beastlatch s) /\
  m_beast_p0 s' = data.
Proof.
  intros s' rising ack.
  assert (Hc : calls s' =
    calls s
    ++ (if rising then [Latch_write "slavelatch" (m_beast_p1 s)] else [])
    ++ (if ack then [Latch_acknowledge "beastlatch"] else [])).
  { subst s' rising ack. rewrite beast_p0_w_exec.
    destruct (negb (Z.testbit (m_beast_p0 s) 1) && Z.testbit data 1);
      destruct (negb (Z.testbit data 0)); simpl;
      rewrite <- ?app_assoc, ?app_nil_r; reflexivity. }
  split; [exact Hc|].
  split; [| split; [| split; [| split]]].
  - rewrite Hc, !count_if_app.
    destruct rising, ack; unfold count_if; simpl; lia.
  - rewrite Hc, !count_calls_app.
    destruct rising, ack; unfold count_calls, count_if; simpl; lia.
  - subst s' rising ack. rewrite beast_p0_w_exec.
    destruct (negb (Z.testbit (m_beast_p0 s) 1) && Z.testbit data 1);
      destruct (negb (Z.testbit data 0)); reflexivity.
  - subst s' rising ack. rewrite beast_p0_w_exec.
    destruct (negb (Z.testbit (m_beast_p0 s) 1) && Z.testbit data 1);
      destruct (negb (Z.testbit data 0)); reflexivity.
  - subst s'. rewrite beast_p0_w_exec. reflexivity.
Qed.

(** *** Reads *)

Ltac selector_cases z :=
  destruct z as [|p|p]; try reflexivity;
  destruct p as [q|q|]; try reflexivity;
  destruct q; reflexivity.

Lemma beast_status_r_run (s : djboy_state) :
  beast_status_r s =
  (Z.lor (if latch_pending_r (m_slavelatch s) then 0x0 else 0x4)
         (if latch_pending_r (m_beastlatch s) then 0x8 else 0x0), s).
Proof. reflexivity. Qed.

Lemma beast_p3_r_state (io : ioports) (s : djboy_state) :
  exec (beast_p3_r io) s = s.
Proof. reflexivity. Qed.

Lemma beast_p2_r_state (io : ioports) (s : djboy_state) :
  exec (beast_p2_r io) s = s.
Proof.
  unfold beast_p2_r, exec, mbind, M_bind, gets. simpl.
  selector_cases (Z.land (Z.shiftr (m_beast_p0 s) 2) 3).
Qed.

Lemma beast_p1_r_run (s : djboy_state) :
  beast_p1_r s =
  if negb (Z.testbit (m_beast_p0 s) 0)
  then latch_dev_read beastlatch s
  else (0, s).
Proof.
  rewrite <- (BIT_eqb_0 (m_beast_p0 s) 0) by lia.
  unfold beast_p1_r, mbind, M_bind, gets. simpl.
  destruct (BIT (m_beast_p0 s) 0 =? 0); reflexivity.
Qed.

(** The status bits of [beast_p3_r] below the DIP switch nibble. *)
Lemma p3_low_nibble (d a b : Z) :
  a = 0 \/ a = 4 -> b = 0 \/ b = 8 ->
  Z.land (u8 (Z.lor (Z.lor (Z.shiftl d 4) a) b)) 0xf = Z.lor a b.
Proof.
  intros Ha Hb. apply Z.bits_inj'. intros k Hk.
  rewrite Z.land_spec. change 0xf with (Z.ones 4).
  destruct (Z.ltb_spec k 4) as [Hlt|Hge].
  - rewrite Z.ones_spec_low, andb_true_r by lia.
    rewrite testbit_u8 by lia. rewrite !Z.lor_spec.
    rewrite Z.shiftl_spec_low by lia. reflexivity.
  - rewrite Z.ones_spec_high, andb_false_r by lia.
    rewrite Z.lor_spec.
    assert (Ta : Z.testbit a k = false).
    { destruct Ha as [->| ->]; [apply Z.testbit_0_l|].
      change 4 with (2 ^ 2). apply Z.pow2_bits_false. lia. }
    assert (Tb : Z.testbit b k = false).
    { destruct Hb as [->| ->]; [apply Z.testbit_0_l|].
      change 8 with (2 ^ 3). apply Z.pow2_bits_false. lia. }
    rewrite Ta, Tb. reflexivity.
Qed.

Lemma beast_p3_r_low (io : ioports) (s : djboy_state) :
  Z.land (eval (beast_p3_r io) s) 0x0f =
  Z.lor (if latch_pending_r (m_beastlatch s) then 0x0 else 0x4)
        (if latch_pending_r (m_slavelatch s) then 0x8 else 0x0).
Proof.
  unfold beast_p3_r, eval, mbind, M_bind, mret, M_ret, gets,
    latch_dev_pending_r. simpl.
  apply p3_low_nibble.
  - destruct (latch_pending_r (m_beastlatch s)); auto.
  - destruct (latch_pending_r (m_slavelatch s)); auto.
Qed.

(** C9.  [beast_status_r] leaves the machine as it is and returns
    [(slave pending ? 0 : 4) | (beast pending ? 8 : 0)]: bit 2 is 0 when
    the slave latch is pending and 1 otherwise, bit 3 is 1 when the
    beast latch is pending and 0 otherwise.  [beast_p3_r] leaves the
    machine as it is too, and its low four bits are
    [(beast pending ? 0 : 4) | (slave pending ? 8 : 0)] whatever the
    inputs; two consecutive reads return the same value. *)
Theorem pending_reads_have_no_effect (s : djboy_state) (io io' : ioports) :
  let sp := latch_pending_r (m_slavelatch s) in
  let bp := latch_pending_r (m_beastlatch s) in
  exec beast_status_r s = s /\
  eval beast_status_r s
    = Z.lor (if sp then 0x0 else 0x4) (if bp then 0x8 else 0x0) /\
  Z.testbit (eval beast_status_r s) 2 = negb sp /\
  Z.testbit (eval beast_status_r s) 3 = bp /\
  exec (beast_p3_r io) s = s /\
  Z.land (eval (beast_p3_r io) s) 0x0f
    = Z.lor (if bp then 0x0 else 0x4) (if sp then 0x8 else 0x0) /\
  Z.land (eval (beast_p3_r io') s) 0x0f
    = Z.land (eval (beast_p3_r io) s) 0x0f /\
  eval beast_status_r (exec beast_status_r s) = eval beast_status_r s /\
  eval (beast_p3_r io) (exec (beast_p3_r io) s) = eval (beast_p3_r io) s.
Proof.
  intros sp bp. repeat apply conj.
  - reflexivity.
  - reflexivity.
  - unfold eval. rewrite beast_status_r_run. simpl. fold sp bp.
    destruct sp, bp; reflexivity.
  - unfold eval. rewrite beast_status_r_run. simpl. fold sp bp.
    destruct sp, bp; reflexivity.
  - reflexivity.
  - apply beast_p3_r_low.
  - rewrite !beast_p3_r_low. reflexivity.
  - reflexivity.
  - rewrite beast_p3_r_state. reflexivity.
Qed.

Lemma selector_bound (x : Z) : 0 <= Z.land x 3 <= 3.
Proof.
  assert (E : Z.land x 3 = x mod 4).
  { change 3 with (Z.ones 2). rewrite Z.land_ones by lia. reflexivity. }
  rewrite E. pose proof (Z.mod_pos_bound x 4). lia.
Qed.

(** C7.  [beast_p0_r] returns 0.  [beast_p1_r] returns 0 when bit 0 of
    the retained port-0 value is 1.  [beast_p2_r] looks at the selector
    [(m_beast_p0 >> 2) & 3], bits 2-3 of the retained port-0 value: it
    returns 0xff for selector 3 and the value of IN1, IN2, IN0 for
    selector 0, 1, 2.  None of these reads changes the machine. *)
Theorem unknown_port_reads (s : djboy_state) (io : ioports) :
  is_u8 (IN0 io) -> is_u8 (IN1 io) -> is_u8 (IN2 io) ->
  let sel := Z.land (Z.shiftr (m_beast_p0 s) 2) 3 in
  beast_p0_r s = (0, s) /\
  (Z.testbit (m_beast_p0 s) 0 = true -> beast_p1_r s = (0, s)) /\
  exec (beast_p2_r io) s = s /\
  0 <= sel <= 3 /\
  Z.testbit sel 0 = Z.testbit (m_beast_p0 s) 2 /\
  Z.testbit sel 1 = Z.testbit (m_beast_p0 s) 3 /\
  (sel = 3 -> eval (beast_p2_r io) s = 0xff) /\
  (sel = 0 -> eval (beast_p2_r io) s = IN1 io) /\
  (sel = 1 -> eval (beast_p2_r io) s = IN2 io) /\
  (sel = 2 -> eval (beast_p2_r io) s = IN0 io).
Proof.
  intros H0 H1 H2 sel.
  assert (Hrun : eval (beast_p2_r io) s =
                 match sel with
                 | 0 => u8 (IN1 io)
                 | 1 => u8 (IN2 io)
                 | 2 => u8 (IN0 io)
                 | _ => 0xff
                 end).
  { subst sel. unfold beast_p2_r, eval, mbind, M_bind, gets. simpl.
    selector_cases (Z.land (Z.shiftr (m_beast_p0 s) 2) 3). }
  assert (Hbit : forall k, 0 <= k < 2 ->
             Z.testbit sel k = Z.testbit (m_beast_p0 s) (k + 2)).
  { intros k Hk. subst sel. rewrite Z.land_spec.
    change 3 with (Z.ones 2). rewrite Z.ones_spec_low, andb_true_r by lia.
    rewrite Z.shiftr_spec by lia. reflexivity. }
  repeat apply conj.
  - reflexivity.
  - intros Hb. rewrite beast_p1_r_run, Hb. reflexivity.
  - apply beast_p2_r_state.
  - apply selector_bound.
  - apply selector_bound.
  - apply (Hbit 0). lia.
  - apply (Hbit 1). lia.
  - intros E. rewrite Hrun, E. reflexivity.
  - intros E. rewrite Hrun, E. apply u8_id. exact H1.
  - intros E. rewrite Hrun, E. apply u8_id. exact H2.
  - intros E. rewrite Hrun, E. apply u8_id. exact H0.
Qed.

(** The port reads with the retained port-0 value 0x04 (selector 1) and
    the second player holding "up" (IN2 = 0xfe). *)
Lemma unknown_port_reads_witness :
  let io := {| IN0 := 0xff; IN1 := 0xff; IN2 := 0xfe;
               DSW1 := 0x00; DSW2 := 0x80 |} in
  let s := set_m_beast_p0 0x04 blank in
  eval (beast_p2_r io) s = 0xfe.
Proof.
  intros io s.
  assert (H0 : is_u8 (IN0 io)) by (unfold is_u8; simpl; lia).
  assert (H1 : is_u8 (IN1 io)) by (unfold is_u8; simpl; lia).
  assert (H2 : is_u8 (IN2 io)) by (unfold is_u8; simpl; lia).
  destruct (unknown_port_reads s io H0 H1 H2)
    as (_ & _ & _ & _ & _ & _ & _ & _ & H & _).
  apply H. reflexivity.
Defined.

(** *** The beast latch *)

Lemma exec_wr (m : M unit) (s : djboy_state) : exec (wr m) s = exec m s.
Proof. unfold wr, exec, mbind, M_bind. destruct (m s). reflexivity. Qed.

Lemma boot_beastlatch (g : game) (s0 : djboy_state) :
  m_beastlatch (boot g s0) =
  set_separate_acknowledge true
    (set_data_pending_cb "beast" INPUT_LINE_IRQ0 generic_latch_8_add).
Proof. destruct g; reflexivity. Qed.

Lemma boot_slavecpu (g : game) (s0 : djboy_state) :
  m_slavecpu (boot g s0) = cpu_initial.
Proof. destruct g; reflexivity. Qed.

(** What each access does to the beast latch, when the latch is in
    separate-acknowledge mode. *)
Lemma run_beastlatch (io : ioports) (a : access) (s : djboy_state) :
  m_separate_acknowledge (m_beastlatch s) = true ->
  m_beastlatch (exec (run io a) s) =
  match a with
  | Slave_port_04_w v => latch_write v (m_beastlatch s)
  | Beast_p0_out d =>
      if negb (Z.testbit d 0) then latch_acknowledge_w (m_beastlatch s)
      else m_beastlatch s
  | _ => m_beastlatch s
  end.
Proof.
  intros Hsep. destruct a; unfold run; rewrite ?exec_wr; try reflexivity.
  - rewrite slavecpu_bankswitch_w_exec.
    destruct (negb (Z.land data 12 =? 4)); reflexivity.
  - rewrite beast_p0_w_exec.
    destruct (negb (Z.testbit (m_beast_p0 s) 1) && Z.testbit data 1);
      destruct (negb (Z.testbit data 0)); reflexivity.
  - unfold exec. rewrite beast_p1_r_run.
    destruct (negb (Z.testbit (m_beast_p0 s) 0)); [|reflexivity].
    unfold latch_dev_read, latch_read. simpl. rewrite Hsep. reflexivity.
  - rewrite beast_p2_r_state. reflexivity.
Qed.

(** C3.  The beast latch is configured with separate acknowledge, and no
    access changes that.  In this mode a write of [v] (slave port 0x04)
    stores [v] and sets pending; [beast_p1_r], when bit 0 of the
    retained port-0 value is 0, returns the stored value and leaves the
    latch, pending flag included, as it is; [beast_p0_w data]
    acknowledges, clearing pending, when bit 0 of [data] is 0 and leaves
    the latch alone when it is 1; and an access after which a pending
    latch is no longer pending is a [beast_p0_w] with bit 0 clear. *)
Theorem beastlatch_separate_acknowledge
    (g : game) (s0 s : djboy_state) (io : ioports) (v data : Z)
    (a : access) :
  m_separate_acknowledge (m_beastlatch s) = true ->
  let s1 := exec (run io (Slave_port_04_w v)) s in
  let pending x := latch_pending_r (m_beastlatch x) in
  m_separate_acknowledge (m_beastlatch (boot g s0)) = true /\
  m_separate_acknowledge (m_beastlatch (exec (run io a) s)) = true /\
  pending s1 = true /\
  m_latched_value (m_beastlatch s1) = v /\
  (Z.testbit (m_beast_p0 s1) 0 = false ->
     eval beast_p1_r s1 = v /\
     m_beastlatch (exec beast_p1_r s1) = m_beastlatch s1 /\
     pending (exec beast_p1_r s1) = true) /\
  (Z.testbit (m_beast_p0 s) 0 = false ->
     eval beast_p1_r s = m_latched_value (m_beastlatch s) /\
     m_beastlatch (exec beast_p1_r s) = m_beastlatch s) /\
  (Z.testbit data 0 = false ->
     pending (exec (beast_p0_w data) s) = false /\
     m_latched_value (m_beastlatch (exec (beast_p0_w data) s))
       = m_latched_value (m_beastlatch s)) /\
  (Z.testbit data 0 = true ->
     m_beastlatch (exec (beast_p0_w data) s) = m_beastlatch s) /\
  (pending s = true -> pending (exec (run io a) s) = false ->
     exists d : Z, a = Beast_p0_out d /\ Z.testbit d 0 = false).
Proof.
  intros Hsep s1 pending.
  assert (Hread : forall x : djboy_state,
             m_separate_acknowledge (m_beastlatch x) = true ->
             Z.testbit (m_beast_p0 x) 0 = false ->
             eval beast_p1_r x = m_latched_value (m_beastlatch x) /\
             m_beastlatch (exec beast_p1_r x) = m_beastlatch x).
  { intros x Hx Hb. unfold eval, exec. rewrite beast_p1_r_run, Hb. simpl.
    unfold latch_dev_read, latch_read. simpl. rewrite Hx.
    split; reflexivity. }
  assert (Hs1 : m_beastlatch s1 = latch_write v (m_beastlatch s)).
  { subst s1. apply (run_beastlatch io (Slave_port_04_w v) s Hsep). }
  assert (Hack : m_beastlatch (exec (beast_p0_w data) s) =
                 if negb (Z.testbit data 0)
                 then latch_acknowledge_w (m_beastlatch s)
                 else m_beastlatch s).
  { rewrite <- (exec_wr (beast_p0_w data)).
    apply (run_beastlatch io (Beast_p0_out data) s Hsep). }
  split; [rewrite boot_beastlatch; reflexivity|].
  split.
  { rewrite (run_beastlatch io a s Hsep).
    destruct a; try exact Hsep.
    match goal with |- context [negb ?b] => destruct b end; exact Hsep. }
  split; [unfold pending; rewrite Hs1; reflexivity|].
  split; [rewrite Hs1; reflexivity|].
  split.
  { intros Hb.
    assert (Hsep1 : m_separate_acknowledge (m_beastlatch s1) = true).
    { rewrite Hs1. exact Hsep. }
    destruct (Hread s1 Hsep1 Hb) as [Hv Hl].
    split; [rewrite Hv, Hs1; reflexivity|].
    split; [exact Hl|].
    unfold pending. rewrite Hl, Hs1. reflexivity. }
  split; [apply Hread; exact Hsep|].
  split.
  { intros Hb. unfold pending. rewrite Hack, Hb. split; reflexivity. }
  split.
  { intros Hb. rewrite Hack, Hb. reflexivity. }
  intros Hp Hq. unfold pending in Hp, Hq.
  rewrite (run_beastlatch io a s Hsep) in Hq.
  destruct a as [x|x|x| |x|x| |x| | |x| |x| |x| |x];
    try (rewrite Hp in Hq; discriminate Hq).
  - discriminate Hq.
  - exists x. split; [reflexivity|].
    destruct (Z.testbit x 0); [|reflexivity].
    simpl in Hq. rewrite Hp in Hq. discriminate Hq.
Qed.

(** The latch theorem on a freshly started machine: the slave writes
    0x33, the BEAST reads it back, and the latch is still pending. *)
Lemma beastlatch_separate_acknowledge_witness :
  let io := {| IN0 := 0xff; IN1 := 0xff; IN2 := 0xff;
               DSW1 := 0x00; DSW2 := 0x80 |} in
  let s1 := exec (run io (Slave_port_04_w 0x33)) (boot djboy blank) in
  eval beast_p1_r s1 = 0x33 /\
  latch_pending_r (m_beastlatch (exec beast_p1_r s1)) = true.
Proof.
  intros io s1.
  destruct (beastlatch_separate_acknowledge djboy blank (boot djboy blank)
              io 0x33 0x00 (Beast_p0_out 0x00) eq_refl)
    as (_ & _ & _ & _ & H & _).
  destruct (H eq_refl) as (Hv & _ & Hp). split; [exact Hv | exact Hp].
Defined.

(** *** Reset control *)

Lemma beast_p3_w_exec (data : Z) (s : djboy_state) :
  exec (beast_p3_w data) s =
  set_m_slavecpu
    (set_input_line INPUT_LINE_RESET
       (if Z.testbit data 1 then CLEAR_LINE else ASSERT_LINE)
       (m_slavecpu s))
    (set_m_beast_p3 data s).
Proof.
  unfold beast_p3_w, exec, mbind, M_bind, modify. simpl.
  change 2 with (2 ^ 1). rewrite truthy_land_pow2 by lia. reflexivity.
Qed.

(** C6, as the code has it.  The reset lines are driven by level, not by
    edge.  The slave CPU's reset line is clear (RUNNING) on a freshly
    started machine.  [beast_p3_w v] retains [v] and, whatever the state
    before, leaves the line asserted when bit 1 of [v] is 0 and clear when
    bit 1 is 1; after any such write the line agrees with bit 1 of the
    retained value.  From a state where it does, the line moves as the
    state machine of the specification does on bit 1: to RESET_ASSERTED
    exactly on the falling edge and back to RUNNING exactly on the rising
    edge.  [bsmt_reset_line st] puts [st] on the sound CPU's reset line
    and touches no other line. *)
Theorem reset_line_is_level_driven
    (g : game) (s0 s : djboy_state) (v1 v2 : Z)
    (d : Decobsmt.decobsmt_device) (st : line_state) :
  let line x := m_slavecpu x INPUT_LINE_RESET in
  let tracks x :=
    line x = (if Z.testbit (m_beast_p3 x) 1 then CLEAR_LINE else ASSERT_LINE) in
  let s1 := exec (beast_p3_w v1) s in
  let s2 := exec (beast_p3_w v2) s1 in
  reset_state_of (line (boot g s0)) = reset_initial /\
  m_beast_p3 s1 = v1 /\
  line s1 = (if Z.testbit v1 1 then CLEAR_LINE else ASSERT_LINE) /\
  tracks s1 /\
  (tracks s ->
   reset_state_of (line s1)
     = reset_fsm (reset_state_of (line s))
         (Z.testbit (m_beast_p3 s) 1) (Z.testbit v1 1)) /\
  reset_state_of (line s2)
    = reset_fsm (reset_state_of (line s1))
        (Z.testbit (m_beast_p3 s1) 1) (Z.testbit v2 1) /\
  ((reset_state_of (line s1) = RUNNING /\
    reset_state_of (line s2) = RESET_ASSERTED)
   <-> (Z.testbit v1 1 = true /\ Z.testbit v2 1 = false)) /\
  ((reset_state_of (line s1) = RESET_ASSERTED /\
    reset_state_of (line s2) = RUNNING)
   <-> (Z.testbit v1 1 = false /\ Z.testbit v2 1 = true)) /\
  Decobsmt.m_ourcpu (Decobsmt.bsmt_reset_line st d) INPUT_LINE_RESET = st /\
  (forall l : input_line,
     Decobsmt.m_ourcpu (Decobsmt.bsmt_reset_line st d) l
     = if input_line_eqb l INPUT_LINE_RESET then st
       else Decobsmt.m_ourcpu d l).
Proof.
  intros line tracks s1 s2.
  assert (H1 : line s1 = if Z.testbit v1 1 then CLEAR_LINE else ASSERT_LINE).
  { subst line s1. rewrite beast_p3_w_exec. reflexivity. }
  assert (H2 : line s2 = if Z.testbit v2 1 then CLEAR_LINE else ASSERT_LINE).
  { subst line s2. rewrite beast_p3_w_exec. reflexivity. }
  assert (Hp : m_beast_p3 s1 = v1).
  { subst s1. rewrite beast_p3_w_exec. reflexivity. }
  split; [unfold line; rewrite boot_slavecpu; reflexivity|].
  split; [exact Hp|]. split; [exact H1|].
  split; [unfold tracks; rewrite Hp; exact H1|].
  split.
  { unfold tracks. intros Ht. rewrite H1, Ht.
    destruct (Z.testbit (m_beast_p3 s) 1), (Z.testbit v1 1); reflexivity. }
  rewrite Hp, H1, H2.
  split; [destruct (Z.testbit v1 1), (Z.testbit v2 1); reflexivity|].
  split.
  { destruct (Z.testbit v1 1), (Z.testbit v2 1); simpl;
      split; intros [Ha Hb]; first [discriminate | split; reflexivity]. }
  split.
  { destruct (Z.testbit v1 1), (Z.testbit v2 1); simpl;
      split; intros [Ha Hb]; first [discriminate | split; reflexivity]. }
  split; [reflexivity|].
  intros l. reflexivity.
Qed.

(** The level theorem on a machine that has had 0x02 written to port 3,
    written 0x00: the falling edge of bit 1 asserts the reset. *)
Lemma reset_line_is_level_driven_witness :
  let s := exec (beast_p3_w 0x02) (boot djboy blank) in
  reset_state_of (m_slavecpu s INPUT_LINE_RESET) = RUNNING /\
  reset_state_of (m_slavecpu (exec (beast_p3_w 0x00) s) INPUT_LINE_RESET)
    = RESET_ASSERTED.
Proof.
  intros s.
  destruct (reset_line_is_level_driven djboy blank s 0x00 0x00
              (Decobsmt.constructed 0 0 0 0) CLEAR_LINE)
    as (_ & _ & _ & _ & H & _).
  split; [reflexivity|].
  rewrite H by reflexivity. reflexivity.
Defined.

(** C6, as stated, fails at the first write after start-up.  On a freshly
    started machine whose [m_beast_p3], which has no initialiser, is 0,
    the line is RUNNING and bit 1 of the retained value is 0; the write of
    0x00 makes no falling edge of bit 1, so the state machine of the
    specification stays RUNNING, yet [beast_p3_w] asserts the reset. *)
Lemma reset_line_first_write_counterexample :
  let s := boot djboy blank in
  let s1 := exec (beast_p3_w 0x00) s in
  reset_state_of (m_slavecpu s INPUT_LINE_RESET) = RUNNING /\
  Z.testbit (m_beast_p3 s) 1 = false /\
  Z.testbit 0x00 1 = false /\
  reset_fsm (reset_state_of (m_slavecpu s INPUT_LINE_RESET))
    (Z.testbit (m_beast_p3 s) 1) (Z.testbit 0x00 1) = RUNNING /\
  reset_state_of (m_slavecpu s1 INPUT_LINE_RESET) = RESET_ASSERTED /\
  reset_state_of (m_slavecpu s1 INPUT_LINE_RESET)
    <> reset_fsm (reset_state_of (m_slavecpu s INPUT_LINE_RESET))
         (Z.testbit (m_beast_p3 s) 1) (Z.testbit 0x00 1).
Proof.
  intros s s1. repeat split; try reflexivity. discriminate.
Qed.

End DjboyBeast.

(* ===================================================================== *)
(** ** Save state *)
(* ===================================================================== *)

Section SaveState.
Import Decobsmt.

(** C8.  [djboy_state::machine_start] registers the driver registers,
    the BEAST port values among them; [decobsmt_device::device_start]
    registers nothing, so [m_bsmt_latch], [m_bsmt_reset] and
    [m_bsmt_comms] are not part of the save state.  A board saved after
    0x80 was written to the reset register and loaded into a freshly
    started board resumes with 0x00 there: the write of 0x00 that resets
    the BSMT2000 on the running board makes no call on the resumed one. *)
Theorem decobsmt_save_state_incomplete
    (d0 : decobsmt_device) (g : Djboy.game) (s0 : Djboy.djboy_state) :
  let started := device_reset (device_start d0) in
  let running := bsmt_reset_w 0x80 started in
  let resumed := state_load (state_save running) started in
  Djboy.save_items (Djboy.boot g s0)
    = ["m_videoreg"; "m_scrollx"; "m_scrolly";
       "m_beast_p0"; "m_beast_p1"; "m_beast_p2"; "m_beast_p3"] /\
  save_items (device_start d0) = [] /\
  save_items running = [] /\
  state_save running = [] /\
  m_bsmt_reset running = 0x80 /\
  m_bsmt_reset resumed = 0x00 /\
  reset_calls (bsmt_reset_w 0x00 running) = S (reset_calls running) /\
  reset_calls (bsmt_reset_w 0x00 resumed) = reset_calls resumed.
Proof.
  intros started running resumed.
  split; [destruct g; reflexivity|].
  split; [reflexivity|]. split; [reflexivity|]. split; [reflexivity|].
  split; [reflexivity|]. split; [reflexivity|].
  split.
  - rewrite bsmt_reset_w_unfold.
    change (Z.testbit (m_bsmt_reset running) 7 && negb (Z.testbit 0 7))
      with true.
    cbv iota. rewrite reset_calls_bsmt_call_reset. reflexivity.
  - rewrite bsmt_reset_w_unfold. reflexivity.
Qed.

End SaveState.

(* ===================================================================== *)
(** ** Worked examples *)
(* ===================================================================== *)

Section Examples.
Import Djboy.

(** The slave port write 0x35: video register 0x35, low nibble 5 fails the
    guard, the bank keeps its entry. *)
Example slavecpu_bankswitch_w_0x35 :
  let s := exec (slavecpu_bankswitch_w 0x35) (boot djboy blank) in
  m_videoreg s = 0x35 /\ m_curentry (m_slavebank s) = 0.
Proof. split; reflexivity. Qed.

(** The slave port write 0x3a selects entry 10, whose window starts at
    0x10000 + 2 * 0x4000 of the slave region. *)
Example slavecpu_bankswitch_w_0x3a :
  let s := exec (slavecpu_bankswitch_w 0x3a) (boot djboy blank) in
  m_curentry (m_slavebank s) = 10 /\
  m_entries (m_slavebank s) !! 10 = Some 0x18000.
Proof. split; vm_compute; reflexivity. Qed.

(** The handshake of the two latches: the slave posts 0x33, the BEAST
    raises bit 1 of port 0 with 0x5a on port 1, then acknowledges. *)
Example beast_handshake :
  let s := exec (latch_dev_write beastlatch 0x33;;
                 beast_p1_w 0x5a;;
                 beast_p0_w 0x03;;
                 beast_p0_w 0x02) (boot djboy blank) in
  calls s = [Latch_write "beastlatch" 0x33; Latch_write "slavelatch" 0x5a;
             Latch_acknowledge "beastlatch"] /\
  eval beast_status_r s = 0x0.
Proof. split; reflexivity. Qed.

(** DIP switches read through [beast_p3_r]: with port-0 bits 5-6 set to 1,
    DSW1 = 0x22 and DSW2 = 0x00 (read inverted), no latch pending. *)
Example beast_p3_r_dsw :
  let io := {| IN0 := 0xff; IN1 := 0xff; IN2 := 0xff;
               DSW1 := 0x22; DSW2 := 0x00 |} in
  eval (beast_p3_r io) (exec (beast_p0_w 0x21) (boot djboy blank)) = 0xc4.
Proof. reflexivity. Qed.

(** [bsmt1_w] at offset 0x12: register 0xed, data word from the latch. *)
Example bsmt1_w_0x12 :
  Decobsmt.m_bsmt
    (Decobsmt.bsmt1_w 0x12 0x34
       (Decobsmt.bsmt0_w 0xab (Decobsmt.constructed 0 0 0 0)))
  = [Bsmt_write_reg 0xed; Bsmt_write_data 0xab34].
Proof. reflexivity. Qed.

End Examples.

(* ===================================================================== *)
(** ** More on the BSMT2000 sound board: sequences of operations *)
(* ===================================================================== *)

Section DecobsmtSequences.
Import Decobsmt DecobsmtOps.

Lemma run_cons (o : op) (ops : list op) (d : decobsmt_device) :
  run (o :: ops) d = run ops (step o d).
Proof. reflexivity. Qed.

Lemma step_m_bsmt_reset (o : op) (d : decobsmt_device) :
  m_bsmt_reset (step o d) =
  match o with
  | Op_reset_w data => data
  | Op_device_reset => 0
  | _ => m_bsmt_reset d
  end.
Proof.
  destruct o; try reflexivity.
  simpl. rewrite bsmt_reset_w_unfold.
  destruct (Z.testbit (m_bsmt_reset d) 7 && negb (Z.testbit data 7));
    reflexivity.
Qed.

Lemma step_reset_calls (o : op) (d : decobsmt_device) :
  reset_calls (step o d) =
  (reset_calls d +
   match o with
   | Op_reset_w data =>
       if Z.testbit (m_bsmt_reset d) 7 && negb (Z.testbit data 7)
       then 1 else 0
   | _ => 0
   end)%nat.
Proof.
  destruct o; cbn [step]; try (rewrite Nat.add_0_r; reflexivity).
  - rewrite bsmt_reset_w_unfold.
    destruct (Z.testbit (m_bsmt_reset d) 7 && negb (Z.testbit data 7)).
    + rewrite reset_calls_bsmt_call_reset.
      change (reset_calls (set_m_bsmt_reset data d)) with (reset_calls d).
      lia.
    + rewrite Nat.add_0_r. reflexivity.
  - unfold reset_calls, bsmt1_w, bsmt_call. simpl.
    rewrite !count_calls_app. unfold count_calls at 2 3, count_if. simpl.
    lia.
Qed.

(** X1.  Over any sequence of operations on the board, the BSMT2000
    receives one [reset()] per falling edge of bit 7 in the values written
    to the reset register, and none for anything else; a device reset
    clears the retained value without resetting the chip, so a 1 written
    before it and a 0 written after it make no edge. *)
Theorem reset_calls_count_falling_edges
    (ops : list op) (d : decobsmt_device) :
  reset_calls (run ops d)
  = (reset_calls d + falling_edges (m_bsmt_reset d) ops)%nat.
Proof.
  revert d. induction ops as [|o ops IH]; intros d.
  - simpl. lia.
  - rewrite run_cons, IH, step_reset_calls, step_m_bsmt_reset.
    destruct o; simpl; lia.
Qed.

Lemma step_lines (o : op) (d : decobsmt_device) (l : input_line) :
  m_ourcpu (step o d) l =
  match o with
  | Op_bsmt1_w _ _ =>
      if input_line_eqb l M6809_IRQ_LINE then CLEAR_LINE else m_ourcpu d l
  | Op_ready_callback =>
      if input_line_eqb l M6809_IRQ_LINE then ASSERT_LINE else m_ourcpu d l
  | Op_reset_line st =>
      if input_line_eqb l INPUT_LINE_RESET then st else m_ourcpu d l
  | Op_firq_interrupt =>
      if input_line_eqb l M6809_FIRQ_LINE then HOLD_LINE else m_ourcpu d l
  | _ => m_ourcpu d l
  end.
Proof.
  destruct o; try reflexivity.
  simpl. rewrite bsmt_reset_w_unfold.
  destruct (Z.testbit (m_bsmt_reset d) 7 && negb (Z.testbit data 7));
    reflexivity.
Qed.

(** X2.  The "BSMT ready" interrupt is a level: once the ready callback
    has asserted the IRQ line it stays asserted through every operation
    but a write to the data port ([bsmt1_w]), and once [bsmt1_w] has
    cleared it it stays clear through every operation but the ready
    callback.  The sound CPU's reset line is moved by [bsmt_reset_line]
    alone: writes to the reset register, which reset the BSMT2000, leave
    it where it is. *)
Theorem interrupt_lines_move_only_by_their_handlers
    (ops : list op) (d : decobsmt_device) (offset data : Z) :
  (Forall (fun o => is_bsmt1_w o = false) ops ->
   m_ourcpu (run ops (bsmt_ready_callback d)) M6809_IRQ_LINE = ASSERT_LINE) /\
  (Forall (fun o => is_ready_callback o = false) ops ->
   m_ourcpu (run ops (bsmt1_w offset data d)) M6809_IRQ_LINE = CLEAR_LINE) /\
  (Forall (fun o => is_reset_line o = false) ops ->
   m_ourcpu (run ops d) INPUT_LINE_RESET = m_ourcpu d INPUT_LINE_RESET).
Proof.
  assert (Hirq : forall (st : line_state) (ops : list op) (d : decobsmt_device),
             Forall (fun o => is_bsmt1_w o = false
                              \/ st = CLEAR_LINE) ops ->
             Forall (fun o => is_ready_callback o = false
                              \/ st = ASSERT_LINE) ops ->
             m_ourcpu d M6809_IRQ_LINE = st ->
             m_ourcpu (run ops d) M6809_IRQ_LINE = st).
  { intros st ops0. induction ops0 as [|o ops0 IH]; intros d0 H1 H2 Hd.
    - exact Hd.
    - rewrite run_cons.
      apply Forall_cons in H1 as [Ho1 H1].
      apply Forall_cons in H2 as [Ho2 H2].
      apply IH; try assumption.
      rewrite step_lines. destruct o; try exact Hd; simpl in *.
      + destruct Ho1 as [Ho1| ->]; [discriminate | reflexivity].
      + destruct Ho2 as [Ho2| ->]; [discriminate | reflexivity]. }
  repeat apply conj.
  - intros H. apply Hirq.
    + eapply Forall_impl; [exact H|]. intros o Ho. left. exact Ho.
    + apply Forall_forall. intros o _. right. reflexivity.
    + reflexivity.
  - intros H. apply Hirq.
    + apply Forall_forall. intros o _. right. reflexivity.
    + eapply Forall_impl; [exact H|]. intros o Ho. left. exact Ho.
    + reflexivity.
  - revert d. induction ops as [|o ops IH]; intros d H.
    + reflexivity.
    + rewrite run_cons. apply Forall_cons in H as [Ho H].
      rewrite IH by assumption.
      rewrite step_lines. destruct o; try reflexivity. discriminate.
Qed.

(** The line theorem on a board that becomes ready, takes a reset-register
    write and a status read, and is then written a data word. *)
Lemma interrupt_lines_move_only_by_their_handlers_witness :
  let d := constructed 0 0 0 1 in
  m_ourcpu (run [Op_reset_w 0x80; Op_status_r] (bsmt_ready_callback d))
    M6809_IRQ_LINE = ASSERT_LINE /\
  m_ourcpu (run [Op_reset_w 0x00; Op_firq_interrupt] (bsmt1_w 0x12 0x34 d))
    M6809_IRQ_LINE = CLEAR_LINE /\
  m_ourcpu (run [Op_reset_w 0x80; Op_reset_w 0x00] d) INPUT_LINE_RESET
    = CLEAR_LINE.
Proof.
  intros d.
  destruct (interrupt_lines_move_only_by_their_handlers
              [Op_reset_w 0x80; Op_status_r] d 0 0) as (H1 & _ & _).
  destruct (interrupt_lines_move_only_by_their_handlers
              [Op_reset_w 0x00; Op_firq_interrupt] d 0x12 0x34)
    as (_ & H2 & _).
  destruct (interrupt_lines_move_only_by_their_handlers
              [Op_reset_w 0x80; Op_reset_w 0x00] d 0 0) as (_ & _ & H3).
  split; [apply H1; repeat constructor|].
  split; [apply H2; repeat constructor|].
  rewrite H3 by (repeat constructor). reflexivity.
Defined.

Lemma step_registers (o : op) (d : decobsmt_device) :
  m_bsmt_comms (step o d) =
    match o with
    | Op_comms_w data => data
    | Op_device_reset => 0
    | _ => m_bsmt_comms d
    end /\
  m_bsmt_latch (step o d) =
    match o with
    | Op_bsmt0_w data => data
    | Op_device_reset => 0
    | _ => m_bsmt_latch d
    end.
Proof.
  destruct o; try (split; reflexivity).
  simpl. rewrite bsmt_reset_w_unfold.
  destruct (Z.testbit (m_bsmt_reset d) 7 && negb (Z.testbit data 7));
    split; reflexivity.
Qed.

(** X3.  The comms byte is a mailbox from the host to the sound CPU: what
    [bsmt_comms_r] returns is the byte of the last [bsmt_comms_w], through
    every operation in between that is neither another [bsmt_comms_w] nor
    a device reset; after a device reset it reads 0. *)
Theorem comms_byte_is_kept
    (ops : list op) (d : decobsmt_device) (v : Z) :
  Forall (fun o => sets_comms o = false) ops ->
  bsmt_comms_r (run ops (bsmt_comms_w v d)) = v /\
  bsmt_comms_r (run ops (device_reset d)) = 0.
Proof.
  intros H.
  assert (Hk : forall d0 : decobsmt_device,
             m_bsmt_comms (run ops d0) = m_bsmt_comms d0).
  { induction H as [|o ops Ho H IH]; intros d0.
    - reflexivity.
    - rewrite run_cons, IH.
      destruct (step_registers o d0) as [Hc _]. rewrite Hc.
      destruct o; try reflexivity; discriminate. }
  unfold bsmt_comms_r. rewrite !Hk. split; reflexivity.
Qed.

(** The mailbox theorem with a data word, a reset-register write and an
    interrupt between the host's write of 0x42 and the read. *)
Lemma comms_byte_is_kept_witness :
  bsmt_comms_r
    (run [Op_bsmt0_w 0x12; Op_bsmt1_w 0x01 0x34; Op_reset_w 0x80;
          Op_firq_interrupt]
       (bsmt_comms_w 0x42 (constructed 0 0 0 0))) = 0x42.
Proof.
  apply (comms_byte_is_kept
           [Op_bsmt0_w 0x12; Op_bsmt1_w 0x01 0x34; Op_reset_w 0x80;
            Op_firq_interrupt] (constructed 0 0 0 0) 0x42).
  repeat constructor.
Defined.

Lemma lxor_255 (x : Z) : is_u8 x -> Z.lxor x 0xff = 255 - x.
Proof.
  intros Hx.
  assert (Hall : forallb (fun x => Z.lxor x 0xff =? 255 - x) (seqZ 0 256)
                 = true) by (vm_compute; reflexivity).
  rewrite forallb_forall in Hall.
  apply Z.eqb_eq. apply Hall. apply list_elem_of_In.
  apply elem_of_seqZ. unfold is_u8 in Hx. lia.
Qed.

Lemma lor_shiftl_8 (hi lo : Z) :
  is_u8 lo -> Z.lor (Z.shiftl hi 8) lo = hi * 256 + lo.
Proof.
  intros Hlo.
  assert (Hdisj : Z.land (Z.shiftl hi 8) lo = 0).
  { apply Z.bits_inj'. intros k Hk. rewrite Z.land_spec, Z.bits_0.
    destruct (Z.ltb_spec k 8) as [Hlt|Hge].
    - rewrite Z.shiftl_spec_low by lia. reflexivity.
    - rewrite <- (u8_id lo Hlo). unfold u8. change 256 with (2 ^ 8).
      rewrite Z.mod_pow2_bits_high by lia. apply andb_false_r. }
  rewrite <- Z.lxor_lor by exact Hdisj.
  rewrite <- Z.add_nocarry_lxor by exact Hdisj.
  rewrite Z.shiftl_mul_pow2 by lia. reflexivity.
Qed.

(** X4.  A data word reaches the BSMT2000 in two writes: [bsmt0_w hi]
    latches the high byte, then [bsmt1_w offset lo] sends register
    [255 - offset] and the word [hi * 256 + lo], and clears the IRQ line.
    The address window 0xa000-0xa0ff thus selects the registers 255 down
    to 0, each once. *)
Theorem bsmt_word_write
    (d : decobsmt_device) (hi offset offset' lo : Z) :
  is_u8 hi -> is_u8 offset -> is_u8 offset' -> is_u8 lo ->
  let d' := bsmt1_w offset lo (bsmt0_w hi d) in
  m_bsmt d' = m_bsmt d ++ [Bsmt_write_reg (255 - offset);
                           Bsmt_write_data (hi * 256 + lo)] /\
  0 <= 255 - offset <= 255 /\
  0 <= hi * 256 + lo < 65536 /\
  (hi * 256 + lo) / 256 = hi /\
  (hi * 256 + lo) mod 256 = lo /\
  (Z.lxor offset 0xff = Z.lxor offset' 0xff -> offset = offset') /\
  m_ourcpu d' M6809_IRQ_LINE = CLEAR_LINE /\
  m_bsmt_latch d' = hi.
Proof.
  intros Hhi Hoff Hoff' Hlo d'. unfold is_u8 in *.
  split.
  { subst d'. unfold bsmt1_w, bsmt0_w, bsmt_call. simpl.
    rewrite lxor_255 by (unfold is_u8; lia).
    rewrite lor_shiftl_8 by (unfold is_u8; lia).
    rewrite <- app_assoc. reflexivity. }
  split; [lia|]. split; [lia|].
  split.
  { rewrite Z.div_add_l by lia. rewrite Z.div_small by lia. lia. }
  split.
  { rewrite Z.add_comm, Z.mod_add by lia. apply Z.mod_small. lia. }
  split.
  { rewrite !lxor_255 by (unfold is_u8; lia). lia. }
  split; reflexivity.
Qed.

(** The word theorem for the word 0xab34 sent to register 0xed. *)
Lemma bsmt_word_write_witness :
  m_bsmt (bsmt1_w 0x12 0x34 (bsmt0_w 0xab (constructed 0 0 0 0)))
  = [Bsmt_write_reg 0xed; Bsmt_write_data 0xab34].
Proof.
  assert (H1 : is_u8 0xab) by (unfold is_u8; lia).
  assert (H2 : is_u8 0x12) by (unfold is_u8; lia).
  assert (H3 : is_u8 0x34) by (unfold is_u8; lia).
  destruct (bsmt_word_write (constructed 0 0 0 0) 0xab 0x12 0x12 0x34
              H1 H2 H2 H3) as (H & _).
  exact H.
Defined.

(** X5.  [bsmt_status_r] shows bit 0 of the chip's status as bit 7 of the
    byte: 0x80 when the status is odd, 0x00 when it is even; every other
    bit of the status is lost in the conversion to 8 bits. *)
Theorem bsmt_status_r_is_bit_0 (d : decobsmt_device) :
  bsmt_status_r d = (if Z.testbit (bsmt_status d) 0 then 0x80 else 0x00).
Proof.
  unfold bsmt_status_r, u8. rewrite Z.shiftl_mul_pow2 by lia.
  pose proof (Z.div_mod (bsmt_status d) 2) as Hdm.
  pose proof (Z.mod_pos_bound (bsmt_status d) 2) as Hb.
  pose proof (Z.bit0_mod (bsmt_status d)) as H0.
  replace (bsmt_status d * 2 ^ 7)
    with ((bsmt_status d mod 2) * 128 + (bsmt_status d / 2) * 256) by lia.
  rewrite Z.mod_add by lia.
  destruct (Z.testbit (bsmt_status d) 0); simpl in H0; rewrite <- H0;
    reflexivity.
Qed.

End DecobsmtSequences.

(* ===================================================================== *)
(** ** More on the DJ Boy driver: sequences of accesses *)
(* ===================================================================== *)

Section DjboySequences.
Import Djboy DjboyMaps.

Lemma run_all_cons (io : ioports) (a : access) (accs : list access)
    (s : djboy_state) :
  run_all io (a :: accs) s = run_all io accs (exec (run io a) s).
Proof. reflexivity. Qed.

(** Every access, brought to the form its handler has on the state.  The
    tactic leaves one goal per shape of the resulting state. *)
Ltac by_access a :=
  destruct a; unfold run; rewrite ?exec_wr;
  rewrite ?slavecpu_bankswitch_w_exec, ?beast_p0_w_exec,
          ?beast_p2_r_state, ?beast_p3_r_state;
  unfold exec; rewrite ?beast_p1_r_run;
  unfold latch_dev_read, latch_read;
  repeat match goal with
         | |- context [if ?c then _ else _] => destruct c
         end.

Lemma run_same_configuration (io : ioports) (a : access) (s : djboy_state) :
  same_configuration s (exec (run io a) s).
Proof.
  unfold same_configuration.
  by_access a; repeat apply conj; try reflexivity;
    intros l; destruct l; split; reflexivity.
Qed.

(** X6.  No sequence of port accesses changes what start-up configured:
    the entry tables of the four banks, [m_bankxor], the registered save
    items, and the acknowledge mode and interrupt line of each latch are
    after the sequence what they were before it. *)
Theorem accesses_keep_configuration
    (io : ioports) (accs : list access) (s : djboy_state) :
  same_configuration s (run_all io accs s).
Proof.
  revert s. induction accs as [|a accs IH]; intros s.
  - unfold same_configuration. repeat apply conj; try reflexivity.
    intros l. split; reflexivity.
  - rewrite run_all_cons.
    pose proof (run_same_configuration io a s) as Ha.
    pose proof (IH (exec (run io a) s)) as Hr.
    unfold same_configuration in *.
    destruct Ha as (A1 & A2 & A3 & A4 & A5 & A6 & A7).
    destruct Hr as (R1 & R2 & R3 & R4 & R5 & R6 & R7).
    repeat apply conj; try congruence.
    intros l. destruct (A7 l) as [B1 B2]. destruct (R7 l) as [C1 C2].
    split; congruence.
Qed.

Lemma run_slavebank (io : ioports) (a : access) (s : djboy_state) :
  m_slavebank (exec (run io a) s) =
    match a with
    | Slave_port_00_w data =>
        if negb (Z.land data 0xc =? 4)
        then set_entry (Z.land data 0xf) (m_slavebank s)
        else m_slavebank s
    | _ => m_slavebank s
    end /\
  m_videoreg (exec (run io a) s) =
    match a with
    | Slave_port_00_w data => data
    | _ => m_videoreg s
    end.
Proof. by_access a; split; reflexivity. Qed.

(** X7.  With the slave bank configured as [machine_start] does, a bank
    that has a configured entry selected still has one selected after any
    sequence of port accesses; and the bank bits of [m_videoreg] stay
    coherent with the selected entry (they are of the ignored kind, or
    they are the entry).  After one write to the slave bank port the
    coherence holds whatever the state was before.  [machine_reset] does
    not keep it: it zeroes [m_videoreg] and leaves the bank where it is. *)
Theorem slave_bank_invariants
    (g : game) (s0 s : djboy_state) (io : ioports) (accs : list access)
    (data : Z) :
  m_entries (m_slavebank s) = m_entries (m_slavebank (boot g s0)) ->
  (entry_configured (m_slavebank s) (m_curentry (m_slavebank s)) = true ->
   entry_configured (m_slavebank (run_all io accs s))
     (m_curentry (m_slavebank (run_all io accs s))) = true) /\
  (videoreg_coherent s -> videoreg_coherent (run_all io accs s)) /\
  videoreg_coherent (exec (slavecpu_bankswitch_w data) s) /\
  (let s1 := exec (slavecpu_bankswitch_w 0x0a) s in
   videoreg_coherent s1 /\ ~ videoreg_coherent (exec machine_reset s1)).
Proof.
  intros Hcfg.
  assert (Hone : forall (d : Z) (x : djboy_state),
             videoreg_coherent (exec (slavecpu_bankswitch_w d) x)).
  { intros d x. unfold videoreg_coherent.
    rewrite slavecpu_bankswitch_w_exec.
    destruct (Z.eqb_spec (Z.land d 0xc) 4) as [E|E]; simpl.
    - left. exact E.
    - right. reflexivity. }
  split; [| split; [| split]].
  - revert s Hcfg. induction accs as [|a accs IH]; intros s Hcfg Hc.
    + exact Hc.
    + rewrite run_all_cons. apply IH.
      * destruct (run_same_configuration io a s) as (_ & _ & E & _).
        rewrite E. exact Hcfg.
      * destruct (run_slavebank io a s) as [Hb _]. rewrite Hb.
        destruct a; try exact Hc.
        match goal with
        | |- context [Z.land ?d 12 =? 4] =>
            destruct (Z.eqb_spec (Z.land d 12) 4) as [E|E]
        end; cbn [negb]; [exact Hc|].
        apply entry_configured_true. unfold set_entry.
        cbn [m_entries m_curentry]. rewrite Hcfg.
        apply slave_entries_configured. apply slave_guard_range. exact E.
  - clear Hcfg. revert s. induction accs as [|a accs IH]; intros s Hc.
    + exact Hc.
    + rewrite run_all_cons. apply IH.
      destruct (run_slavebank io a s) as [Hb Hv].
      unfold videoreg_coherent. rewrite Hb, Hv.
      destruct a; try exact Hc.
      match goal with
      | |- context [Z.land ?d 12 =? 4] =>
          destruct (Z.eqb_spec (Z.land d 12) 4) as [E|E]
      end; cbn [negb]; [left; exact E | right; reflexivity].
  - apply Hone.
  - split; [apply Hone|].
    unfold videoreg_coherent. rewrite slavecpu_bankswitch_w_exec.
    simpl. intros [H|H]; discriminate H.
Qed.

(** The invariants on a freshly started machine with bank 0 selected,
    after the slave has written 0x0c to its bank port and the sound CPU
    0x03 to its own. *)
Lemma slave_bank_invariants_witness :
  let io := {| IN0 := 0xff; IN1 := 0xff; IN2 := 0xff;
               DSW1 := 0x00; DSW2 := 0x80 |} in
  let s := run_all io [Slave_port_00_w 0x0c; Sound_port_00_w 0x03]
             (boot djboy blank) in
  entry_configured (m_slavebank s) (m_curentry (m_slavebank s)) = true /\
  videoreg_coherent s.
Proof.
  intros io s.
  destruct (slave_bank_invariants djboy blank (boot djboy blank) io
              [Slave_port_00_w 0x0c; Sound_port_00_w 0x03] 0 eq_refl)
    as (H1 & H2 & _).
  split.
  - apply H1. vm_compute. reflexivity.
  - apply H2. right. reflexivity.
Defined.

Lemma run_slavelatch_writes (io : ioports) (a : access) (s : djboy_state) :
  count_if (is_latch_write "slavelatch") (calls (exec (run io a) s)) =
    (count_if (is_latch_write "slavelatch") (calls s) +
     match a with
     | Beast_p0_out data =>
         if negb (Z.testbit (m_beast_p0 s) 1) && Z.testbit data 1
         then 1 else 0
     | _ => 0
     end)%nat /\
  m_beast_p0 (exec (run io a) s) =
    match a with
    | Beast_p0_out data => data
    | _ => m_beast_p0 s
    end.
Proof.
  by_access a; split; try reflexivity;
    unfold log; simpl; rewrite ?count_if_app; unfold count_if; simpl; lia.
Qed.

(** X8.  Over any sequence of port accesses, the slave latch is written
    once per rising edge of bit 1 in the values the BEAST writes to its
    port 0, and by nothing else: holding bit 1 high posts nothing more,
    and no other port of any core writes that latch. *)
Theorem slavelatch_writes_count_rising_edges
    (io : ioports) (accs : list access) (s : djboy_state) :
  count_if (is_latch_write "slavelatch") (calls (run_all io accs s))
  = (count_if (is_latch_write "slavelatch") (calls s)
     + rising_edges (m_beast_p0 s) accs)%nat.
Proof.
  revert s. induction accs as [|a accs IH]; intros s.
  - simpl. lia.
  - rewrite run_all_cons, IH.
    destruct (run_slavelatch_writes io a s) as [Hc Hp]. rewrite Hc, Hp.
    destruct a; simpl; lia.
Qed.

End DjboySequences.

(* ===================================================================== *)
(** ** More on the DJ Boy driver: banks and address maps *)
(* ===================================================================== *)

Section DjboyWindows.
Import Djboy DjboyMaps.

Lemma lxor_31 (d : Z) :
  is_u8 d ->
  0 <= Z.lxor d 0x1f < 256 /\
  (Z.lxor d 0x1f < 32 <-> d < 32) /\
  (d < 32 -> Z.lxor d 0x1f = 31 - d).
Proof.
  intros Hd.
  assert (Hall : forallb (fun d =>
                   (0 <=? Z.lxor d 0x1f) && (Z.lxor d 0x1f <? 256)
                   && Bool.eqb (Z.lxor d 0x1f <? 32) (d <? 32)
                   && ((32 <=? d) || (Z.lxor d 0x1f =? 31 - d)))
                   (seqZ 0 256) = true) by (vm_compute; reflexivity).
  rewrite forallb_forall in Hall.
  assert (Hin : In d (seqZ 0 256)).
  { apply list_elem_of_In. apply elem_of_seqZ. unfold is_u8 in Hd. lia. }
  specialize (Hall d Hin).
  apply andb_prop in Hall as [Hall H4]. apply andb_prop in Hall as [Hall H3].
  apply andb_prop in Hall as [H1 H2].
  apply Z.leb_le in H1. apply Z.ltb_lt in H2. apply Bool.eqb_prop in H3.
  split; [lia|]. split.
  - rewrite <- !Z.ltb_lt. rewrite H3. tauto.
  - intros Hlt. apply orb_prop in H4 as [H4|H4].
    + apply Z.leb_le in H4. lia.
    + apply Z.eqb_eq. exact H4.
Qed.

Lemma master_entries_configured (g : game) (s0 : djboy_state) (e : Z) :
  is_Some (m_entries (m_masterbank (boot g s0)) !! e) <-> 0 <= e <= 31.
Proof.
  rewrite boot_masterbank, configure_entries_lookup. simpl.
  destruct (decide (0 <= e < 0 + 32)) as [H0|H0].
  - split; [lia | eauto].
  - rewrite lookup_empty. split; [intros [x Hx]; discriminate | lia].
Qed.

(** X9.  On every ROM set the bytes that select a configured entry of the
    master bank are exactly 0-31: the XOR of the Japanese set permutes
    them, reversing their order (byte [d] selects entry [31 - d]) and
    never takes a byte above 31 into range or one below out of it. *)
Theorem master_bank_valid_bytes
    (g : game) (s0 : djboy_state) (data : Z) :
  is_u8 data ->
  let sel x := m_masterbank (exec (mastercpu_bankswitch_w data) (boot x s0)) in
  (entry_configured (sel g) (m_curentry (sel g)) = true <-> data < 32) /\
  (data < 32 -> m_curentry (sel djboyj) = 31 - data) /\
  (data < 32 -> m_curentry (sel djboy) = data) /\
  (data < 32 -> m_curentry (sel djboya) = data).
Proof.
  intros Hd sel.
  assert (Hcur : forall x : game,
             m_curentry (sel x) = Z.lxor data (bankxor_of x)).
  { intros x. unfold sel. rewrite mastercpu_bankswitch_w_masterbank.
    rewrite boot_bankxor. unfold set_entry. cbn [m_curentry].
    apply u8_lxor; [exact Hd | apply is_u8_bankxor_of]. }
  destruct (lxor_31 data Hd) as (Hr & Hiff & Hrev).
  split; [| split; [| split]].
  - rewrite entry_configured_true, Hcur.
    unfold sel. rewrite mastercpu_bankswitch_w_masterbank.
    unfold set_entry. cbn [m_entries].
    rewrite master_entries_configured.
    unfold is_u8 in Hd.
    destruct g; unfold bankxor_of; rewrite ?Z.lxor_0_r; lia.
  - intros Hlt. rewrite Hcur. apply Hrev. exact Hlt.
  - intros Hlt. rewrite Hcur. apply Z.lxor_0_r.
  - intros Hlt. rewrite Hcur. apply Z.lxor_0_r.
Qed.

(** The byte theorem on the Japanese set at the byte 0x03: entry 28. *)
Lemma master_bank_valid_bytes_witness :
  m_curentry
    (m_masterbank (exec (mastercpu_bankswitch_w 0x03) (boot djboyj blank)))
  = 28.
Proof.
  assert (H : is_u8 0x03) by (unfold is_u8; lia).
  destruct (master_bank_valid_bytes djboyj blank 0x03 H) as (_ & H1 & _).
  apply H1. lia.
Defined.

Lemma run_masterbank_l (io : ioports) (a : access) (s : djboy_state) :
  m_masterbank_l (exec (run io a) s) =
  match a with
  | Master_port_00_w _ => set_entry 0 (m_masterbank_l s)
  | _ => m_masterbank_l s
  end.
Proof.
  destruct a; unfold run; rewrite ?exec_wr;
    rewrite ?slavecpu_bankswitch_w_exec, ?beast_p0_w_exec,
            ?beast_p2_r_state, ?beast_p3_r_state;
    unfold exec; rewrite ?beast_p1_r_run;
    unfold latch_dev_read, latch_read;
    repeat match goal with
           | |- context [if ?c then _ else _] => destruct c
           end; reflexivity.
Qed.

Lemma low_window (off : Z) :
  0 <= off < 0x3000 ->
  map_lookup mastercpu_am (0x8000 + off) = Some (H_bankr "master_bank_l", off).
Proof.
  intros Hoff. unfold mastercpu_am. simpl.
  repeat match goal with
  | |- context [Z.leb ?a ?b] =>
      destruct (Z.leb_spec a b); try lia; simpl
  end.
  do 2 f_equal. lia.
Qed.

(** X10.  The low banked window of the master CPU never moves: after the
    first write to the bank port, and through any accesses that follow,
    CPU address [0x8000 + off] of the window 0x8000-0xafff shows the byte
    at the same address of the program ROM, [MASTER[0x8000 + off]]. *)
Theorem master_low_window_is_fixed
    (MASTER : list Z) (g : game) (s0 : djboy_state) (io : ioports)
    (data : Z) (accs : list access) (off : Z) :
  Z.of_nat (length MASTER) = 0x40000 ->
  0 <= off < 0x3000 ->
  let s := run_all io accs (exec (mastercpu_bankswitch_w data) (boot g s0)) in
  map_lookup mastercpu_am (0x8000 + off)
    = Some (H_bankr "master_bank_l", off) /\
  bank_read MASTER (m_masterbank_l s) off
    = MASTER !! Z.to_nat (0x8000 + off) /\
  is_Some (MASTER !! Z.to_nat (0x8000 + off)).
Proof.
  intros Hlen Hoff s.
  assert (Hinv : forall (accs0 : list access) (x : djboy_state),
             m_curentry (m_masterbank_l x) = 0 ->
             m_entries (m_masterbank_l x) !! 0 = Some 0x8000 ->
             m_curentry (m_masterbank_l (run_all io accs0 x)) = 0 /\
             m_entries (m_masterbank_l (run_all io accs0 x)) !! 0
               = Some 0x8000).
  { induction accs0 as [|a accs0 IH]; intros x Hc He.
    - split; assumption.
    - rewrite run_all_cons. apply IH.
      + rewrite run_masterbank_l. destruct a; try exact Hc. reflexivity.
      + rewrite run_masterbank_l. destruct a; exact He. }
  destruct (Hinv accs (exec (mastercpu_bankswitch_w data) (boot g s0)))
    as [Hc He].
  { reflexivity. }
  { destruct g; vm_compute; reflexivity. }
  split; [apply low_window; exact Hoff|].
  split.
  - unfold bank_read. fold s in Hc, He. rewrite Hc, He. simpl.
    unfold region_at. destruct (Z.ltb_spec (32768 + off) 0); [lia|].
    reflexivity.
  - apply lookup_lt_is_Some. lia.
Qed.

(** The window theorem on a ROM whose byte at [a] is [a mod 256], after
    two bank writes: address 0x8123 shows byte 0x23. *)
Lemma master_low_window_is_fixed_witness :
  let io := {| IN0 := 0xff; IN1 := 0xff; IN2 := 0xff;
               DSW1 := 0x00; DSW2 := 0x80 |} in
  bank_read (u8 <$> seqZ 0 0x40000)
    (m_masterbank_l
       (run_all io [Master_port_00_w 0x11]
          (exec (mastercpu_bankswitch_w 0x07) (boot djboy blank)))) 0x123
  = Some 0x23.
Proof.
  intros io.
  assert (Hlen : Z.of_nat (length (u8 <$> seqZ 0 0x40000)) = 0x40000).
  { rewrite length_fmap, length_seqZ. reflexivity. }
  destruct (master_low_window_is_fixed (u8 <$> seqZ 0 0x40000) djboy blank io
              0x07 [Master_port_00_w 0x11] 0x123 Hlen) as (_ & H & _);
    [lia|].
  rewrite H. rewrite list_lookup_fmap.
  rewrite lookup_seqZ_lt by (vm_compute; reflexivity).
  reflexivity.
Defined.

Lemma reaches_read (R : list Z) (bank : memory_bank) (window e off a : Z) :
  reaches bank window e off a ->
  bank_read R (set_entry e bank) off = region_at R a.
Proof.
  intros [Hoff He]. unfold bank_read, set_entry. cbn [m_entries m_curentry].
  rewrite He. simpl. f_equal. lia.
Qed.

(** X11.  The windows of each bank tile its program ROM: through the
    master bank (32 windows of 0x2000), the slave bank (entries 0-3 and
    8-15, windows of 0x4000) and the sound bank (8 windows of 0x4000)
    every byte of the 0x40000, 0x30000 and 0x20000 byte regions is shown
    by exactly one entry at exactly one window offset, and no entry shows
    anything outside its region. *)
Theorem bank_windows_tile_the_rom
    (g : game) (s0 : djboy_state) (a : Z) :
  let b := boot g s0 in
  (0 <= a < 0x40000
   <-> exists e off, reaches (m_masterbank b) 0x2000 e off a) /\
  (0 <= a < 0x30000
   <-> exists e off, reaches (m_slavebank b) 0x4000 e off a) /\
  (0 <= a < 0x20000
   <-> exists e off, reaches (m_soundbank b) 0x4000 e off a) /\
  (forall e e' off off',
     reaches (m_masterbank b) 0x2000 e off a ->
     reaches (m_masterbank b) 0x2000 e' off' a -> e = e' /\ off = off') /\
  (forall e e' off off',
     reaches (m_slavebank b) 0x4000 e off a ->
     reaches (m_slavebank b) 0x4000 e' off' a -> e = e' /\ off = off') /\
  (forall e e' off off',
     reaches (m_soundbank b) 0x4000 e off a ->
     reaches (m_soundbank b) 0x4000 e' off' a -> e = e' /\ off = off') /\
  (forall (R : list Z) (bank : memory_bank) (window e off : Z),
     reaches bank window e off a ->
     bank_read R (set_entry e bank) off = region_at R a).
Proof.
  intros b. subst b.
  assert (Hm : forall e off, reaches (m_masterbank (boot g s0)) 0x2000 e off a
               <-> (0 <= off < 0x2000 /\ 0 <= e < 32
                    /\ a = e * 0x2000 + off)).
  { intros e off. unfold reaches.
    rewrite boot_masterbank, configure_entries_lookup. simpl.
    destruct (decide (0 <= e < 0 + 32)) as [H|H].
    - split.
      + intros [Ho Hs]. injection Hs as Hs. lia.
      + intros (Ho & He & Ha). split; [exact Ho|]. f_equal. lia.
    - rewrite lookup_empty. split; [intros [_ Hs]; discriminate | lia]. }
  assert (Hsl : forall e off, reaches (m_slavebank (boot g s0)) 0x4000 e off a
               <-> (0 <= off < 0x4000 /\
                    ((0 <= e < 4 /\ a = e * 0x4000 + off) \/
                     (8 <= e < 16 /\ a = 0x10000 + (e - 8) * 0x4000 + off)))).
  { intros e off. unfold reaches.
    rewrite boot_slavebank, !configure_entries_lookup. simpl.
    destruct (decide (8 <= e < 8 + 8)) as [H|H].
    - split.
      + intros [Ho Hs]. injection Hs as Hs. lia.
      + intros (Ho & He). split; [exact Ho|]. f_equal. lia.
    - destruct (decide (0 <= e < 0 + 4)) as [H'|H'].
      + split.
        * intros [Ho Hs]. injection Hs as Hs. lia.
        * intros (Ho & He). split; [exact Ho|]. f_equal. lia.
      + rewrite lookup_empty. split; [intros [_ Hs]; discriminate | lia]. }
  assert (Hsn : forall e off, reaches (m_soundbank (boot g s0)) 0x4000 e off a
               <-> (0 <= off < 0x4000 /\ 0 <= e < 8
                    /\ a = e * 0x4000 + off)).
  { intros e off. unfold reaches.
    rewrite boot_soundbank, configure_entries_lookup. simpl.
    destruct (decide (0 <= e < 0 + 8)) as [H|H].
    - split.
      + intros [Ho Hs]. injection Hs as Hs. lia.
      + intros (Ho & He & Ha). split; [exact Ho|]. f_equal. lia.
    - rewrite lookup_empty. split; [intros [_ Hs]; discriminate | lia]. }
  assert (Hdm : forall x n : Z, 0 < n ->
             x = n * (x / n) + x mod n /\ 0 <= x mod n < n).
  { intros x n Hn. split; [apply Z.div_mod; lia | apply Z.mod_pos_bound; lia]. }
  split; [| split; [| split; [| split; [| split; [| split]]]]].
  - split.
    + intros Ha. exists (a / 0x2000), (a mod 0x2000). apply Hm.
      destruct (Hdm a 0x2000) as [E B]; lia.
    + intros (e & off & H). apply Hm in H. lia.
  - split.
    + intros Ha. destruct (Z.lt_ge_cases a 0x10000) as [Hlo|Hhi].
      * exists (a / 0x4000), (a mod 0x4000). apply Hsl.
        destruct (Hdm a 0x4000) as [E B]; lia.
      * exists (8 + (a - 0x10000) / 0x4000), ((a - 0x10000) mod 0x4000).
        apply Hsl. destruct (Hdm (a - 0x10000) 0x4000) as [E B]; lia.
    + intros (e & off & H). apply Hsl in H. lia.
  - split.
    + intros Ha. exists (a / 0x4000), (a mod 0x4000). apply Hsn.
      destruct (Hdm a 0x4000) as [E B]; lia.
    + intros (e & off & H). apply Hsn in H. lia.
  - intros e e' off off' H H'. apply Hm in H. apply Hm in H'. lia.
  - intros e e' off off' H H'. apply Hsl in H. apply Hsl in H'. lia.
  - intros e e' off off' H H'. apply Hsn in H. apply Hsn in H'. lia.
  - intros R bank window e off. apply reaches_read.
Qed.

(** The tiling theorem at byte 0x18010 of the slave ROM: entry 10, window
    offset 0x10. *)
Lemma bank_windows_tile_the_rom_witness :
  reaches (m_slavebank (boot djboy blank)) 0x4000 10 0x10 0x18010 /\
  forall e off,
    reaches (m_slavebank (boot djboy blank)) 0x4000 e off 0x18010 ->
    e = 10 /\ off = 0x10.
Proof.
  assert (H : reaches (m_slavebank (boot djboy blank)) 0x4000 10 0x10 0x18010).
  { split; [lia | vm_compute; reflexivity]. }
  split; [exact H|].
  intros e off H'.
  destruct (bank_windows_tile_the_rom djboy blank 0x18010)
    as (_ & _ & _ & _ & Hu & _).
  apply (Hu e 10 off 0x10 H' H).
Defined.

Ltac split_ranges :=
  repeat match goal with
  | |- context [Z.leb ?x ?y] =>
      destruct (Z.leb_spec x y); cbn [andb length]; try (exfalso; lia)
  end.

(** X12.  In each of the three program maps no address is bound twice.
    The master CPU's map binds every address 0x0000-0xffff; the slave
    CPU's map binds all of them but 0xd900-0xdfff; the sound CPU's map
    binds 0x0000-0xdfff only. *)
Theorem program_maps_ranges (a : Z) :
  (length (matching mastercpu_am a) <= 1)%nat /\
  (length (matching slavecpu_am a) <= 1)%nat /\
  (length (matching soundcpu_am a) <= 1)%nat /\
  (is_Some (map_lookup mastercpu_am a) <-> 0 <= a <= 0xffff) /\
  (is_Some (map_lookup slavecpu_am a)
   <-> (0 <= a <= 0xd8ff \/ 0xe000 <= a <= 0xffff)) /\
  (is_Some (map_lookup soundcpu_am a) <-> 0 <= a <= 0xdfff).
Proof.
  split; [| split; [| split; [| split; [| split]]]].
  - unfold matching, mastercpu_am. cbn [List.filter fst snd].
    split_ranges; cbn [length]; lia.
  - unfold matching, slavecpu_am. cbn [List.filter fst snd].
    split_ranges; cbn [length]; lia.
  - unfold matching, soundcpu_am. cbn [List.filter fst snd].
    split_ranges; cbn [length]; lia.
  - unfold mastercpu_am. cbn [map_lookup].
    split_ranges;
      (split; [intros [x Hx]; first [discriminate Hx | lia] | intros; eauto]);
      try lia.
  - unfold slavecpu_am. cbn [map_lookup].
    split_ranges;
      (split; [intros [x Hx]; first [discriminate Hx | lia] | intros; eauto]);
      try lia.
  - unfold soundcpu_am. cbn [map_lookup].
    split_ranges;
      (split; [intros [x Hx]; first [discriminate Hx | lia] | intros; eauto]);
      try lia.
Qed.

End DjboyWindows.

(* ===================================================================== *)
(** ** More on the DJ Boy driver: DIP switches and mailboxes *)
(* ===================================================================== *)

Section DjboyMailboxes.
Import Djboy DjboyMaps.

Lemma testbit_not8 (x n : Z) :
  0 <= n < 8 -> Z.testbit (not8 x) n = negb (Z.testbit x n).
Proof.
  intros Hn. unfold not8. rewrite testbit_u8 by lia.
  apply Z.lnot_spec. lia.
Qed.

(** The four switch bits [dsw_bits] packs, read back. *)
Lemma dsw_bits_spec (dsw1 dsw2 k : Z) :
  0 <= k ->
  dsw_bits dsw1 dsw2 k =
  Z.b2z (Z.testbit dsw1 k) + 2 * Z.b2z (Z.testbit dsw1 (k + 4))
  + 4 * Z.b2z (Z.testbit dsw2 k) + 8 * Z.b2z (Z.testbit dsw2 (k + 4)).
Proof.
  intros Hk. unfold dsw_bits. rewrite !BIT_b2z by lia.
  destruct (Z.testbit dsw1 k), (Z.testbit dsw1 (k + 4)),
           (Z.testbit dsw2 k), (Z.testbit dsw2 (k + 4)); reflexivity.
Qed.

(** X13.  [beast_p3_r] multiplexes the sixteen DIP switches onto its high
    nibble, four at a time, inverted: with [k] the selector in bits 5-6 of
    the retained port-0 value, bits 4, 5, 6, 7 of the byte are the
    complements of DSW1 bit [k], DSW1 bit [k + 4], DSW2 bit [k] and DSW2
    bit [k + 4].  Bits 0 and 1 are always 0.  The four selectors together
    show every switch once. *)
Theorem beast_p3_r_dip_switches (io : ioports) (s : djboy_state) :
  let k := Z.land (Z.shiftr (m_beast_p0 s) 5) 3 in
  let v := eval (beast_p3_r io) s in
  0 <= k <= 3 /\
  0 <= v < 256 /\
  Z.testbit v 0 = false /\
  Z.testbit v 1 = false /\
  Z.testbit v 4 = negb (Z.testbit (DSW1 io) k) /\
  Z.testbit v 5 = negb (Z.testbit (DSW1 io) (k + 4)) /\
  Z.testbit v 6 = negb (Z.testbit (DSW2 io) k) /\
  Z.testbit v 7 = negb (Z.testbit (DSW2 io) (k + 4)).
Proof.
  intros k v.
  assert (Hk : 0 <= k <= 3) by apply selector_bound.
  assert (Hv : v =
    u8 (Z.lor (Z.lor (Z.shiftl
                        (dsw_bits (not8 (DSW1 io)) (not8 (DSW2 io)) k) 4)
                     (if latch_pending_r (m_beastlatch s) then 0x0 else 0x4))
              (if latch_pending_r (m_slavelatch s) then 0x8 else 0x0))).
  { subst v. unfold beast_p3_r, eval, mbind, M_bind, mret, M_ret, gets,
      latch_dev_pending_r, m_port_dsw. cbn [fst snd]. fold k.
    assert (Hc : k = 0 \/ k = 1 \/ k = 2 \/ k = 3) by lia.
    destruct Hc as [E|[E|[E|E]]]; rewrite E; reflexivity. }
  split; [exact Hk|].
  split; [rewrite Hv; apply u8_is_u8|].
  rewrite Hv. rewrite dsw_bits_spec by lia.
  rewrite !testbit_not8 by lia.
  rewrite !testbit_u8 by lia.
  destruct (Z.testbit (DSW1 io) k), (Z.testbit (DSW1 io) (k + 4)),
           (Z.testbit (DSW2 io) k), (Z.testbit (DSW2 io) (k + 4)),
           (latch_pending_r (m_beastlatch s)),
           (latch_pending_r (m_slavelatch s));
    repeat split; reflexivity.
Qed.

Lemma slave_port_04_r_run (io : ioports) (s : djboy_state) :
  m_separate_acknowledge (m_slavelatch s) = false ->
  eval (run io Slave_port_04_r) s = m_latched_value (m_slavelatch s) /\
  m_slavelatch (exec (run io Slave_port_04_r) s)
    = set_latch_written false (m_slavelatch s) /\
  m_beastlatch (exec (run io Slave_port_04_r) s) = m_beastlatch s.
Proof.
  intros Hsep. unfold run, eval, exec, latch_dev_read, latch_read.
  cbn [get_latch]. rewrite Hsep. repeat split; reflexivity.
Qed.

(** X14.  The mailbox from the BEAST to the slave CPU.  With bit 1 of the
    retained port-0 value low, the BEAST puts [v] on port 1 and raises
    bit 1 of port 0: the slave then sees its latch pending (bit 2 of
    [beast_status_r] is 0, bit 3 of the BEAST's own port 3 is 1), reads
    [v] at port 0x04, and that read, the slave latch being acknowledged
    by reading, clears the pending flag again. *)
Theorem beast_to_slave_mailbox
    (io : ioports) (s : djboy_state) (v d : Z) :
  m_separate_acknowledge (m_slavelatch s) = false ->
  Z.testbit (m_beast_p0 s) 1 = false ->
  Z.testbit d 1 = true ->
  let s1 := exec (beast_p1_w v;; beast_p0_w d) s in
  let s2 := exec (run io Slave_port_04_r) s1 in
  Z.testbit (eval beast_status_r s1) 2 = false /\
  Z.testbit (eval (beast_p3_r io) s1) 3 = true /\
  eval (run io Slave_port_04_r) s1 = v /\
  Z.testbit (eval beast_status_r s2) 2 = true /\
  Z.testbit (eval (beast_p3_r io) s2) 3 = false /\
  eval (run io Slave_port_04_r) s2 = v.
Proof.
  intros Hsep Hp0 Hd s1 s2.
  assert (Hs1 : m_slavelatch s1 = latch_write v (m_slavelatch s)).
  { subst s1.
    change (exec (beast_p1_w v;; beast_p0_w d) s)
      with (exec (beast_p0_w d) (set_m_beast_p1 v s)).
    rewrite beast_p0_w_exec. cbn [m_beast_p0 set_m_beast_p1].
    rewrite Hp0, Hd. cbn [negb andb].
    destruct (negb (Z.testbit d 0)); reflexivity. }
  assert (Hsep1 : m_separate_acknowledge (m_slavelatch s1) = false).
  { rewrite Hs1. exact Hsep. }
  destruct (slave_port_04_r_run io s1 Hsep1) as (Hv & Hl & _).
  assert (Hbit3 : forall x : djboy_state,
             Z.testbit (eval (beast_p3_r io) x) 3
             = latch_pending_r (m_slavelatch x)).
  { intros x.
    assert (E : Z.testbit (eval (beast_p3_r io) x) 3
                = Z.testbit (Z.land (eval (beast_p3_r io) x) 0xf) 3).
    { rewrite Z.land_spec. change (Z.testbit 0xf 3) with true.
      rewrite andb_true_r. reflexivity. }
    rewrite E, beast_p3_r_low.
    destruct (latch_pending_r (m_beastlatch x)),
             (latch_pending_r (m_slavelatch x)); reflexivity. }
  assert (Hbit2 : forall x : djboy_state,
             Z.testbit (eval beast_status_r x) 2
             = negb (latch_pending_r (m_slavelatch x))).
  { intros x. unfold eval. rewrite beast_status_r_run. cbn [fst].
    destruct (latch_pending_r (m_beastlatch x)),
             (latch_pending_r (m_slavelatch x)); reflexivity. }
  assert (Hs2 : m_slavelatch s2 = set_latch_written false (m_slavelatch s1)).
  { exact Hl. }
  assert (Hsep2 : m_separate_acknowledge (m_slavelatch s2) = false).
  { rewrite Hs2. exact Hsep1. }
  destruct (slave_port_04_r_run io s2 Hsep2) as (Hv2 & _ & _).
  repeat apply conj.
  - rewrite Hbit2, Hs1. reflexivity.
  - rewrite Hbit3, Hs1. reflexivity.
  - rewrite Hv, Hs1. reflexivity.
  - rewrite Hbit2, Hs2. reflexivity.
  - rewrite Hbit3, Hs2. reflexivity.
  - rewrite Hv2, Hs2, Hs1. reflexivity.
Qed.

(** The mailbox theorem on a freshly started machine: the BEAST posts
    0x5a, the slave reads 0x5a. *)
Lemma beast_to_slave_mailbox_witness :
  let io := {| IN0 := 0xff; IN1 := 0xff; IN2 := 0xff;
               DSW1 := 0x00; DSW2 := 0x80 |} in
  eval (run io Slave_port_04_r)
    (exec (beast_p1_w 0x5a;; beast_p0_w 0x03) (boot djboy blank)) = 0x5a.
Proof.
  intros io.
  destruct (beast_to_slave_mailbox io (boot djboy blank) 0x5a 0x03
              eq_refl eq_refl eq_refl) as (_ & _ & H & _).
  exact H.
Defined.

(** X15.  The sound command path.  With the sound latch as the machine
    configuration adds it (acknowledged by reading, wired to the sound
    CPU's NMI), a write of [v] to slave port 0x02 raises the NMI line; the
    sound CPU's read of port 0x04 returns [v] and lowers the line; and no
    access other than these two moves the line. *)
Theorem sound_command_handshake
    (g : game) (s0 s : djboy_state) (io : ioports) (v : Z) (a : access) :
  m_separate_acknowledge (m_soundlatch s) = false ->
  m_data_pending_cb (m_soundlatch s) = Some ("soundcpu", INPUT_LINE_NMI) ->
  let s1 := exec (run io (Slave_port_02_w v)) s in
  let s2 := exec (run io Sound_port_04_r) s1 in
  m_separate_acknowledge (m_soundlatch (boot g s0)) = false /\
  m_data_pending_cb (m_soundlatch (boot g s0))
    = Some ("soundcpu", INPUT_LINE_NMI) /\
  latch_line (m_soundlatch s1)
    = Some ("soundcpu", INPUT_LINE_NMI, ASSERT_LINE) /\
  eval (run io Sound_port_04_r) s1 = v /\
  latch_line (m_soundlatch s2)
    = Some ("soundcpu", INPUT_LINE_NMI, CLEAR_LINE) /\
  (latch_line (m_soundlatch (exec (run io a) s))
     <> latch_line (m_soundlatch s) ->
   (exists x, a = Slave_port_02_w x) \/ a = Sound_port_04_r).
Proof.
  intros Hsep Hcb s1 s2.
  split; [destruct g; reflexivity|].
  split; [destruct g; reflexivity|].
  assert (Hs1 : m_soundlatch s1 = latch_write v (m_soundlatch s)).
  { reflexivity. }
  assert (Hr : forall x : djboy_state,
             m_separate_acknowledge (m_soundlatch x) = false ->
             eval (run io Sound_port_04_r) x
               = m_latched_value (m_soundlatch x) /\
             m_soundlatch (exec (run io Sound_port_04_r) x)
               = set_latch_written false (m_soundlatch x)).
  { intros x Hx. unfold run, eval, exec, latch_dev_read, latch_read.
    cbn [get_latch]. rewrite Hx. split; reflexivity. }
  destruct (Hr s1) as [Hv Hl]; [rewrite Hs1; exact Hsep|].
  split.
  { rewrite Hs1. unfold latch_line, latch_write.
    cbn [m_data_pending_cb m_latch_written]. rewrite Hcb. reflexivity. }
  split; [rewrite Hv, Hs1; reflexivity|].
  split.
  { unfold s2. rewrite Hl, Hs1. unfold latch_line, latch_write,
      set_latch_written. cbn [m_data_pending_cb m_latch_written].
    rewrite Hcb. reflexivity. }
  intros Hne.
  destruct a; try (right; reflexivity); try (left; eexists; reflexivity);
    exfalso; apply Hne; clear Hne;
    unfold run; rewrite ?exec_wr;
    rewrite ?slavecpu_bankswitch_w_exec, ?beast_p0_w_exec,
            ?beast_p2_r_state, ?beast_p3_r_state;
    unfold exec; rewrite ?beast_p1_r_run;
    unfold latch_dev_read, latch_read;
    repeat match goal with
           | |- context [if ?c then _ else _] => destruct c
           end; reflexivity.
Qed.

(** The handshake on a freshly started machine with the command 0x21. *)
Lemma sound_command_handshake_witness :
  let io := {| IN0 := 0xff; IN1 := 0xff; IN2 := 0xff;
               DSW1 := 0x00; DSW2 := 0x80 |} in
  eval (run io Sound_port_04_r)
    (exec (run io (Slave_port_02_w 0x21)) (boot djboy blank)) = 0x21.
Proof.
  intros io.
  destruct (sound_command_handshake djboy blank (boot djboy blank) io 0x21
              Sound_port_04_r eq_refl eq_refl) as (_ & _ & _ & H & _).
  exact H.
Defined.

End DjboyMailboxes.

(* ===================================================================== *)
(** ** The brick game display latch *)
(* ===================================================================== *)

Section BrickGameDisplay.
Import Ht11xx.

(** The four outputs a data nibble is spread over. *)
Lemma land_15_bits (x : Z) :
  Z.land x 0xf =
  Z.b2z (Z.testbit x 0) + 2 * Z.b2z (Z.testbit x 1)
  + 4 * Z.b2z (Z.testbit x 2) + 8 * Z.b2z (Z.testbit x 3).
Proof.
  apply Z.bits_inj'. intros k Hk.
  rewrite Z.land_spec. change 0xf with (Z.ones 4).
  destruct (Z.ltb_spec k 4) as [Hlt|Hge].
  - rewrite Z.ones_spec_low, andb_true_r by lia.
    assert (Hc : k = 0 \/ k = 1 \/ k = 2 \/ k = 3) by lia.
    destruct Hc as [->|[->|[->| ->]]];
      destruct (Z.testbit x 0), (Z.testbit x 1),
               (Z.testbit x 2), (Z.testbit x 3); reflexivity.
  - rewrite Z.ones_spec_high, andb_false_r by lia.
    symmetry.
    destruct (Z.testbit x 0), (Z.testbit x 1),
             (Z.testbit x 2), (Z.testbit x 3); cbn [Z.b2z];
      match goal with
      | |- Z.testbit ?c k = false =>
          rewrite <- (Z.mod_small c (2 ^ 4)) by (simpl; lia);
          apply Z.mod_pow2_bits_high; lia
      end.
Qed.

Lemma out_set_lookup (row col v : Z) (o : outputs) (r : list Z) :
  0 <= row < rows -> 0 <= col < cols ->
  length o = Z.to_nat rows ->
  o !! Z.to_nat row = Some r ->
  exists o' : outputs,
    out_set row col v o = Some o' /\
    length o' = length o /\
    o' !! Z.to_nat row = Some (<[Z.to_nat col := v]> r) /\
    (forall n : nat, n <> Z.to_nat row -> o' !! n = o !! n).
Proof.
  intros Hrow Hcol Hlen Hr. unfold out_set.
  destruct (Z.leb_spec 0 row); [|lia].
  destruct (Z.ltb_spec row rows); [|lia].
  destruct (Z.leb_spec 0 col); [|lia].
  destruct (Z.ltb_spec col cols); [|lia].
  cbn [andb]. rewrite Hr. cbn.
  eexists. split; [reflexivity|].
  split; [apply length_insert|].
  split.
  - apply list_lookup_insert_eq. rewrite Hlen. unfold rows in *. lia.
  - intros n Hn. apply list_lookup_insert_ne. congruence.
Qed.

(** One write, by what can be looked up afterwards. *)
Lemma display_data_w_lookup (offset data : Z) (o : outputs) :
  0 <= offset < 0x50 -> well_formed o ->
  exists o' : outputs,
    display_data_w offset data o = Some o' /\
    well_formed o' /\
    o' !! Z.to_nat (offset + 0xb0)
      = Some [BIT data 0; BIT data 1; BIT data 2; BIT data 3] /\
    (forall n : nat, n <> Z.to_nat (offset + 0xb0) -> o' !! n = o !! n).
Proof.
  intros Hoff [Hlen Hrows].
  assert (Hrow : 0 <= offset + 0xb0 < rows) by (unfold rows; lia).
  destruct (lookup_lt_is_Some_2 o (Z.to_nat (offset + 0xb0))) as [r Hr].
  { rewrite Hlen. unfold rows. lia. }
  pose proof (Hrows _ _ Hr) as Hrl.
  destruct r as [|a [|b [|c [|d [|x r]]]]]; try discriminate Hrl.
  unfold display_data_w. change (seqZ 0 4) with [0; 1; 2; 3].
  cbn [foldl]. cbn [mbind option_bind].
  destruct (out_set_lookup (offset + 0xb0) 0 (Z.land (Z.shiftr data 0) 1)
              o _ Hrow ltac:(unfold cols; lia) Hlen Hr)
    as (o1 & E1 & L1 & R1 & F1).
  rewrite E1. cbn [mbind option_bind].
  destruct (out_set_lookup (offset + 0xb0) 1 (Z.land (Z.shiftr data 1) 1)
              o1 _ Hrow ltac:(unfold cols; lia) ltac:(congruence) R1)
    as (o2 & E2 & L2 & R2 & F2).
  rewrite E2. cbn [mbind option_bind].
  destruct (out_set_lookup (offset + 0xb0) 2 (Z.land (Z.shiftr data 2) 1)
              o2 _ Hrow ltac:(unfold cols; lia) ltac:(congruence) R2)
    as (o3 & E3 & L3 & R3 & F3).
  rewrite E3. cbn [mbind option_bind].
  destruct (out_set_lookup (offset + 0xb0) 3 (Z.land (Z.shiftr data 3) 1)
              o3 _ Hrow ltac:(unfold cols; lia) ltac:(congruence) R3)
    as (o4 & E4 & L4 & R4 & F4).
  rewrite E4.
  exists o4. split; [reflexivity|].
  assert (Hother : forall n : nat,
             n <> Z.to_nat (offset + 0xb0) -> o4 !! n = o !! n).
  { intros n Hn. rewrite F4, F3, F2, F1 by exact Hn. reflexivity. }
  split; [| split; [exact R4 | exact Hother]].
  split; [congruence|].
  intros n row Hn.
  destruct (Nat.eq_dec n (Z.to_nat (offset + 0xb0))) as [->|Hne].
  - rewrite R4 in Hn. injection Hn as <-. reflexivity.
  - rewrite Hother in Hn by exact Hne. apply (Hrows _ _ Hn).
Qed.

(** X16.  [display_data_w offset data], for the offsets 0-0x4f that fall
    inside the 256 rows, sets the four outputs of row [offset + 0xb0] to
    bits 0-3 of [data], each output 0 or 1, so that the row stands for the
    low nibble of [data]; the high nibble is ignored, every other row
    keeps its outputs, and the array keeps its shape. *)
Theorem display_data_w_shows_low_nibble
    (offset data : Z) (o : outputs) :
  0 <= offset < 0x50 -> well_formed o ->
  exists (o' : outputs) (row : list Z),
    display_data_w offset data o = Some o' /\
    well_formed o' /\
    o' !! Z.to_nat (offset + 0xb0) = Some row /\
    row = [Z.b2z (Z.testbit data 0); Z.b2z (Z.testbit data 1);
           Z.b2z (Z.testbit data 2); Z.b2z (Z.testbit data 3)] /\
    row_value row = Z.land data 0xf /\
    display_data_w offset (Z.land data 0xf) o = Some o' /\
    (forall n : nat, n <> Z.to_nat (offset + 0xb0) -> o' !! n = o !! n).
Proof.
  intros Hoff Hwf.
  destruct (display_data_w_lookup offset data o Hoff Hwf)
    as (o' & E & W & R & F).
  destruct (display_data_w_lookup offset (Z.land data 0xf) o Hoff Hwf)
    as (o2 & E2 & W2 & R2 & F2).
  assert (Hbits : forall k, 0 <= k < 4 ->
             BIT (Z.land data 0xf) k = BIT data k).
  { intros k Hk. rewrite !BIT_b2z by lia. rewrite Z.land_spec.
    change 0xf with (Z.ones 4). rewrite Z.ones_spec_low by lia.
    rewrite andb_true_r. reflexivity. }
  rewrite !Hbits in R2 by lia.
  unfold outputs in *.
  assert (Heq : o2 = o').
  { apply list_eq. intros n.
    destruct (Nat.eq_dec n (Z.to_nat (offset + 0xb0))) as [->|Hne].
    - rewrite R, R2. reflexivity.
    - rewrite F, F2 by exact Hne. reflexivity. }
  exists o', [BIT data 0; BIT data 1; BIT data 2; BIT data 3].
  split; [exact E|]. split; [exact W|]. split; [exact R|].
  split; [rewrite !BIT_b2z by lia; reflexivity|].
  split.
  { rewrite !BIT_b2z by lia. rewrite land_15_bits.
    unfold row_value. cbn [foldr]. lia. }
  split; [rewrite E2, Heq; reflexivity | exact F].
Qed.

(** The display theorem at offset 0x10 with data 0xa5: row 0xc0 shows
    1, 0, 1, 0. *)
Lemma display_data_w_shows_low_nibble_witness :
  exists o' : outputs,
    display_data_w 0x10 0xa5 resolved = Some o' /\
    o' !! Z.to_nat 0xc0 = Some [1; 0; 1; 0].
Proof.
  assert (Hwf : well_formed resolved).
  { split; [reflexivity|]. intros r row Hr.
    apply lookup_replicate in Hr as [-> _]. reflexivity. }
  destruct (display_data_w_shows_low_nibble 0x10 0xa5 resolved
              ltac:(lia) Hwf) as (o' & row & E & _ & R & Hrow & _).
  exists o'. split; [exact E|].
  etransitivity; [exact R|]. rewrite Hrow. reflexivity.
Defined.

(** X17.  Writes to the display compose row by row: two writes at
    different offsets leave both rows showing their own data and give the
    same outputs in either order, and of two writes at the same offset the
    second alone counts. *)
Theorem display_data_w_rows_are_independent
    (off1 off2 d1 d2 : Z) (o : outputs) :
  0 <= off1 < 0x50 -> 0 <= off2 < 0x50 -> well_formed o ->
  exists o1 o12 o2 o21 : outputs,
    display_data_w off1 d1 o = Some o1 /\
    display_data_w off2 d2 o1 = Some o12 /\
    display_data_w off2 d2 o = Some o2 /\
    display_data_w off1 d1 o2 = Some o21 /\
    o12 !! Z.to_nat (off2 + 0xb0)
      = Some [BIT d2 0; BIT d2 1; BIT d2 2; BIT d2 3] /\
    (off1 <> off2 ->
     o12 !! Z.to_nat (off1 + 0xb0)
       = Some [BIT d1 0; BIT d1 1; BIT d1 2; BIT d1 3] /\
     o12 = o21) /\
    (off1 = off2 -> o12 = o2).
Proof.
  intros H1 H2 Hwf.
  destruct (display_data_w_lookup off1 d1 o H1 Hwf)
    as (o1 & E1 & W1 & R1 & F1).
  destruct (display_data_w_lookup off2 d2 o1 H2 W1)
    as (o12 & E12 & W12 & R12 & F12).
  destruct (display_data_w_lookup off2 d2 o H2 Hwf)
    as (o2 & E2 & W2 & R2 & F2).
  destruct (display_data_w_lookup off1 d1 o2 H1 W2)
    as (o21 & E21 & W21 & R21 & F21).
  exists o1, o12, o2, o21. unfold outputs in *.
  split; [exact E1|]. split; [exact E12|]. split; [exact E2|].
  split; [exact E21|]. split; [exact R12|].
  split.
  - intros Hne.
    assert (Hn : Z.to_nat (off1 + 0xb0) <> Z.to_nat (off2 + 0xb0)) by lia.
    split.
    + rewrite F12 by exact Hn. exact R1.
    + apply list_eq. intros n.
      destruct (Nat.eq_dec n (Z.to_nat (off2 + 0xb0))) as [->|Hn2].
      * rewrite R12. rewrite F21 by congruence. rewrite R2. reflexivity.
      * rewrite F12 by exact Hn2.
        destruct (Nat.eq_dec n (Z.to_nat (off1 + 0xb0))) as [->|Hn1].
        { rewrite R1, R21. reflexivity. }
        { rewrite F1, F21, F2 by assumption. reflexivity. }
  - intros ->. apply list_eq. intros n.
    destruct (Nat.eq_dec n (Z.to_nat (off2 + 0xb0))) as [->|Hn2].
    + rewrite R12, R2. reflexivity.
    + rewrite F12, F1, F2 by exact Hn2. reflexivity.
Qed.

(** The composition theorem for the rows 0xb0 and 0xb1. *)
Lemma display_data_w_rows_are_independent_witness :
  exists o1 o12 : outputs,
    display_data_w 0 0x3 resolved = Some o1 /\
    display_data_w 1 0xc o1 = Some o12 /\
    o12 !! Z.to_nat 0xb0 = Some [1; 1; 0; 0] /\
    o12 !! Z.to_nat 0xb1 = Some [0; 0; 1; 1].
Proof.
  assert (Hwf : well_formed resolved).
  { split; [reflexivity|]. intros r row Hr.
    apply lookup_replicate in Hr as [-> _]. reflexivity. }
  destruct (display_data_w_rows_are_independent 0 1 0x3 0xc resolved
              ltac:(lia) ltac:(lia) Hwf)
    as (o1 & o12 & o2 & o21 & E1 & E12 & _ & _ & R2 & H & _).
  destruct H as [R1 _]; [lia|].
  exists o1, o12. split; [exact E1|]. split; [exact E12|].
  split; [exact R1 | exact R2].
Defined.

End BrickGameDisplay.

(* ===================================================================== *)
(** ** The tables of the DJ Boy driver: layout, ROMs, switches *)
(* ===================================================================== *)

Section DjboyTableFacts.
Import Djboy DjboyTables.

Lemma in_seqZ (k lo n : Z) : lo <= k < lo + n -> In k (seqZ lo n).
Proof. intros H. apply list_elem_of_In. apply elem_of_seqZ. exact H. Qed.

(** X18.  [tile_layout] uses every bit of a character exactly once: the
    three offsets of a plane (0-3) and a pixel (0-15, 0-15) always add up
    to a bit inside the 16*16*4 bits of the character, different planes
    and pixels give different bits, and every bit of the character is the
    bit of one plane of one pixel. *)
Theorem tile_layout_fills_the_character (p x y : nat) (b : Z) :
  length (planeoffset tile_layout) = Z.to_nat (planes tile_layout) /\
  length (xoffset tile_layout) = Z.to_nat (width tile_layout) /\
  length (yoffset tile_layout) = Z.to_nat (height tile_layout) /\
  ((p < 4)%nat -> (x < 16)%nat -> (y < 16)%nat ->
   exists c : Z,
     pixel_bit tile_layout p x y = Some c /\
     0 <= c < charincrement tile_layout /\
     pixel_of_bit c = (p, x, y)) /\
  (0 <= b < charincrement tile_layout ->
   exists p' x' y' : nat,
     pixel_of_bit b = (p', x', y') /\
     (p' < 4)%nat /\ (x' < 16)%nat /\ (y' < 16)%nat /\
     pixel_bit tile_layout p' x' y' = Some b).
Proof.
  split; [reflexivity|]. split; [reflexivity|]. split; [reflexivity|].
  split.
  - intros Hp Hx Hy.
    pose (ok := fun (p x y : nat) =>
      match pixel_bit tile_layout p x y with
      | Some c =>
          (0 <=? c) && (c <? charincrement tile_layout)
          && (let '(p', x', y') := pixel_of_bit c in
              Nat.eqb p' p && Nat.eqb x' x && Nat.eqb y' y)
      | None => false
      end).
    assert (Hall : forallb (fun p => forallb (fun x => forallb (ok p x)
                     (seq 0 16)) (seq 0 16)) (seq 0 4) = true)
      by (vm_compute; reflexivity).
    rewrite forallb_forall in Hall.
    specialize (Hall p ltac:(apply in_seq; lia)).
    rewrite forallb_forall in Hall.
    specialize (Hall x ltac:(apply in_seq; lia)).
    rewrite forallb_forall in Hall.
    specialize (Hall y ltac:(apply in_seq; lia)).
    unfold ok in Hall.
    destruct (pixel_bit tile_layout p x y) as [c|]; [|discriminate].
    exists c. split; [reflexivity|].
    apply andb_prop in Hall as [Hr Hi]. apply andb_prop in Hr as [H0 H1].
    apply Z.leb_le in H0. apply Z.ltb_lt in H1.
    split; [lia|].
    destruct (pixel_of_bit c) as [[p' x'] y'].
    apply andb_prop in Hi as [Hi Hy']. apply andb_prop in Hi as [Hp' Hx'].
    apply Nat.eqb_eq in Hp', Hx', Hy'. congruence.
  - intros Hb.
    pose (ok := fun b : Z =>
      let '(p', x', y') := pixel_of_bit b in
      Nat.ltb p' 4 && Nat.ltb x' 16 && Nat.ltb y' 16
      && match pixel_bit tile_layout p' x' y' with
         | Some c => c =? b
         | None => false
         end).
    assert (Hall : forallb ok (seqZ 0 1024) = true)
      by (vm_compute; reflexivity).
    rewrite forallb_forall in Hall.
    specialize (Hall b (in_seqZ b 0 1024 Hb)). unfold ok in Hall.
    destruct (pixel_of_bit b) as [[p' x'] y'].
    exists p', x', y'. split; [reflexivity|].
    apply andb_prop in Hall as [Hall Hc]. apply andb_prop in Hall as [Hall Hy].
    apply andb_prop in Hall as [Hp Hx].
    apply Nat.ltb_lt in Hp, Hx, Hy.
    destruct (pixel_bit tile_layout p' x' y') as [c|]; [|discriminate].
    apply Z.eqb_eq in Hc. subst c. repeat split; assumption.
Qed.

(** The layout theorem at plane 2 of pixel (9, 10): bit 838. *)
Lemma tile_layout_fills_the_character_witness :
  pixel_bit tile_layout 2 9 10 = Some 838 /\ pixel_of_bit 838 = (2, 9, 10)%nat.
Proof.
  destruct (tile_layout_fills_the_character 2 9 10 838)
    as (_ & _ & _ & H1 & H2).
  destruct H2 as (p' & x' & y' & E & _ & _ & _ & Hb);
    [vm_compute; split; [discriminate | reflexivity]|].
  vm_compute in E. injection E as <- <- <-.
  split; [exact Hb | reflexivity].
Defined.

Ltac split_bounds :=
  repeat match goal with
  | |- context [Z.leb ?x ?y] =>
      destruct (Z.leb_spec x y); cbn [andb length]; try (exfalso; lia)
  | |- context [Z.ltb ?x ?y] =>
      destruct (Z.ltb_spec x y); cbn [andb length]; try (exfalso; lia)
  end.

Ltac region_cases H :=
  cbn [In roms rom_djboy rom_djboya rom_djboyj region_loads] in H;
  repeat match type of H with
         | _ \/ _ => destruct H as [H|H]
         end;
  [subst .. | contradiction].

(** X19.  In all three ROM sets every load lies inside its region and
    every byte of every region is loaded.  Outside "gfx1" no byte is
    loaded twice.  In "gfx1" the fifth load lies over the end of the
    fourth: the bytes 0x1f0000-0x1fffff are loaded twice (the later load
    counts), and they are exactly the last 0x200 characters of
    [tile_layout], as the source comment says. *)
Theorem rom_regions_are_filled (g : game) (r : rom_region) (a : Z) :
  In r (roms g) ->
  (forall l : rom_load, In l (region_loads r) ->
     0 <= rom_offset l /\ 0 < rom_length l /\
     rom_offset l + rom_length l <= region_length r) /\
  (0 <= a < region_length r -> (1 <= length (loads_at r a))%nat) /\
  (region_tag r <> "gfx1" -> (length (loads_at r a) <= 1)%nat) /\
  (region_tag r = "gfx1" ->
   (length (loads_at r a) <= 2)%nat /\
   (length (loads_at r a) = 2%nat <-> 0x1f0000 <= a < 0x200000) /\
   (0x200000 - 0x1f0000) * 8 = 0x200 * charincrement tile_layout).
Proof.
  intros Hr.
  destruct g; region_cases Hr;
    (split; [intros l Hl; region_cases Hl; cbn; lia|]);
    (split; [intros Ha; unfold loads_at;
             cbn [region_loads List.filter rom_offset rom_length] in *;
             cbn [region_length] in Ha;
             split_bounds; cbn [length]; lia|]);
    (split; [intros Ht; first [ exfalso; apply Ht; reflexivity
                              | unfold loads_at;
                                cbn [region_loads List.filter rom_offset
                                     rom_length];
                                split_bounds; cbn [length]; lia ]|]);
    (intros Ht; first [ discriminate Ht
                      | unfold loads_at;
                        cbn [region_loads List.filter rom_offset rom_length];
                        split; [| split; [| reflexivity]];
                        split_bounds; cbn [length];
                        first [lia | split; intros; first [lia | discriminate]] ]).
Qed.

(** The ROM theorem at byte 0x1f8000 of "gfx1" in the Japanese set: it is
    in both the last mask ROM and the overlay. *)
Lemma rom_regions_are_filled_witness :
  exists r : rom_region,
    In r (roms djboyj) /\ region_tag r = "gfx1" /\
    rom_name <$> loads_at r 0x1f8000 = ["bs003.1k"; "bsxx.1b"].
Proof.
  destruct (nth_error (roms djboyj) 4) as [r|] eqn:E; [|discriminate E].
  exists r.
  assert (Hin : In r (roms djboyj)) by (eapply nth_error_In; exact E).
  destruct (rom_regions_are_filled djboyj r 0x1f8000 Hin) as (_ & _ & _ & H).
  injection E as <-. split; [exact Hin|]. split; [reflexivity|].
  destruct (H eq_refl) as (_ & _ & _). reflexivity.
Defined.

(** X20.  The DIP switch tables leave nothing open: on both switch ports
    every bit belongs to exactly one field, and for every byte the
    switches can show each field has exactly one setting whose value is
    the byte under the field's mask; the default of a field is one of its
    settings. *)
Theorem dip_switches_decode (v k : Z) (f : dip_field) :
  is_u8 v -> 0 <= k < 8 -> In f (DSW1_fields ++ DSW2_fields) ->
  length (fields_of_bit DSW1_fields k) = 1%nat /\
  length (fields_of_bit DSW2_fields k) = 1%nat /\
  length (selected v f) = 1%nat /\
  length (selected (dip_default f) f) = 1%nat /\
  (forall st, In st (dip_settings f) ->
     Z.land (fst st) (dip_mask f) = fst st).
Proof.
  intros Hv Hk Hf.
  assert (Hbits : forallb (fun k =>
             Nat.eqb (length (fields_of_bit DSW1_fields k)) 1
             && Nat.eqb (length (fields_of_bit DSW2_fields k)) 1)
             (seqZ 0 8) = true) by (vm_compute; reflexivity).
  rewrite forallb_forall in Hbits.
  specialize (Hbits k (in_seqZ k 0 8 Hk)).
  apply andb_prop in Hbits as [B1 B2]. apply Nat.eqb_eq in B1, B2.
  assert (Hsel : forallb (fun f => forallb (fun v =>
             Nat.eqb (length (selected v f)) 1) (seqZ 0 256))
             (DSW1_fields ++ DSW2_fields) = true)
    by (vm_compute; reflexivity).
  rewrite forallb_forall in Hsel. specialize (Hsel f Hf).
  rewrite forallb_forall in Hsel.
  assert (Hdef : forallb (fun f =>
             Nat.eqb (length (selected (dip_default f) f)) 1
             && forallb (fun st => Z.land (fst st) (dip_mask f) =? fst st)
                        (dip_settings f))
             (DSW1_fields ++ DSW2_fields) = true)
    by (vm_compute; reflexivity).
  rewrite forallb_forall in Hdef. specialize (Hdef f Hf).
  apply andb_prop in Hdef as [D1 D2]. apply Nat.eqb_eq in D1.
  rewrite forallb_forall in D2.
  split; [exact B1|]. split; [exact B2|].
  split.
  { apply Nat.eqb_eq. apply Hsel. apply in_seqZ. unfold is_u8 in Hv. lia. }
  split; [exact D1|].
  intros st Hst. apply Z.eqb_eq. apply D2. exact Hst.
Qed.

(** The switch theorem for the byte 0x9a on DSW2: the "Lives" field reads
    its setting "3". *)
Lemma dip_switches_decode_witness :
  exists f : dip_field,
    In f (DSW1_fields ++ DSW2_fields) /\
    dip_name f = "Lives" /\ selected 0x9a f = [(0x10, "3")].
Proof.
  destruct (nth_error (DSW1_fields ++ DSW2_fields) 8) as [f|] eqn:E;
    [|discriminate E].
  exists f.
  assert (Hin : In f (DSW1_fields ++ DSW2_fields))
    by (eapply nth_error_In; exact E).
  assert (Hv : is_u8 0x9a) by (unfold is_u8; lia).
  destruct (dip_switches_decode 0x9a 4 f Hv ltac:(lia) Hin) as (_ & _ & H & _).
  injection E as <-. split; [exact Hin|]. split; reflexivity.
Defined.

End DjboyTableFacts.
